(** * Atlas_demo.py: the MindFrame teaching-assistant demo

    A shallow embedding of [src/Atlas_demo.py], a single-file Streamlit
    application, and the proofs of the properties its specification states.

    Conventions of the embedding.
    - A Python [str] is the list of its Unicode code points ([pystr]);
      [str.strip()] removes Unicode white space, so bytes would not do.
    - A Python [float] is an exact rational ([Q]): the literals [0.4],
      [0.6], ... stand for 4/10, 6/10, ... and no rounding happens.  NaN
      and infinities are not values of the model.
    - A script run threads a [world] through ([Script] monad):
      [st.session_state], the [random] module's generator, the records
      that [@st.cache_data] remembers, the input that the browser sent
      with the run, and the page that the [st.*] calls build up.
      An exception stops the run and keeps the world as it was when
      the exception was raised, as the interpreter does.
    - Streamlit itself is not part of the repository: every [st.*] call is
      an element appended to the page, input widgets return the value the
      run's input record holds for them.  [st.tag], which stock Streamlit
      lacks (the source says so), raises [AttributeError]; a plotly chart
      without data raises [ValueError].
    - The generator of the [random] module is the sequence of raw values it
      is going to deliver; [random()], [uniform], [randint], [choice] and
      [sample] are written over it as CPython's [random.py] writes them
      over [random()] and [_randbelow].

    Embedded: the session initialisation, the two data generators, the
    assignment setup tab, the student experience tab, the student report
    tab, and the tables that the class trends tab computes.  The page of
    the class trends tab and [main], which runs the four tabs one after
    the other, are not embedded. *)

From Stdlib Require Import ZArith NArith QArith Qround String Ascii List Bool Lia.
From Stdlib Require Import DecimalString.
From stdpp Require Import base gmap.
Import ListNotations.

Local Open Scope Z_scope.

(* ===================================================================== *)
(** ** Python strings                                                     *)
(* ===================================================================== *)

Module Py.

(** A [str] value: the sequence of its code points. *)
Definition pystr := list N.

(** An ASCII literal of the source. *)
Definition py (s : string) : pystr :=
  List.map N_of_ascii (list_ascii_of_string s).

(** [chr(10)], the line feed. *)
Definition LF : N := 10%N.

(** The double quote, which the literals below cannot hold. *)
Definition DQUOTE : N := 34%N.

(** [c.isspace()] for one code point: CPython's
    [_PyUnicode_IsWhitespace] table. *)
Definition isspace (c : N) : bool :=
  ((9 <=? c) && (c <=? 13) || (28 <=? c) && (c <=? 32)
   || (c =? 133) || (c =? 160) || (c =? 5760)
   || (8192 <=? c) && (c <=? 8202)
   || (c =? 8232) || (c =? 8233) || (c =? 8239) || (c =? 8287)
   || (c =? 12288))%N.

(** [s.lstrip()] *)
Fixpoint lstrip (s : pystr) : pystr :=
  match s with
  | [] => []
  | c :: s' => if isspace c then lstrip s' else s
  end.

(** [s.rstrip()] *)
Definition rstrip (s : pystr) : pystr := rev (lstrip (rev s)).

(** [s.strip()] *)
Definition strip (s : pystr) : pystr := rstrip (lstrip s).

(** Truth value of a string: non-empty. *)
Definition truthy (s : pystr) : bool :=
  match s with [] => false | _ => true end.

(** [s.startswith(p)] *)
Fixpoint startswith (p s : pystr) : bool :=
  match p, s with
  | [], _ => true
  | a :: p', b :: s' => (a =? b)%N && startswith p' s'
  | _ :: _, [] => false
  end.

(** [sub in s] *)
Fixpoint contains (sub s : pystr) : bool :=
  startswith sub s ||
  match s with
  | [] => false
  | _ :: s' => contains sub s'
  end.

(** [s.split(sep)] for a non-empty separator: scan from the left, cut at
    every occurrence of [sep] and resume after it.  [skip] counts the
    characters of a matched separator still to be passed over, [cur]
    holds the current piece in reverse. *)
Fixpoint split_from (sep : pystr) (skip : nat) (cur s : pystr) : list pystr :=
  match s with
  | [] => [rev cur]
  | c :: s' =>
      match skip with
      | S k => split_from sep k cur s'
      | O =>
          if startswith sep s
          then rev cur :: split_from sep (Nat.pred (length sep)) [] s'
          else split_from sep O (c :: cur) s'
      end
  end.

Definition split (sep s : pystr) : list pystr := split_from sep O [] s.

(** [sep.join(l)] *)
Fixpoint join (sep : pystr) (l : list pystr) : pystr :=
  match l with
  | [] => []
  | [x] => x
  | x :: l' => x ++ sep ++ join sep l'
  end.

(** [str(z)] *)
Definition str_of_Z (z : Z) : pystr :=
  py (NilZero.string_of_int (Z.to_int z)).

End Py.
Import Py.


(** [a == b] on strings. *)
Fixpoint str_eqb (a b : pystr) : bool :=
  match a, b with
  | [], [] => true
  | x :: a', y :: b' => (x =? y)%N && str_eqb a' b'
  | _, _ => false
  end.

(* ===================================================================== *)
(** ** The page, the session and the world of a script run               *)
(* ===================================================================== *)

(** A chart handed to [st.plotly_chart]: the kind of figure, its title and
    the rows it is drawn from. *)
Inductive chart :=
| px_bar (title : pystr) (rows : list (pystr * Q))
| px_pie (title : pystr) (names : list pystr) (values : list Q)
| px_line (title : pystr) (rows : list (pystr * Q)).

(** What the [st.*] calls put on the page.  Layout containers
    ([st.columns], [st.tabs], [st.empty]) leave no element of their own. *)
#[local] Unset Elimination Schemes.
Inductive elem :=
| st_header (body : pystr)
| st_subheader (body : pystr)
| st_markdown (body : pystr)
| st_write (body : pystr)
| st_info (body : pystr)
| st_success (body : pystr)
| st_warning (body : pystr)
| st_balloons
| st_plotly_chart (fig : chart)
| st_text_input (label : pystr)
| st_text_area (label key : pystr)
| st_selectbox (label : pystr) (options : list pystr)
| st_radio (label : pystr) (options : list pystr) (key : pystr)
| st_multiselect (label : pystr) (options : list pystr)
| st_button (label key : pystr)
| st_form_submit_button (label : pystr)
| st_chat_message (name avatar : pystr) (body : list elem)
| st_expander (label : pystr) (body : list elem)
| st_form (key : pystr) (body : list elem).
#[local] Set Elimination Schemes.

(** The assignment record that the form stores. *)
Record assignment := {
  title : pystr;
  objectives : list pystr;
  required_resources : list pystr;
  optional_resources : list pystr;
  ai_name : pystr;
  guidance_level : pystr;
  delivery_formats : list pystr
}.

(** [st.session_state]: the four attributes the script initialises.
    [assignment_data] starts as the empty dict ([None]). *)
Record session_state := {
  assignment_created : bool;
  assignment_data : option assignment;
  student_dialogue_step : Z;
  student_responses : gmap Z pystr
}.

(** A student of the class roster ([generate_class_data]).  Dicts keep
    their insertion order, which [max], [min] and the charts observe, so
    they are lists of items. *)
Record student_record := {
  student_name : pystr;
  objectives_mastered : list (pystr * Q);
  writing_scores : list Q;
  curiosity_paths : list pystr;
  ai_support_level : Q;
  total_time_minutes : Z;
  questions_asked : Z;
  revisions_made : Z;
  confusion_areas : list pystr
}.

(** One point of the writing timeline. *)
Record timeline_point := { week : pystr; score : Q }.

(** The record of the individual report
    ([generate_individual_student_data]). *)
Record individual_record := {
  name : pystr;
  objectives_progress : list (pystr * Q);
  writing_timeline : list timeline_point;
  exploration_tags : list pystr;
  ai_breakdown : list (pystr * Q)
}.

(** What [@st.cache_data] remembers: the result of the first call of each
    generator, per argument. *)
Record data_cache := {
  class_cache : option (list student_record * list pystr);
  individual_cache : gmap pystr individual_record
}.

(** Lines 17-24: the session as the first run finds it. *)
Definition initial_session : session_state :=
  {| assignment_created := false;
     assignment_data := None;
     student_dialogue_step := 0;
     student_responses := ∅ |}.

(** What the browser sends with a run: the one button that was clicked, if
    any (identified by its key, or by its label when it has none), and the
    current value of every input widget. *)
Record ui_input := {
  clicked : option pystr;
  text_of : pystr -> pystr;
  choice_of : pystr -> pystr;
  selection_of : pystr -> list pystr
}.

(** The random module's generator, as the sequence of raw values it is
    going to deliver. *)
Definition random_source := nat -> N.

Record world := {
  session : session_state;
  rand : random_source;
  cache : data_cache;
  input : ui_input;
  screen : list elem
}.

Inductive exn :=
| KeyError (key : string)
| IndexError
| ValueError
| AttributeError (name : string)
| RerunException.

Inductive result (A : Type) :=
| Return (a : A) (w : world)
| Raise (e : exn) (w : world).
Arguments Return {A} a w.
Arguments Raise {A} e w.

(** A piece of the script: it runs in a world and returns or raises. *)
Definition Script (A : Type) := world -> result A.

Definition ret {A} (a : A) : Script A := fun w => Return a w.

Definition bind {A B} (c : Script A) (k : A -> Script B) : Script B :=
  fun w => match c w with
           | Return a w' => k a w'
           | Raise e w' => Raise e w'
           end.

Definition raise {A} (e : exn) : Script A := fun w => Raise e w.

Notation "'let!' x ':=' c 'in' k" := (bind c (fun x => k))
  (at level 10, x name, c at level 100, k at level 200).
Notation "'do!' c 'in' k" := (bind c (fun _ => k))
  (at level 10, c at level 100, k at level 200).

(** The world a run ends in, returned or raised. *)
Definition final {A} (r : result A) : world :=
  match r with Return _ w => w | Raise _ w => w end.

Definition raised {A} (r : result A) : option exn :=
  match r with Return _ _ => None | Raise e _ => Some e end.

(** The value a run returned, if it did. *)
Definition returned {A} (r : result A) : option A :=
  match r with Return a _ => Some a | Raise _ _ => None end.

Definition with_session (s : session_state) (w : world) : world :=
  {| session := s; rand := rand w; cache := cache w; input := input w;
     screen := screen w |}.
Definition with_rand (r : random_source) (w : world) : world :=
  {| session := session w; rand := r; cache := cache w; input := input w;
     screen := screen w |}.
Definition with_cache (c : data_cache) (w : world) : world :=
  {| session := session w; rand := rand w; cache := c; input := input w;
     screen := screen w |}.
Definition with_screen (p : list elem) (w : world) : world :=
  {| session := session w; rand := rand w; cache := cache w; input := input w;
     screen := p |}.
Definition with_input (i : ui_input) (w : world) : world :=
  {| session := session w; rand := rand w; cache := cache w; input := i;
     screen := screen w |}.

Definition get_session : Script session_state := fun w => Return (session w) w.
Definition put_session (s : session_state) : Script unit :=
  fun w => Return tt (with_session s w).
Definition get_input : Script ui_input := fun w => Return (input w) w.
Definition get_cache : Script data_cache := fun w => Return (cache w) w.
Definition put_cache (c : data_cache) : Script unit :=
  fun w => Return tt (with_cache c w).

(** An element is appended to the page. *)
Definition emit (e : elem) : Script unit :=
  fun w => Return tt (with_screen (screen w ++ [e]) w).

(** [with container: body]: the body's elements go into the container;
    what was rendered before an exception stays on the page. *)
Definition within {A} (container : list elem -> elem) (body : Script A) : Script A :=
  fun w =>
    match body (with_screen [] w) with
    | Return a w' => Return a (with_screen (screen w ++ [container (screen w')]) w')
    | Raise e w' => Raise e (with_screen (screen w ++ [container (screen w')]) w')
    end.

Definition when (b : bool) (c : Script unit) : Script unit :=
  if b then c else ret tt.

(** [for x in l: body x] *)
Fixpoint for_each {A} (l : list A) (body : A -> Script unit) : Script unit :=
  match l with
  | [] => ret tt
  | x :: l' => do! body x in for_each l' body
  end.

(** [[f(x) for x in l]] *)
Fixpoint comprehension {A B} (l : list A) (f : A -> Script B) : Script (list B) :=
  match l with
  | [] => ret []
  | x :: l' => let! y := f x in let! ys := comprehension l' f in ret (y :: ys)
  end.

(** [enumerate(l, start)] *)
Fixpoint enumerate {A} (start : Z) (l : list A) : list (Z * A) :=
  match l with
  | [] => []
  | x :: l' => (start, x) :: enumerate (start + 1) l'
  end.

(** [range(n)] *)
Definition range (n : nat) : list Z := List.map Z.of_nat (seq 0 n).

(** [l[i]] with Python's negative indices. *)
Definition getitem {A} (l : list A) (i : Z) : Script A :=
  let n := Z.of_nat (length l) in
  let j := if i <? 0 then i + n else i in
  if (0 <=? j) && (j <? n)
  then match l !! Z.to_nat j with
       | Some x => ret x
       | None => raise IndexError
       end
  else raise IndexError.

(** [d[key]] on a dict whose entry may be absent. *)
Definition subscript {A} (key : string) (entry : option A) : Script A :=
  match entry with
  | Some v => ret v
  | None => raise (KeyError key)
  end.

(** *** Input widgets *)

Definition st_button_ (label key : pystr) : Script bool :=
  do! emit (st_button label key) in
  let! i := get_input in
  ret (bool_decide (clicked i = Some key)).

Definition st_form_submit_button_ (label : pystr) : Script bool :=
  do! emit (st_form_submit_button label) in
  let! i := get_input in
  ret (bool_decide (clicked i = Some label)).

Definition st_text_input_ (label : pystr) : Script pystr :=
  do! emit (st_text_input label) in
  let! i := get_input in
  ret (text_of i label).

Definition st_text_area_ (label key : pystr) : Script pystr :=
  do! emit (st_text_area label key) in
  let! i := get_input in
  ret (text_of i key).

(** A single-choice widget returns one of its options: the one the user
    picked, else the option at the default [index]. *)
Definition pick (options : list pystr) (index : nat) (picked : pystr) : pystr :=
  if bool_decide (picked ∈ options) then picked
  else default [] (options !! index).

Definition st_selectbox_ (label : pystr) (options : list pystr) : Script pystr :=
  do! emit (st_selectbox label options) in
  let! i := get_input in
  ret (pick options 0 (choice_of i label)).

Definition st_radio_ (label : pystr) (options : list pystr) (index : nat)
    (key : pystr) : Script pystr :=
  do! emit (st_radio label options key) in
  let! i := get_input in
  ret (pick options index (choice_of i key)).

(** A multi-choice widget returns options only. *)
Definition st_multiselect_ (label : pystr) (options : list pystr) : Script (list pystr) :=
  do! emit (st_multiselect label options) in
  let! i := get_input in
  ret (List.filter (fun o => bool_decide (o ∈ options)) (selection_of i label)).

(** [st.rerun()] abandons the run; Streamlit starts the script again. *)
Definition st_rerun {A} : Script A := raise RerunException.

(** *** Calls that can fail *)

(** [px.bar(df, x=..., y=...)] on a data frame built from a list of rows.
    An empty list gives a frame without columns, and plotly raises
    [ValueError] for the column it is asked for. *)
Definition px_bar_ (title : pystr) (rows : list (pystr * Q)) : Script chart :=
  match rows with
  | [] => raise ValueError
  | _ => ret (px_bar title rows)
  end.

(** [px.line(df, x=..., y=...)], likewise. *)
Definition px_line_ (title : pystr) (rows : list (pystr * Q)) : Script chart :=
  match rows with
  | [] => raise ValueError
  | _ => ret (px_line title rows)
  end.

(** [px.pie(values=..., names=...)]: plotly raises [ValueError] when the
    two lists differ in length. *)
Definition px_pie_ (title : pystr) (names : list pystr) (values : list Q)
    : Script chart :=
  if Nat.eqb (length values) (length names)
  then ret (px_pie title names values)
  else raise ValueError.

(** [st.tag(...)]: the streamlit module has no attribute [tag], as the
    comments of lines 418 and 420 say; looking it up raises
    [AttributeError]. *)
Definition st_tag_ (body : pystr) : Script unit :=
  raise (AttributeError "tag").

(* ===================================================================== *)
(** ** The [random] module                                                *)
(* ===================================================================== *)

(** The generator's next raw value. *)
Definition next_raw : Script N :=
  fun w => Return (rand w O) (with_rand (fun n => rand w (S n)) w).

(** [random.random()]: a multiple of 2^-53 in [0, 1). *)
Definition random_random : Script Q :=
  let! k := next_raw in
  ret (Z.of_N (k mod 9007199254740992) # 9007199254740992).

(** [random.uniform(a, b)] is [a + (b - a) * random()]. *)
Definition random_uniform (a b : Q) : Script Q :=
  let! u := random_random in
  ret (a + (b - a) * u)%Q.

(** [_randbelow(n)] for [n > 0].  CPython draws [n.bit_length()] bits until
    the value is below [n]; the sequence of raw values presents the value
    that is accepted, and the model reduces it modulo [n], so that every
    value below [n] can come out and none other. *)
Definition randbelow (n : N) : Script N :=
  let! k := next_raw in
  ret (k mod n)%N.

(** [random.randint(a, b)] is [randrange(a, b + 1)]. *)
Definition random_randint (a b : Z) : Script Z :=
  let width := b + 1 - a in
  if 0 <? width
  then let! k := randbelow (Z.to_N width) in ret (a + Z.of_N k)
  else raise ValueError.

(** [random.choice(seq)] *)
Definition random_choice {A} (seq : list A) : Script A :=
  match seq with
  | [] => raise IndexError
  | _ => let! j := randbelow (N.of_nat (length seq)) in
         getitem seq (Z.of_N j)
  end.

(** The selection loop of [random.sample] over a pool (the branch taken for
    populations of at most 21 elements): [k] rounds are left, [m] slots of
    the pool are still live. *)
Fixpoint sample_loop {A} (k m : nat) (pool : list A) : Script (list A) :=
  match k with
  | O => ret []
  | S k' =>
      let! j := randbelow (N.of_nat m) in
      let! x := getitem pool (Z.of_N j) in
      let! y := getitem pool (Z.of_nat m - 1) in
      let! rest := sample_loop k' (Nat.pred m) (<[N.to_nat j := y]> pool) in
      ret (x :: rest)
  end.

(** [random.sample(population, k)] *)
Definition random_sample {A} (population : list A) (k : Z) : Script (list A) :=
  let n := length population in
  if (0 <=? k) && (k <=? Z.of_nat n)
  then sample_loop (Z.to_nat k) n population
  else raise ValueError.

(* ===================================================================== *)
(** ** Data generation functions (lines 30-91)                            *)
(* ===================================================================== *)

Definition students : list pystr :=
  [ py "Jayla Williams"; py "Jackson Miller"; py "Olivia Chen";
    py "Marcus Johnson"; py "Sophia Rodriguez"; py "Ethan Kim";
    py "Isabella Brown"; py "Noah Davis"; py "Emma Wilson";
    py "Liam Garcia"; py "Ava Martinez"; py "Lucas Anderson" ].

(** [objectives], the same five in both generators. *)
Definition objectives_ : list pystr :=
  [ py "Analyze primary sources"; py "Identify multiple perspectives";
    py "Evaluate evidence quality"; py "Synthesize information";
    py "Draw supported conclusions" ].

Definition curiosity_catalog : list pystr :=
  [ py "Climate Change Connections"; py "Modern Parallels";
    py "Economic Factors"; py "Cultural Impact"; py "Technology Influence";
    py "Global Perspectives"; py "Environmental Effects";
    py "Social Justice Angles" ].

Definition exploration_catalog : list pystr :=
  [ py "Economic parallels to 2008"; py "Environmental justice";
    py "Global perspectives"; py "Technology impacts";
    py "Social movements"; py "Cultural analysis" ].

(** The dict display of lines 50-64; its values are evaluated in the order
    they are written. *)
Definition generate_student (student : pystr) : Script student_record :=
  let! mastered :=
    comprehension objectives_
      (fun obj => let! m := random_uniform (6 # 10) 1 in ret (obj, m)) in
  let! scores := comprehension (range 6) (fun _ => random_uniform 6 10) in
  let! n_paths := random_randint 1 4 in
  let! paths := random_sample curiosity_catalog n_paths in
  let! support := random_uniform (2 # 10) (8 # 10) in
  let! minutes := random_randint 45 120 in
  let! questions := random_randint 3 15 in
  let! revisions := random_randint 2 8 in
  let! n_confusions := random_randint 0 2 in
  let! confusions := random_sample objectives_ n_confusions in
  ret {| student_name := student;
         objectives_mastered := mastered;
         writing_scores := scores;
         curiosity_paths := paths;
         ai_support_level := support;
         total_time_minutes := minutes;
         questions_asked := questions;
         revisions_made := revisions;
         confusion_areas := confusions |}.

(** The body of [generate_class_data]. *)
Definition generate_class_data_body : Script (list student_record * list pystr) :=
  let! class_data := comprehension students generate_student in
  ret (class_data, objectives_).

(** The body of [generate_individual_student_data]. *)
Definition generate_individual_student_data_body (student_name : pystr)
    : Script individual_record :=
  let! progress :=
    comprehension objectives_
      (fun obj => let! m := random_uniform (7 # 10) 1 in ret (obj, m)) in
  let! timeline :=
    comprehension (range 6)
      (fun i => let! s := random_uniform (65 # 10) (95 # 10) in
                ret {| week := py "Week " ++ str_of_Z (i + 1); score := s |}) in
  let! n_tags := random_randint 2 4 in
  let! tags := random_sample exploration_catalog n_tags in
  let! original := random_uniform (4 # 10) (7 # 10) in
  let! scaffolding := random_uniform (2 # 10) (4 # 10) in
  let! collaborative := random_uniform (1 # 10) (3 # 10) in
  ret {| name := student_name;
         objectives_progress := progress;
         writing_timeline := timeline;
         exploration_tags := tags;
         ai_breakdown := [ (py "student_original", original);
                           (py "ai_scaffolding", scaffolding);
                           (py "collaborative", collaborative) ] |}.

(** [@st.cache_data def generate_class_data()]: the body runs on the first
    call, later calls return what it produced then. *)
Definition generate_class_data : Script (list student_record * list pystr) :=
  let! c := get_cache in
  match class_cache c with
  | Some v => ret v
  | None =>
      let! v := generate_class_data_body in
      let! c' := get_cache in
      do! put_cache {| class_cache := Some v;
                       individual_cache := individual_cache c' |} in
      ret v
  end.

(** [@st.cache_data def generate_individual_student_data(student_name)] *)
Definition generate_individual_student_data (student_name : pystr)
    : Script individual_record :=
  let! c := get_cache in
  match individual_cache c !! student_name with
  | Some v => ret v
  | None =>
      let! v := generate_individual_student_data_body student_name in
      let! c' := get_cache in
      do! put_cache {| class_cache := class_cache c';
                       individual_cache := <[student_name := v]> (individual_cache c') |} in
      ret v
  end.

(* ===================================================================== *)
(** ** Assignment setup tab (lines 97-214)                                *)
(* ===================================================================== *)

Definition spaces (n : nat) : pystr := repeat 32%N n.

(** A triple-quoted block of the source: a line feed, the lines at the
    indentation of the code, and the indentation before the closing
    quotes. *)
Definition text_block (indent : nat) (lines : list pystr) : pystr :=
  [LF] ++ join [LF] (List.map (fun l => spaces indent ++ l) lines)
       ++ [LF] ++ spaces indent.

(** Lines 171-173: the preset objectives, then the custom ones. *)
Definition all_objectives (preset_objectives : list pystr)
    (custom_objectives : pystr) : list pystr :=
  let all_objectives := preset_objectives in
  if truthy (strip custom_objectives)
  then all_objectives ++
       List.map strip
         (List.filter (fun obj => truthy (strip obj))
                      (split [LF] custom_objectives))
  else all_objectives.

(** Lines 179-180: [text.split('\n') if text else []]. *)
Definition resource_list (text : pystr) : list pystr :=
  if truthy text then split [LF] text else [].

Definition bullet (item : pystr) : pystr := [8226%N] ++ py " " ++ item.

(** Lines 193-212. *)
Definition preview_content (data : assignment) : pystr :=
  text_block 8
    [ py "## " ++ title data;
      [];
      py "**Your AI Learning Partner: " ++ ai_name data ++ py "**";
      py "*Guidance Style: " ++ guidance_level data ++ py "*";
      [];
      py "### " ++ [127919%N] ++ py " What You'll Learn:";
      join [LF] (List.map bullet (objectives data));
      [];
      py "### " ++ [128218%N] ++ py " Resources to Explore:";
      py "**Required:**"
        ++ join [LF] (List.map bullet (take 3 (required_resources data)));
      [];
      py "**For the Curious:**"
        ++ join [LF] (List.map bullet (take 2 (optional_resources data)));
      [];
      py "### " ++ [127912%N] ++ py " How You Can Show Your Learning:";
      join [LF] (List.map bullet (delivery_formats data));
      [];
      py "---";
      py "*Ready to start? Your AI partner " ++ ai_name data
        ++ py " is waiting to explore with you!*" ].

Definition set_assignment_data (d : assignment) : Script unit :=
  let! s := get_session in
  put_session {| assignment_created := assignment_created s;
                 assignment_data := Some d;
                 student_dialogue_step := student_dialogue_step s;
                 student_responses := student_responses s |}.

Definition set_assignment_created (b : bool) : Script unit :=
  let! s := get_session in
  put_session {| assignment_created := b;
                 assignment_data := assignment_data s;
                 student_dialogue_step := student_dialogue_step s;
                 student_responses := student_responses s |}.

Definition submit_label : pystr := [128640%N] ++ py " Create Assignment".

(** Lines 97-214.  The preview is written into the placeholder that
    [st.empty()] left in the form; on the page of the model it comes last,
    where the code writes it. *)
Definition show_assignment_setup : Script unit :=
  do! emit (st_header ([127919%N] ++ py " Create AI-Enhanced Assignment")) in
  do! emit (st_markdown
              (py "*Design learning experiences where AI amplifies your teaching*")) in
  do! within (st_form (py "assignment_form")) (
    do! emit (st_subheader ([128203%N] ++ py " Assignment Details")) in
    let! title := st_text_input_ (py "Assignment Title") in
    do! emit (st_subheader ([127919%N] ++ py " Learning Objectives")) in
    do! emit (st_markdown (py "*Select common objectives and add custom ones*")) in
    let! preset_objectives :=
      st_multiselect_ (py "Choose from common objectives:")
        [ py "Analyze primary sources"; py "Compare multiple perspectives";
          py "Evaluate evidence quality";
          py "Synthesize information from multiple sources";
          py "Draw evidence-based conclusions";
          py "Identify bias and point of view";
          py "Make historical connections" ] in
    let! custom_objectives :=
      let label := py "Add custom objectives (one per line):" in
      st_text_area_ label label in
    do! emit (st_subheader ([128218%N] ++ py " Learning Resources")) in
    let! required_resources :=
      let label := py "Required Resources (URLs or file names):" in
      st_text_area_ label label in
    let! optional_resources :=
      let label := py "Optional Resources (for curious students):" in
      st_text_area_ label label in
    do! emit (st_subheader ([129302%N] ++ py " AI Assistant Configuration")) in
    let! ai_name := st_text_input_ (py "AI Assistant Name") in
    let! guidance_level :=
      let label := py "Default AI Guidance Level:" in
      st_radio_ label
        [ py "Minimal - Hints and clarifying questions only";
          py "Moderate - Guided discovery with scaffolding";
          py "Exploratory - Deep questioning and tangent support" ]
        1 label in
    do! emit (st_subheader ([128202%N] ++ py " Assessment & Deliverables")) in
    let! delivery_formats :=
      st_multiselect_ (py "Students can demonstrate learning through:")
        [ py "Written analysis"; py "Oral presentation"; py "Visual timeline";
          py "Debate participation"; py "Creative project";
          py "Multimedia story" ] in
    do! emit (st_subheader ([10024%N] ++ py " Assignment Preview")) in
    do! emit (st_markdown (py "*This is what students will see:*")) in
    let! submitted := st_form_submit_button_ submit_label in
    when submitted (
      let all_objectives := all_objectives preset_objectives custom_objectives in
      let! level := getitem (split (py " - ") guidance_level) 0 in
      do! set_assignment_data
            {| title := title;
               objectives := all_objectives;
               required_resources := resource_list required_resources;
               optional_resources := resource_list optional_resources;
               ai_name := ai_name;
               guidance_level := level;
               delivery_formats := delivery_formats |} in
      do! set_assignment_created true in
      do! emit (st_success
                  ([127881%N] ++ py " Assignment created! Students can now access this through their MindFrame dashboard.")) in
      emit st_balloons)) in
  let! s := get_session in
  when (assignment_created s) (
    let! data := subscript "title" (assignment_data s) in
    emit (st_markdown (preview_content data))).

(* ===================================================================== *)
(** ** Student experience tab (lines 220-347)                             *)
(* ===================================================================== *)

(** A stage descriptor: a dict of which every stage holds some keys only.
    A key that a stage lacks is [None]; subscripting it is a [KeyError]. *)
Record dialogue_step := {
  type_ : option pystr;
  content : option pystr;
  options : option (list pystr);
  info_chunk : option pystr;
  question : option pystr;
  follow_up : option pystr;
  prompts : option (list pystr)
}.

(** Lines 241-267. *)
Definition dialogue_steps (selected_student : pystr) : list dialogue_step :=
  [ {| type_ := Some (py "ai_intro");
       content := Some (py "Hi " ++ selected_student ++ py "! I'm Professor Explorer, your AI learning partner. Today we're diving into the causes of the Great Depression. I see you have some great resources to work with. What catches your attention first?");
       options := Some [ py "The photographs of bread lines";
                         py "Economic data and graphs";
                         py "Personal stories from families" ];
       info_chunk := None; question := None; follow_up := None;
       prompts := None |};
    {| type_ := Some (py "content_delivery");
       content := Some (py "Great choice! Let's start there. I'm going to share some key information in small chunks, and I want you to think out loud as we go. Ready?");
       info_chunk := Some (py "The Great Depression began with the stock market crash of October 1929, but the roots went much deeper. Think of it like a house of cards - multiple factors were already making the economic structure unstable.");
       options := None; question := None; follow_up := None;
       prompts := None |};
    {| type_ := Some (py "comprehension_check");
       question := Some (py "What do you think 'house of cards' means in this context?");
       options := Some [ py "The economy was built on gambling";
                         py "The economic system was fragile and interconnected";
                         py "People were literally playing cards";
                         py "Banks were like card games" ];
       content := None; info_chunk := None; follow_up := None;
       prompts := None |};
    {| type_ := Some (py "deeper_exploration");
       content := Some (py "Exactly! The economy was fragile and interconnected. Now, let's explore what made it so unstable. What factors do you think might have contributed?");
       follow_up := Some (py "Think about: How people were buying things, what was happening in agriculture, how banks were operating...");
       options := None; info_chunk := None; question := None;
       prompts := None |};
    {| type_ := Some (py "reflection");
       content := Some (py "You've made some great connections! Now I want you to step back and reflect on your learning process.");
       prompts := Some [ py "What surprised you most?";
                         py "What questions do you still have?";
                         py "How does this connect to something you already knew?" ];
       options := None; info_chunk := None; question := None;
       follow_up := None |} ].

Definition set_student_dialogue_step (n : Z) : Script unit :=
  let! s := get_session in
  put_session {| assignment_created := assignment_created s;
                 assignment_data := assignment_data s;
                 student_dialogue_step := n;
                 student_responses := student_responses s |}.

Definition set_student_responses (m : gmap Z pystr) : Script unit :=
  let! s := get_session in
  put_session {| assignment_created := assignment_created s;
                 assignment_data := assignment_data s;
                 student_dialogue_step := student_dialogue_step s;
                 student_responses := m |}.

(** [st.session_state.student_responses[k] = v] *)
Definition record_response (k : Z) (v : pystr) : Script unit :=
  let! s := get_session in
  set_student_responses (<[k := v]> (student_responses s)).

(** [st.session_state.student_dialogue_step += 1] *)
Definition advance : Script unit :=
  let! s := get_session in
  set_student_dialogue_step (student_dialogue_step s + 1).

Definition robot : pystr := [129302%N].

Definition assistant_says {A} (body : Script A) : Script A :=
  within (st_chat_message (py "assistant") robot) body.

Definition reset_label : pystr := [128260%N] ++ py " Reset Conversation".

Definition step_key (current_step : Z) : pystr :=
  py "step_" ++ str_of_Z current_step.
Definition next_key (current_step : Z) : pystr :=
  py "next_" ++ str_of_Z current_step.

(** The needle of line 297. *)
Definition fragile_and_interconnected : pystr := py "fragile and interconnected".

(** Lines 297-302: the feedback on the chosen answer. *)
Definition comprehension_feedback (answer : pystr) : Script unit :=
  if contains fragile_and_interconnected answer
  then emit (st_success ([127881%N] ++ py " Great thinking! You got it!"))
  else
    do! emit (st_warning (py "Hmm, let me help you think about this differently...")) in
    assistant_says
      (emit (st_write (py "Think about what happens when you remove one card from a house of cards. The whole structure can collapse because everything depends on everything else. How might this apply to an economy?"))).

(** Lines 325-345: the report shown to the student at the end. *)
Definition teacher_report (selected_student : pystr) : pystr :=
  text_block 20
    [ py "**" ++ selected_student ++ py "'s Learning Journey Report**";
      [];
      [9989%N] ++ py " **Engagement Level**: High - asked follow-up questions and made connections";
      [];
      [127919%N] ++ py " **Objectives Progress**:";
      py "- Analyze primary sources: 85% mastery ";
      py "- Identify multiple perspectives: 90% mastery";
      py "- Evaluate evidence quality: 75% mastery";
      [];
      [128161%N] ++ py " **Key Insights**:";
      py "- Showed strong analytical thinking with " ++ [DQUOTE]
        ++ py "house of cards" ++ [DQUOTE] ++ py " metaphor";
      py "- Made personal connections to family stories";
      py "- Asked curious questions about modern parallels";
      [];
      [128260%N] ++ py " **AI Support Used**: ";
      py "- Scaffolding: 40%";
      py "- Student original thinking: 60%";
      [];
      [128221%N] ++ py " **Teacher Notes**: " ++ selected_student
        ++ py " demonstrated excellent critical thinking and natural curiosity. Consider enrichment opportunities connecting to modern economics." ].

(** Lines 282-345: the handler of the current stage, chosen by its type. *)
Definition handle_step (selected_student : pystr) (current_step : Z)
    (step : dialogue_step) : Script unit :=
  let! type := subscript "type" (type_ step) in
  if str_eqb type (py "ai_intro") then
    let! opts := subscript "options" (options step) in
    let! choice :=
      st_radio_ (py "What interests you most?") opts 0 (step_key current_step) in
    let! pressed :=
      st_button_ (py "Tell Professor Explorer") (next_key current_step) in
    when pressed (
      do! record_response current_step choice in
      do! advance in
      st_rerun)
  else if str_eqb type (py "content_delivery") then
    let! pressed :=
      st_button_ (py "I'm ready to continue!") (next_key current_step) in
    when pressed (
      do! advance in
      st_rerun)
  else if str_eqb type (py "comprehension_check") then
    let! opts := subscript "options" (options step) in
    let! answer :=
      st_radio_ (py "Choose your answer:") opts 0 (step_key current_step) in
    let! pressed := st_button_ (py "Submit Answer") (next_key current_step) in
    when pressed (
      do! comprehension_feedback answer in
      do! record_response current_step answer in
      do! advance in
      st_rerun)
  else if str_eqb type (py "deeper_exploration") then
    let! student_input :=
      st_text_area_ (py "Share your thoughts:") (step_key current_step) in
    let! pressed :=
      st_button_ (py "Share with Professor Explorer") (next_key current_step) in
    when pressed (
      do! assistant_says
            (emit (st_write (py "Interesting ideas! I can see you're thinking about "
                             ++ take 50 student_input
                             ++ py "... Let's explore that connection further."))) in
      do! record_response current_step student_input in
      do! advance in
      st_rerun)
  else if str_eqb type (py "reflection") then
    do! emit (st_markdown (py "### " ++ [128173%N] ++ py " Reflection Time")) in
    let! ps := subscript "prompts" (prompts step) in
    do! for_each (enumerate 0 ps)
          (fun '(i, prompt) =>
             let! response :=
               st_text_area_ prompt (py "reflection_" ++ str_of_Z i) in
             ret tt) in
    let! pressed :=
      st_button_ (py "Complete Learning Session") (next_key current_step) in
    when pressed (
      do! emit (st_success ([127775%N] ++ py " Great work! Your teacher will receive a detailed report about your learning journey.")) in
      within (st_expander (py "See what your teacher learns about your process:"))
        (emit (st_markdown (teacher_report selected_student))))
  else ret tt.

Definition session_complete : elem :=
  st_success ([10024%N] ++ py " Learning session complete! Great work exploring the Great Depression causes.").

Definition show_student_experience : Script unit :=
  do! emit (st_header ([128105%N; 8205%N; 127891%N] ++ py " Student Learning Experience")) in
  do! emit (st_markdown (py "*Experience learning through AI partnership*")) in
  let! selected_student :=
    st_selectbox_ (py "Choose a student perspective:")
      [ py "Jayla Williams"; py "Jackson Miller"; py "Olivia Chen" ] in
  let! reset := st_button_ reset_label reset_label in
  do! when reset (
        do! set_student_dialogue_step 0 in
        set_student_responses ∅) in
  do! emit (st_markdown (py "### Learning with Professor Explorer - "
                         ++ selected_student)) in
  let dialogue_steps := dialogue_steps selected_student in
  let! s := get_session in
  let current_step := student_dialogue_step s in
  if current_step <? Z.of_nat (length dialogue_steps) then
    let! step := getitem dialogue_steps current_step in
    do! assistant_says (
          let! text := subscript "content" (content step) in
          do! emit (st_write text) in
          match info_chunk step with
          | Some chunk => emit (st_info chunk)
          | None => ret tt
          end) in
    handle_step selected_student current_step step
  else
    emit session_complete.

(* ===================================================================== *)
(** ** Student report tab (lines 353-436)                                 *)
(* ===================================================================== *)

(** [a < b] and [a <= b] on floats. *)
Definition float_lt (a b : Q) : bool := negb (Qle_bool b a).
Definition float_le (a b : Q) : bool := Qle_bool a b.

(** The scan of [max(d, key=d.get)]: a later key replaces the best one
    only when its value is strictly greater. *)
Fixpoint max_scan (best : pystr * Q) (items : list (pystr * Q)) : pystr :=
  match items with
  | [] => fst best
  | item :: rest =>
      if float_lt (snd best) (snd item) then max_scan item rest
      else max_scan best rest
  end.

(** The scan of [min(d, key=d.get)]. *)
Fixpoint min_scan (best : pystr * Q) (items : list (pystr * Q)) : pystr :=
  match items with
  | [] => fst best
  | item :: rest =>
      if float_lt (snd item) (snd best) then min_scan item rest
      else min_scan best rest
  end.

(** [max(d, key=d.get)]; an empty dict is a [ValueError]. *)
Definition max_key (d : list (pystr * Q)) : Script pystr :=
  match d with
  | [] => raise ValueError
  | item :: rest => ret (max_scan item rest)
  end.

(** [min(d, key=d.get)] *)
Definition min_key (d : list (pystr * Q)) : Script pystr :=
  match d with
  | [] => raise ValueError
  | item :: rest => ret (min_scan item rest)
  end.

Definition strength_text (objective : pystr) : pystr :=
  [10024%N] ++ py " **Strength**: Excels at " ++ objective.
Definition growth_text (percent : Z) : pystr :=
  [128200%N] ++ py " **Growth**: Writing scores improved "
    ++ str_of_Z percent ++ py "% over term".
Definition focus_text (objective : pystr) : pystr :=
  [127919%N] ++ py " **Focus Area**: Could benefit from support in " ++ objective.
Definition next_steps_text (tag : pystr) : pystr :=
  [128640%N] ++ py " **Next Steps**: Ready for advanced work in " ++ tag.

(** Lines 428-433: the four insight texts, evaluated in order. *)
Definition insights (student_data : individual_record) : Script (list pystr) :=
  let! strongest := max_key (objectives_progress student_data) in
  let! percent := random_randint 15 35 in
  let! weakest := min_key (objectives_progress student_data) in
  let! tag := random_choice (exploration_tags student_data) in
  ret [ strength_text strongest; growth_text percent;
        focus_text weakest; next_steps_text tag ].

(** Lines 366-436: the report of one student record. *)
Definition render_report (selected_student : pystr)
    (student_data : individual_record) : Script unit :=
  do! emit (st_subheader ([127919%N] ++ py " Learning Objectives Mastery")) in
  let obj_df := objectives_progress student_data in
  let! fig_objectives :=
    px_bar_ (selected_student ++ py " - Objective Mastery") obj_df in
  do! emit (st_plotly_chart fig_objectives) in
  do! emit (st_subheader ([129302%N] ++ py " AI Collaboration Breakdown")) in
  let ai_data := ai_breakdown student_data in
  let! fig_pie :=
    px_pie_ (py "Learning Process Composition")
      [ py "Student Original"; py "AI Scaffolding"; py "Collaborative" ]
      (List.map snd ai_data) in
  do! emit (st_plotly_chart fig_pie) in
  do! emit (st_subheader ([128200%N] ++ py " Writing Growth Timeline")) in
  let timeline_df :=
    List.map (fun p => (week p, score p)) (writing_timeline student_data) in
  let! fig_timeline := px_line_ (py "Writing Quality Over Time") timeline_df in
  do! emit (st_plotly_chart fig_timeline) in
  do! emit (st_subheader ([128269%N] ++ py " Curiosity Exploration Paths")) in
  do! for_each (exploration_tags student_data) st_tag_ in
  do! emit (st_markdown (py "**Exploration Topics:**")) in
  do! for_each (exploration_tags student_data)
        (fun tag => emit (st_write ([127991%N; 65039%N] ++ py " " ++ tag))) in
  do! emit (st_subheader ([128161%N] ++ py " Teacher Insights")) in
  let! insights := insights student_data in
  for_each insights (fun insight => emit (st_markdown insight)).

Definition show_student_report : Script unit :=
  do! emit (st_header ([128202%N] ++ py " Individual Student Report")) in
  do! emit (st_markdown (py "*Deep insights into how each student learns*")) in
  let! generated := generate_class_data in
  let class_data := fst generated in
  let student_names := List.map student_name class_data in
  let! selected_student := st_selectbox_ (py "Select a student:") student_names in
  let! student_data := generate_individual_student_data selected_student in
  render_report selected_student student_data.

(* ===================================================================== *)
(** ** Class trends dashboard: AI support usage (lines 477-490)           *)
(* ===================================================================== *)

(** [sum(...)] of integers. *)
Definition sum (l : list Z) : Z := fold_left Z.add l 0.

(** Line 477. *)
Definition support_levels (class_data : list student_record) : list Q :=
  List.map ai_support_level class_data.

Definition support_bins : list pystr :=
  [ py "Low (20-40%)"; py "Medium (40-60%)"; py "High (60-80%)" ].

(** Lines 479-483. *)
Definition support_counts (support_levels : list Q) : list Z :=
  [ sum (List.map (fun _ => 1)
           (List.filter (fun x => float_lt x (4 # 10)) support_levels));
    sum (List.map (fun _ => 1)
           (List.filter (fun x => float_le (4 # 10) x && float_lt x (6 # 10))
                        support_levels));
    sum (List.map (fun _ => 1)
           (List.filter (fun x => float_le (6 # 10) x) support_levels)) ].

(** Lines 485-490: the pie chart of the three bands. *)
Definition fig_pie_support (class_data : list student_record) : chart :=
  px_pie (py "Distribution of AI Support Usage") support_bins
    (List.map inject_Z (support_counts (support_levels class_data))).

(* ===================================================================== *)
(** ** What the specification says, in its own words                      *)
(* ===================================================================== *)

(** "[c] is white space": the code points that Python's [str.strip]
    removes from the ends of a string. *)
Definition white_space (c : N) : Prop :=
  In c [ 9; 10; 11; 12; 13; 28; 29; 30; 31; 32; 133; 160; 5760;
         8192; 8193; 8194; 8195; 8196; 8197; 8198; 8199; 8200; 8201; 8202;
         8232; 8233; 8239; 8287; 12288 ]%N.

(** "a blank line": nothing but white space. *)
Definition blank (line : pystr) : Prop := Forall white_space line.

(** "[o] is the line trimmed": the line is [o] between two runs of white
    space, and [o] neither starts nor ends with white space. *)
Definition trimmed_of (line o : pystr) : Prop :=
  exists l r,
    line = l ++ o ++ r
    /\ Forall white_space l /\ Forall white_space r
    /\ (forall c rest, o = c :: rest -> ~ white_space c)
    /\ (forall init c, o = init ++ [c] -> ~ white_space c).

(** "the text split on newline": the lines hold no line feed, and the
    text is the lines with one line feed between two of them. *)
Inductive lines_of : pystr -> list pystr -> Prop :=
| lines_of_last (line : pystr) :
    ~ In LF line -> lines_of line [line]
| lines_of_cons (line rest : pystr) (lines : list pystr) :
    ~ In LF line -> lines_of rest lines ->
    lines_of (line ++ LF :: rest) (line :: lines).

(** "each line trimmed and blank lines dropped", in order. *)
Inductive trimmed_nonblank : list pystr -> list pystr -> Prop :=
| trimmed_nonblank_nil : trimmed_nonblank [] []
| trimmed_nonblank_drop (line : pystr) (lines objectives : list pystr) :
    blank line -> trimmed_nonblank lines objectives ->
    trimmed_nonblank (line :: lines) objectives
| trimmed_nonblank_keep (line o : pystr) (lines objectives : list pystr) :
    ~ blank line -> trimmed_of line o ->
    trimmed_nonblank lines objectives ->
    trimmed_nonblank (line :: lines) (o :: objectives).

(** The custom objectives of a text, computed: its lines, each one
    stripped, without the ones that are empty then. *)
Definition trimmed_nonblank_lines (text : pystr) : list pystr :=
  List.filter (fun line => negb (str_eqb line []))
              (List.map strip (split [LF] text)).

(** "[n] of the levels lie in the band [P]". *)
Inductive number_in (P : Q -> Prop) : list Q -> Z -> Prop :=
| number_in_nil : number_in P [] 0
| number_in_yes (x : Q) (l : list Q) (n : Z) :
    P x -> number_in P l n -> number_in P (x :: l) (n + 1)
| number_in_no (x : Q) (l : list Q) (n : Z) :
    ~ P x -> number_in P l n -> number_in P (x :: l) n.

(** "[t] contains the substring [sub]". *)
Definition has_substring (sub t : pystr) : Prop :=
  exists before after, t = before ++ sub ++ after.


(* ===================================================================== *)
(** ** Runs, traces and reachable sessions                                *)
(* ===================================================================== *)

(** The script never changes what [f] reads in the session, whether it
    returns or raises. *)
Definition keeps {T A} (f : session_state -> T) (c : Script A) : Prop :=
  forall w, f (session (final (c w))) = f (session w).

(** The script returns in every world, with a value that satisfies [P]. *)
Definition returns {A} (c : Script A) (P : A -> Prop) : Prop :=
  forall w, exists a w', c w = Return a w' /\ P a.

(** The dialogue cursor and the response map: the part of the session that
    the student experience tab owns. *)
Definition dialogue_state (s : session_state) : Z * gmap Z pystr :=
  (student_dialogue_step s, student_responses s).

(** The sessions that the application can be in: the initial one, and the
    ones that a run of a tab leaves, whatever the browser sent with the
    run, whatever the random generator holds and whether the run returned
    or raised.  The class trends tab only reads the generated data. *)
Inductive reachable : session_state -> Prop :=
| reachable_initial : reachable initial_session
| reachable_setup (w : world) :
    reachable (session w) ->
    reachable (session (final (show_assignment_setup w)))
| reachable_experience (w : world) :
    reachable (session w) ->
    reachable (session (final (show_student_experience w)))
| reachable_report (w : world) :
    reachable (session w) ->
    reachable (session (final (show_student_report w))).

(** One user action on the student experience tab: the browser sends the
    input, the tab is rendered on an empty page. *)
Definition act (i : ui_input) (w : world) : world :=
  final (show_student_experience (with_input i (with_screen [] w))).

(** The worlds that a sequence of user actions goes through. *)
Fixpoint trace (actions : list ui_input) (w : world) : list world :=
  w :: match actions with
       | [] => []
       | i :: rest => trace rest (act i w)
       end.

(** The session after a click on the reset button. *)
Definition reset_conversation (s : session_state) : session_state :=
  {| assignment_created := assignment_created s;
     assignment_data := assignment_data s;
     student_dialogue_step := 0;
     student_responses := ∅ |}.

(** The session after a stage that records a response. *)
Definition answered (v : pystr) (s : session_state) : session_state :=
  {| assignment_created := assignment_created s;
     assignment_data := assignment_data s;
     student_dialogue_step := student_dialogue_step s + 1;
     student_responses := <[student_dialogue_step s := v]> (student_responses s) |}.

(** The session after a stage that records nothing. *)
Definition acknowledged (s : session_state) : session_state :=
  {| assignment_created := assignment_created s;
     assignment_data := assignment_data s;
     student_dialogue_step := student_dialogue_step s + 1;
     student_responses := student_responses s |}.

(** The stage that a cursor value subscripts in the list of five, with
    Python's negative indices; none when the cursor is at or past the end,
    or too far below zero. *)
Definition stage_index (c : Z) : option Z :=
  if c <? -5 then None
  else if c <? 0 then Some (c + 5)
  else if c <? 5 then Some c
  else None.

(** The student that the select box returns. *)
Definition student_of (i : ui_input) : pystr :=
  pick [ py "Jayla Williams"; py "Jackson Miller"; py "Olivia Chen" ] 0
       (choice_of i (py "Choose a student perspective:")).

(** The options of the first stage. *)
Definition intro_options : list pystr :=
  [ py "The photographs of bread lines"; py "Economic data and graphs";
    py "Personal stories from families" ].

(** What a run of the student experience tab does to the session, read off
    the code ([experience_session] below proves it): a reset click resets;
    a click on the current stage's own button moves stages 0, 1 and 3 on;
    anything else leaves the session alone. *)
Definition dialogue_transition (i : ui_input) (s : session_state) : session_state :=
  if bool_decide (clicked i = Some reset_label) then reset_conversation s
  else
    let c := student_dialogue_step s in
    if bool_decide (clicked i = Some (next_key c)) then
      match stage_index c with
      | Some 0 => answered (pick intro_options 0 (choice_of i (step_key c))) s
      | Some 1 => acknowledged s
      | Some 3 => answered (text_of i (step_key c)) s
      | _ => s
      end
    else s.

(** The cursor is within the catalog or just past it, and only stages 0, 2
    and 3 have a response. *)
Definition within_catalog (s : session_state) : Prop :=
  0 <= student_dialogue_step s <= 5
  /\ dom (student_responses s) ⊆ ({[0; 2; 3]} : gset Z).

(** What is true of the application as it is: the cursor never gets past
    the comprehension check, and only the first stage has a response. *)
Definition before_the_check (s : session_state) : Prop :=
  0 <= student_dialogue_step s <= 2
  /\ dom (student_responses s) ⊆ ({[0]} : gset Z).

(** What the form's widgets return for an input. *)
Definition preset_objectives_of (i : ui_input) : list pystr :=
  List.filter
    (fun o => bool_decide
       (o ∈ [ py "Analyze primary sources"; py "Compare multiple perspectives";
              py "Evaluate evidence quality";
              py "Synthesize information from multiple sources";
              py "Draw evidence-based conclusions";
              py "Identify bias and point of view";
              py "Make historical connections" ]))
    (selection_of i (py "Choose from common objectives:")).
Definition custom_objectives_of (i : ui_input) : pystr :=
  text_of i (py "Add custom objectives (one per line):").
Definition required_resources_of (i : ui_input) : pystr :=
  text_of i (py "Required Resources (URLs or file names):").
Definition optional_resources_of (i : ui_input) : pystr :=
  text_of i (py "Optional Resources (for curious students):").

(** The page shows the message of the finished session. *)
Definition shows_session_complete (page : list elem) : Prop :=
  In session_complete page.

(** The bounds of §3 of the specification on a record of the roster. *)
Definition in_unit_interval (x : Q) : Prop := (0 <= x /\ x <= 1)%Q.
Definition is_writing_score (x : Q) : Prop := (6 <= x /\ x <= 10)%Q.

Definition student_within_bounds (r : student_record) : Prop :=
  Forall (fun item => in_unit_interval (snd item)) (objectives_mastered r)
  /\ in_unit_interval (ai_support_level r)
  /\ length (writing_scores r) = 6%nat
  /\ Forall is_writing_score (writing_scores r).

Definition individual_within_bounds (r : individual_record) : Prop :=
  Forall (fun item => in_unit_interval (snd item)) (objectives_progress r)
  /\ Forall (fun item => in_unit_interval (snd item)) (ai_breakdown r)
  /\ length (writing_timeline r) = 6%nat
  /\ Forall (fun p => is_writing_score (score p)) (writing_timeline r).

(** The three bands of the support histogram. *)
Definition band_low (x : Q) : Prop := (x < 4 # 10)%Q.
Definition band_medium (x : Q) : Prop := (4 # 10 <= x /\ x < 6 # 10)%Q.
Definition band_high (x : Q) : Prop := (6 # 10 <= x)%Q.

Definition in_exactly_one_band (x : Q) : Prop :=
  (band_low x /\ ~ band_medium x /\ ~ band_high x)
  \/ (~ band_low x /\ band_medium x /\ ~ band_high x)
  \/ (~ band_low x /\ ~ band_medium x /\ band_high x).

(* ===================================================================== *)
(** ** Concrete worlds for the examples                                   *)
(* ===================================================================== *)

(** The browser sends a click on one button; every widget is empty. *)
Definition click_on (key : pystr) : ui_input :=
  {| clicked := Some key;
     text_of := fun _ => [];
     choice_of := fun _ => [];
     selection_of := fun _ => [] |}.

(** The browser sends no click. *)
Definition no_action : ui_input :=
  {| clicked := None;
     text_of := fun _ => [];
     choice_of := fun _ => [];
     selection_of := fun _ => [] |}.

(** A generator that delivers 0, 1, 2, ... *)
Definition counting_source : random_source := fun n => N.of_nat n.

(** A generator that delivers 7, 8, 9, ... *)
Definition shifted_source : random_source := fun n => N.of_nat (n + 7).

Definition empty_cache : data_cache :=
  {| class_cache := None; individual_cache := ∅ |}.

(** A world with an empty page and an empty cache. *)
Definition world_of (s : session_state) (r : random_source) (i : ui_input) : world :=
  {| session := s; rand := r; cache := empty_cache; input := i; screen := [] |}.

(** A session with the cursor at [c] and no response. *)
Definition session_at (c : Z) : session_state :=
  {| assignment_created := false;
     assignment_data := None;
     student_dialogue_step := c;
     student_responses := ∅ |}.

(** The generator after one draw. *)
Definition drawn (w : world) : world := with_rand (fun n => rand w (S n)) w.

(** What a run of the individual report adds to the page before it
    stops ([render_report_run] below proves it): the charts for which the
    record has data, and, for a record without tags, the headings down to
    the insights. *)
Definition report_page (selected_student : pystr)
    (student_data : individual_record) : list elem :=
  st_subheader ([127919%N] ++ py " Learning Objectives Mastery")
  :: match objectives_progress student_data with
     | [] => []
     | _ =>
       st_plotly_chart
         (px_bar (selected_student ++ py " - Objective Mastery")
                 (objectives_progress student_data))
       :: st_subheader ([129302%N] ++ py " AI Collaboration Breakdown")
       :: if Nat.eqb (length (ai_breakdown student_data)) 3
          then
            st_plotly_chart
              (px_pie (py "Learning Process Composition")
                 [ py "Student Original"; py "AI Scaffolding";
                   py "Collaborative" ]
                 (List.map snd (ai_breakdown student_data)))
            :: st_subheader ([128200%N] ++ py " Writing Growth Timeline")
            :: match writing_timeline student_data with
               | [] => []
               | _ =>
                 st_plotly_chart
                   (px_line (py "Writing Quality Over Time")
                      (List.map (fun p => (week p, score p))
                                (writing_timeline student_data)))
                 :: st_subheader ([128269%N] ++ py " Curiosity Exploration Paths")
                 :: match exploration_tags student_data with
                    | [] => [ st_markdown (py "**Exploration Topics:**");
                              st_subheader ([128161%N] ++ py " Teacher Insights") ]
                    | _ => []
                    end
               end
          else []
     end.

(** The exception that stops the run: a chart without data, [st.tag] for
    the first tag, or [random.choice] of no tag. *)
Definition report_outcome (student_data : individual_record) : exn :=
  match objectives_progress student_data with
  | [] => ValueError
  | _ =>
    if Nat.eqb (length (ai_breakdown student_data)) 3
    then match writing_timeline student_data with
         | [] => ValueError
         | _ => match exploration_tags student_data with
                | [] => IndexError
                | _ => AttributeError "tag"
                end
         end
    else ValueError
  end.

(** The run gets to the insights (where it draws the growth percentage
    before it stops): the three charts have data and there is no tag. *)
Definition reaches_insights (student_data : individual_record) : bool :=
  match report_outcome student_data with
  | IndexError => true
  | _ => false
  end.

(** A student record for the examples. *)
Definition example_student : individual_record :=
  {| name := py "Jayla Williams";
     objectives_progress :=
       [ (py "Analyze primary sources", 9 # 10);
         (py "Identify multiple perspectives", 8 # 10) ];
     writing_timeline := [ {| week := py "Week 1"; score := 7 |} ];
     exploration_tags := [ py "Global perspectives"; py "Social movements" ];
     ai_breakdown := [ (py "student_original", 5 # 10);
                       (py "ai_scaffolding", 3 # 10);
                       (py "collaborative", 2 # 10) ] |}.

(** The custom objectives of the specification's example: two lines and a
    blank one between them. *)
Definition two_objectives_text : pystr :=
  py "A" ++ [LF; LF] ++ py "B" ++ [LF].

(** A submission with one preset objective selected and the example text
    typed in. *)
Definition example_submission : ui_input :=
  {| clicked := Some submit_label;
     text_of := fun label =>
       if str_eqb label (py "Add custom objectives (one per line):")
       then two_objectives_text
       else if str_eqb label (py "Required Resources (URLs or file names):")
       then py "x" ++ [LF] ++ py "y"
       else [];
     choice_of := fun _ => [];
     selection_of := fun _ => [py "Analyze primary sources"] |}.

(** A roster of three students with the support levels of the
    specification's example. *)
Definition student_with_support (level : Q) : student_record :=
  {| student_name := py "Jayla Williams";
     objectives_mastered := [];
     writing_scores := [];
     curiosity_paths := [];
     ai_support_level := level;
     total_time_minutes := 45;
     questions_asked := 3;
     revisions_made := 2;
     confusion_areas := [] |}.

Definition example_roster : list student_record :=
  [ student_with_support (3 # 10); student_with_support (5 # 10);
    student_with_support (7 # 10) ].

(** Custom objectives with white space around them and a line of white
    space between them: "  A \n \t\nB\t". *)
Definition spaced_objectives_text : pystr :=
  py "  A " ++ [LF] ++ [32%N; 9%N] ++ [LF] ++ py "B" ++ [9%N].

(** A submission with one preset objective selected and the spaced text
    typed in. *)
Definition spaced_submission : ui_input :=
  {| clicked := Some submit_label;
     text_of := fun label =>
       if str_eqb label (py "Add custom objectives (one per line):")
       then spaced_objectives_text
       else [];
     choice_of := fun _ => [];
     selection_of := fun _ => [py "Analyze primary sources"] |}.

(** A roster of two students whose support levels are the limits of the
    bands, 0.4 and 0.6. *)
Definition limits_roster : list student_record :=
  [ student_with_support (4 # 10); student_with_support (6 # 10) ].

(** A record like the example, without tags. *)
Definition untagged_student : individual_record :=
  {| name := name example_student;
     objectives_progress := objectives_progress example_student;
     writing_timeline := writing_timeline example_student;
     exploration_tags := [];
     ai_breakdown := ai_breakdown example_student |}.

(** The session after a response was recorded by hand, with the cursor
    at [c]. *)
Definition session_with_response (c : Z) : session_state :=
  {| assignment_created := false;
     assignment_data := None;
     student_dialogue_step := c;
     student_responses := {[ 0 := py "Economic data and graphs" ]} |}.

(* ===================================================================== *)
(** ** Class trends dashboard: the other aggregates (lines 454-551)       *)
(* ===================================================================== *)

(** Lines 454-461: one row (objective, student, mastery) per objective of
    every student, students first. *)
Definition mastery_data (class_data : list student_record)
    : list (pystr * pystr * Q) :=
  flat_map
    (fun student =>
       List.map (fun item => (fst item, student_name student, snd item))
                (objectives_mastered student))
    class_data.

(** [d.get(key, 0)] on a dict of counts. *)
Fixpoint get_count (key : pystr) (d : list (pystr * Z)) : Z :=
  match d with
  | [] => 0
  | (k, n) :: d' => if str_eqb k key then n else get_count key d'
  end.

(** [d[key] = value]: an old key keeps its place, a new one goes last. *)
Fixpoint set_count (key : pystr) (value : Z) (d : list (pystr * Z))
    : list (pystr * Z) :=
  match d with
  | [] => [(key, value)]
  | (k, n) :: d' =>
      if str_eqb k key then (k, value) :: d'
      else (k, n) :: set_count key value d'
  end.

(** [d[key] = d.get(key, 0) + 1] (lines 499 and 525). *)
Definition count_up (d : list (pystr * Z)) (key : pystr) : list (pystr * Z) :=
  set_count key (get_count key d + 1) d.

(** Lines 496-499. *)
Definition confusion_counts (class_data : list student_record)
    : list (pystr * Z) :=
  fold_left
    (fun counts student => fold_left count_up (confusion_areas student) counts)
    class_data [].

(** Lines 519-521. *)
Definition all_paths (class_data : list student_record) : list pystr :=
  fold_left (fun paths student => paths ++ curiosity_paths student)
            class_data [].

(** Lines 523-525. *)
Definition path_counts (all_paths : list pystr) : list (pystr * Z) :=
  fold_left count_up all_paths [].

(** [sorted(items, key=lambda x: x[1], reverse=True)]: a stable sort, the
    larger counts first; items with equal counts keep their order.  An
    item is put before the first one whose count is not larger. *)
Fixpoint insert_by_count (x : pystr * Z) (l : list (pystr * Z))
    : list (pystr * Z) :=
  match l with
  | [] => [x]
  | y :: l' =>
      if snd x <? snd y then y :: insert_by_count x l'
      else x :: y :: l'
  end.

Definition sorted_by_count (items : list (pystr * Z)) : list (pystr * Z) :=
  fold_right insert_by_count [] items.

(** Line 527. *)
Definition top_paths (class_data : list student_record) : list (pystr * Z) :=
  take 5 (sorted_by_count (path_counts (all_paths class_data))).

(** Lines 529-530: the lines of the ranking, numbered from 1. *)
Definition top_path_lines (class_data : list student_record) : list pystr :=
  List.map
    (fun entry =>
       py "**" ++ str_of_Z (fst entry) ++ py ". " ++ fst (snd entry)
       ++ py "** - " ++ str_of_Z (snd (snd entry)) ++ py " students explored")
    (enumerate 1 (top_paths class_data)).

(** Line 543. *)
Definition high_curiosity (class_data : list student_record) : Z :=
  sum (List.map (fun _ => 1)
         (List.filter
            (fun student => 3 <=? Z.of_nat (length (curiosity_paths student)))
            class_data)).

(** Line 551: the students whose list of confusion areas is not empty. *)
Definition need_support (class_data : list student_record) : Z :=
  Z.of_nat
    (length
       (List.filter
          (fun student =>
             match confusion_areas student with [] => false | _ => true end)
          class_data)).

(** Line 501: the confusion chart is drawn when the dict is not empty. *)
Definition confusion_chart_drawn (class_data : list student_record) : bool :=
  match confusion_counts class_data with [] => false | _ => true end.

(* ===================================================================== *)
(** ** More predicates on runs and records                                *)
(* ===================================================================== *)

(** The script changes nothing but the state of the random generator. *)
Definition draws_only {A} (c : Script A) : Prop :=
  forall w, exists r, final (c w) = with_rand r w.

(** The number of times a string occurs in a list. *)
Definition occurrences (x : pystr) (l : list pystr) : Z :=
  Z.of_nat (length (List.filter (str_eqb x) l)).

(** The shape of a roster record, beyond the bounds on its fractions. *)
Definition student_well_formed (r : student_record) : Prop :=
  List.map fst (objectives_mastered r) = objectives_
  /\ (1 <= length (curiosity_paths r) <= 4)%nat
  /\ NoDup (curiosity_paths r)
  /\ (forall p, In p (curiosity_paths r) -> In p curiosity_catalog)
  /\ (length (confusion_areas r) <= 2)%nat
  /\ NoDup (confusion_areas r)
  /\ (forall o, In o (confusion_areas r) -> In o objectives_)
  /\ 45 <= total_time_minutes r <= 120
  /\ 3 <= questions_asked r <= 15
  /\ 2 <= revisions_made r <= 8.

(** The shape of the record of the individual report. *)
Definition individual_well_formed (student : pystr) (r : individual_record)
    : Prop :=
  name r = student
  /\ List.map fst (objectives_progress r) = objectives_
  /\ List.map week (writing_timeline r)
     = [ py "Week 1"; py "Week 2"; py "Week 3"; py "Week 4"; py "Week 5";
         py "Week 6" ]
  /\ (2 <= length (exploration_tags r) <= 4)%nat
  /\ NoDup (exploration_tags r)
  /\ (forall t, In t (exploration_tags r) -> In t exploration_catalog)
  /\ List.map fst (ai_breakdown r)
     = [ py "student_original"; py "ai_scaffolding"; py "collaborative" ].

(** The cache holds generated records only: every individual record in
    it has the shape that the generator gives it. *)
Definition cache_generated (c : data_cache) : Prop :=
  forall k v, individual_cache c !! k = Some v -> individual_well_formed k v.

(* ===================================================================== *)
(** ** The assignment setup tab as a transition                           *)
(* ===================================================================== *)

(** The three guidance options of lines 145-147. *)
Definition guidance_options : list pystr :=
  [ py "Minimal - Hints and clarifying questions only";
    py "Moderate - Guided discovery with scaffolding";
    py "Exploratory - Deep questioning and tangent support" ].

(** What the guidance radio (default: the second option) returns. *)
Definition guidance_choice_of (i : ui_input) : pystr :=
  pick guidance_options 1 (choice_of i (py "Default AI Guidance Level:")).

(** What the delivery formats multiselect returns. *)
Definition delivery_formats_of (i : ui_input) : list pystr :=
  List.filter
    (fun o => bool_decide
       (o ∈ [ py "Written analysis"; py "Oral presentation";
              py "Visual timeline"; py "Debate participation";
              py "Creative project"; py "Multimedia story" ]))
    (selection_of i (py "Students can demonstrate learning through:")).

(** The record of lines 176-184 as a function of the submitted input
    ([setup_run] below proves it). *)
Definition submitted_record (i : ui_input) : assignment :=
  {| title := text_of i (py "Assignment Title");
     objectives := all_objectives (preset_objectives_of i)
                                  (custom_objectives_of i);
     required_resources := resource_list (required_resources_of i);
     optional_resources := resource_list (optional_resources_of i);
     ai_name := text_of i (py "AI Assistant Name");
     guidance_level := hd [] (split (py " - ") (guidance_choice_of i));
     delivery_formats := delivery_formats_of i |}.

(** What a run of the setup tab does to the session. *)
Definition setup_transition (i : ui_input) (s : session_state) : session_state :=
  if bool_decide (clicked i = Some submit_label)
  then {| assignment_created := true;
          assignment_data := Some (submitted_record i);
          student_dialogue_step := student_dialogue_step s;
          student_responses := student_responses s |}
  else s.

(** Whether a run of the setup tab raises: only when the preview is due
    and there is no record to show. *)
Definition setup_outcome (i : ui_input) (s : session_state) : option exn :=
  if bool_decide (clicked i = Some submit_label) then None
  else if assignment_created s
       then match assignment_data s with
            | Some _ => None
            | None => Some (KeyError "title")
            end
       else None.

(** The session holds a record whenever it says that one was created. *)
Definition preview_ready (s : session_state) : Prop :=
  assignment_created s = true -> assignment_data s <> None.

(** A session that says an assignment was created, and holds none. *)
Definition session_without_record : session_state :=
  {| assignment_created := true;
     assignment_data := None;
     student_dialogue_step := 0;
     student_responses := ∅ |}.

(** The preview of the assignment that a session holds: what lines
    191-214 add to the page. *)
Definition preview_of (s : session_state) : list elem :=
  if assignment_created s
  then match assignment_data s with
       | Some data => [st_markdown (preview_content data)]
       | None => []
       end
  else [].

(* ===================================================================== *)
(** ** How a run of the student experience tab ends                       *)
(* ===================================================================== *)

(** Whether a run of the tab raises, read off the code
    ([experience_raised] below proves it): after a reset the first stage
    is shown and nothing is raised; a cursor below -5 is no index of the
    list; the third stage has no content; the buttons of the first,
    second and fourth stage rerun the script; the fifth stage and a
    cursor past the list raise nothing. *)
Definition experience_outcome (i : ui_input) (s : session_state) : option exn :=
  if bool_decide (clicked i = Some reset_label) then None
  else
    let c := student_dialogue_step s in
    match stage_index c with
    | None => if c <? 0 then Some IndexError else None
    | Some 2 => Some (KeyError "content")
    | Some 4 => None
    | Some _ =>
        if bool_decide (clicked i = Some (next_key c))
        then Some RerunException else None
    end.

(** Every recorded response belongs to the first stage and is one of the
    options that this stage offers. *)
Definition responses_offered (s : session_state) : Prop :=
  forall k v, student_responses s !! k = Some v -> k = 0 /\ In v intro_options.

(** Everything that the first cache holds is still in the second one:
    nothing was cleared in between. *)
Definition cache_extends (c1 c2 : data_cache) : Prop :=
  (forall v, class_cache c1 = Some v -> class_cache c2 = Some v)
  /\ (forall k v, individual_cache c1 !! k = Some v ->
        individual_cache c2 !! k = Some v).

(** The run changed nothing but the cache and the random generator. *)
Definition same_page_and_session (w w' : world) : Prop :=
  session w' = session w /\ input w' = input w /\ screen w' = screen w.

(** The number of students of the roster for which [p] holds. *)
Definition students_where (p : student_record -> bool)
    (class_data : list student_record) : Z :=
  Z.of_nat (length (List.filter p class_data)).

(** The student lists [key] among their confusion areas. *)
Definition confused_by (key : pystr) (student : student_record) : bool :=
  bool_decide (key ∈ confusion_areas student).

(** The student lists [key] among their curiosity paths. *)
Definition explored (key : pystr) (student : student_record) : bool :=
  bool_decide (key ∈ curiosity_paths student).

(** The counts of a ranking never go up. *)
Fixpoint descending (l : list (pystr * Z)) : Prop :=
  match l with
  | [] => True
  | x :: l' => Forall (fun y => snd y <= snd x) l' /\ descending l'
  end.

(** A roster of two students for the examples: one explored two paths and
    is confused by one objective, the other explored one path. *)
Definition two_students : list student_record :=
  [ {| student_name := py "Jayla Williams";
       objectives_mastered := [];
       writing_scores := [];
       curiosity_paths := [ py "Modern Parallels"; py "Economic Factors" ];
       ai_support_level := 3 # 10;
       total_time_minutes := 45;
       questions_asked := 3;
       revisions_made := 2;
       confusion_areas := [ py "Synthesize information" ] |};
    {| student_name := py "Jackson Miller";
       objectives_mastered := [];
       writing_scores := [];
       curiosity_paths := [ py "Economic Factors" ];
       ai_support_level := 5 # 10;
       total_time_minutes := 60;
       questions_asked := 4;
       revisions_made := 3;
       confusion_areas := [] |} ].
(* ===================================================================== *)
(** ** Strings: lemmas                                                    *)
(* ===================================================================== *)

Lemma startswith_spec (p s : pystr) :
  startswith p s = true <-> exists t, s = p ++ t.
Proof.
  revert s. induction p as [|a p IH]; intros s; simpl.
  - split; [intros _; now exists s | reflexivity].
  - destruct s as [|b s]; simpl.
    + split; [discriminate | intros [t Ht]; discriminate].
    + rewrite andb_true_iff, N.eqb_eq, IH. split.
      * intros [-> [t ->]]. now exists t.
      * intros [t Ht]. injection Ht as -> ->. split; [reflexivity | now exists t].
Qed.

Lemma contains_spec (sub s : pystr) :
  contains sub s = true <-> has_substring sub s.
Proof.
  unfold has_substring. induction s as [|c s IH].
  - simpl. rewrite orb_false_r, startswith_spec. split.
    + intros [t Ht]. exists [], t. exact Ht.
    + intros [pre [post H]]. destruct pre; [now exists post | discriminate].
  - cbn [contains]. rewrite orb_true_iff, startswith_spec, IH. split.
    + intros [[t Ht] | [pre [post H]]].
      * exists [], t. exact Ht.
      * exists (c :: pre), post. simpl. now rewrite H.
    + intros [pre [post H]]. destruct pre as [|c' pre].
      * left. now exists post.
      * right. injection H as _ H. now exists pre, post.
Qed.

Lemma lstrip_nil (s : pystr) : lstrip s = [] <-> forallb isspace s = true.
Proof.
  induction s as [|c s IH]; simpl; [tauto|].
  destruct (isspace c); simpl; [exact IH | split; discriminate].
Qed.

Lemma forallb_lstrip (s : pystr) :
  forallb isspace (lstrip s) = forallb isspace s.
Proof.
  induction s as [|c s IH]; simpl; [reflexivity|].
  destruct (isspace c) eqn:E; simpl; [exact IH | now rewrite E].
Qed.

Lemma forallb_rev_space (s : pystr) :
  forallb isspace (rev s) = true <-> forallb isspace s = true.
Proof.
  rewrite !forallb_forall. split; intros H x Hx; apply H.
  - now apply in_rev in Hx.
  - now apply in_rev.
Qed.

(** A string strips to nothing exactly when it is all white space. *)
Lemma strip_nil (s : pystr) : strip s = [] <-> forallb isspace s = true.
Proof.
  unfold strip, rstrip. rewrite <- forallb_lstrip, <- forallb_rev_space, <- lstrip_nil.
  split; intros H.
  - apply (f_equal (@rev N)) in H. now rewrite rev_involutive in H.
  - now rewrite H.
Qed.

(** A piece of a split consists of characters of the text. *)
Lemma split_from_chars (sep : pystr) (s : pystr) :
  forall skip cur piece c,
    In piece (split_from sep skip cur s) -> In c piece -> In c cur \/ In c s.
Proof.
  induction s as [|a s IH]; intros skip cur piece c Hp Hc.
  - simpl in Hp. destruct Hp as [<- | []]. left. now apply in_rev.
  - cbn [split_from] in Hp. destruct skip as [|k].
    + destruct (startswith sep (a :: s)).
      * destruct Hp as [<- | Hp].
        -- left. now apply in_rev.
        -- destruct (IH _ _ _ _ Hp Hc) as [[] | H]. right. now right.
      * destruct (IH _ _ _ _ Hp Hc) as [[<- | H] | H].
        -- right. now left.
        -- now left.
        -- right. now right.
    + destruct (IH _ _ _ _ Hp Hc) as [H | H]; [now left | right; now right].
Qed.

Lemma split_chars (sep s piece : pystr) (c : N) :
  In piece (split sep s) -> In c piece -> In c s.
Proof.
  intros Hp Hc. destruct (split_from_chars sep s O [] piece c Hp Hc) as [[] | H].
  exact H.
Qed.

(** A split has at least one piece. *)
Lemma split_from_cons (sep s : pystr) :
  forall skip cur, exists piece rest, split_from sep skip cur s = piece :: rest.
Proof.
  induction s as [|a s IH]; intros skip cur; cbn [split_from].
  - eauto.
  - destruct skip; [destruct (startswith sep (a :: s))|]; eauto.
Qed.

(** The lines of a text that is all white space are all blank. *)
Lemma blank_text_has_blank_lines (text : pystr) :
  strip text = [] ->
  List.filter (fun obj => truthy (strip obj)) (split [LF] text) = [].
Proof.
  intros H. apply strip_nil in H. rewrite forallb_forall in H.
  assert (Hall : forall piece, In piece (split [LF] text) ->
                   truthy (strip piece) = false).
  { intros piece Hp.
    assert (Hs : strip piece = []).
    { apply strip_nil, forallb_forall. intros c Hc. apply H.
      exact (split_chars _ _ _ _ Hp Hc). }
    now rewrite Hs. }
  induction (split [LF] text) as [|p l IH]; simpl; [reflexivity|].
  rewrite (Hall p) by now left. apply IH. intros q Hq. apply Hall. now right.
Qed.

Lemma truthy_nonempty (s : pystr) : truthy s = negb (str_eqb s []).
Proof. destruct s; reflexivity. Qed.

Lemma filter_map_swap {A B} (f : A -> B) (p : B -> bool) (l : list A) :
  List.map f (List.filter (fun x => p (f x)) l) = List.filter p (List.map f l).
Proof.
  induction l as [|x l IH]; simpl; [reflexivity|].
  destruct (p (f x)); simpl; now rewrite IH.
Qed.

(** Lines 171-173 compute what the specification describes; the guard of
    line 172 changes nothing. *)
Lemma all_objectives_eq (preset : list pystr) (custom : pystr) :
  all_objectives preset custom = preset ++ trimmed_nonblank_lines custom.
Proof.
  unfold all_objectives, trimmed_nonblank_lines.
  rewrite <- (filter_map_swap strip (fun line => negb (str_eqb line []))).
  rewrite (filter_ext (fun x => negb (str_eqb (strip x) []))
                      (fun obj => truthy (strip obj)))
    by (intros obj; symmetry; apply truthy_nonempty).
  destruct (strip custom) eqn:E; cbn [truthy].
  - rewrite (blank_text_has_blank_lines custom E). simpl. now rewrite app_nil_r.
  - reflexivity.
Qed.

(* ===================================================================== *)
(** ** Strings: more lemmas                                               *)
(* ===================================================================== *)

Lemma str_eqb_eq (a b : pystr) : str_eqb a b = true <-> a = b.
Proof.
  revert b. induction a as [|x a IH]; intros [|y b]; simpl;
    try (split; [discriminate | intros [=]]); [tauto|].
  rewrite andb_true_iff, N.eqb_eq, IH. split.
  - now intros [-> ->].
  - intros [= -> ->]. now split.
Qed.

Lemma str_eqb_refl (a : pystr) : str_eqb a a = true.
Proof. now apply str_eqb_eq. Qed.

Lemma str_eqb_neq (a b : pystr) : str_eqb a b = false <-> a <> b.
Proof.
  split.
  - intros H E. apply str_eqb_eq in E. congruence.
  - intros H. destruct (str_eqb a b) eqn:E; [|reflexivity].
    apply str_eqb_eq in E. contradiction.
Qed.

(** Splitting at one character and joining with it gives the text back. *)
Lemma join_split_from (c : N) (s : pystr) :
  forall cur, join [c] (split_from [c] O cur s) = rev cur ++ s.
Proof.
  induction s as [|a s IH]; intros cur.
  - simpl. now rewrite app_nil_r.
  - cbn [split_from startswith length Nat.pred].
    destruct (N.eqb_spec c a) as [->|Hne]; cbn [andb].
    + destruct (split_from_cons [a] s O []) as [piece [rest E]].
      cbn [join]. rewrite E. rewrite <- E, IH. reflexivity.
    + rewrite IH. cbn [rev]. now rewrite <- app_assoc.
Qed.

Lemma join_split (c : N) (s : pystr) : join [c] (split [c] s) = s.
Proof. unfold split. now rewrite join_split_from. Qed.

(** The pieces of a split at one character do not hold that character. *)
Lemma split_from_without (c : N) (s : pystr) :
  forall cur piece,
    ~ In c cur ->
    In piece (split_from [c] O cur s) -> ~ In c piece.
Proof.
  induction s as [|a s IH]; intros cur piece Hcur Hp.
  - destruct Hp as [<- | []]. now rewrite <- in_rev.
  - cbn [split_from startswith length Nat.pred] in Hp.
    destruct (N.eqb_spec c a) as [->|Hne]; cbn [andb] in Hp.
    + destruct Hp as [<- | Hp]; [now rewrite <- in_rev|].
      apply (IH [] piece); [intros [] | exact Hp].
    + apply (IH (a :: cur) piece); [|exact Hp].
      intros [E | H]; [congruence | contradiction].
Qed.

(** What [lstrip] removes is white space, and what it leaves does not
    start with white space. *)
Lemma lstrip_split (s : pystr) :
  exists spaces, s = spaces ++ lstrip s /\ forallb isspace spaces = true.
Proof.
  induction s as [|c s [spaces [E H]]].
  - now exists [].
  - cbn [lstrip]. destruct (isspace c) eqn:Ec.
    + exists (c :: spaces). split; [simpl; now rewrite <- E|].
      simpl. now rewrite Ec.
    + now exists [].
Qed.

Lemma lstrip_head (s : pystr) (c : N) (t : pystr) :
  lstrip s = c :: t -> isspace c = false.
Proof.
  induction s as [|a s IH]; simpl; [discriminate|].
  destruct (isspace a) eqn:Ea; [exact IH|]. now intros [= <- _].
Qed.

Lemma lstrip_idem (s : pystr) : lstrip (lstrip s) = lstrip s.
Proof.
  destruct (lstrip s) as [|c t] eqn:E; [reflexivity|].
  simpl. now rewrite (lstrip_head s c t E).
Qed.

(** A stripped string that is not empty starts and ends with a character
    that is not white space. *)
Lemma strip_ends (s : pystr) :
  strip s <> [] ->
  (exists c rest, strip s = c :: rest /\ isspace c = false)
  /\ (exists init c, strip s = init ++ [c] /\ isspace c = false).
Proof.
  unfold strip, rstrip. intros Hne.
  destruct (lstrip (rev (lstrip s))) as [|c u] eqn:Eu; [now destruct Hne|].
  pose proof (lstrip_head _ _ _ Eu) as Hc.
  split.
  - destruct (lstrip_split (rev (lstrip s))) as [spaces [E Hs]].
    rewrite Eu in E. apply (f_equal (@rev N)) in E.
    rewrite rev_involutive, rev_app_distr in E.
    destruct (rev (c :: u)) as [|d v] eqn:Ev.
    { apply (f_equal (@length N)) in Ev. rewrite length_rev in Ev. discriminate. }
    exists d, v. split; [reflexivity|].
    destruct (lstrip s) as [|d' t] eqn:Et.
    { apply (f_equal (@length N)) in E. rewrite length_app in E. discriminate. }
    cbn [app] in E. injection E as -> _. exact (lstrip_head _ _ _ Et).
  - exists (rev u), c. split; [reflexivity | exact Hc].
Qed.

(** Stripping twice is stripping once. *)
Lemma strip_idem (s : pystr) : strip (strip s) = strip s.
Proof.
  destruct (strip s) as [|c t] eqn:E; [reflexivity|].
  assert (Hne : strip s <> []) by (rewrite E; discriminate).
  destruct (strip_ends s Hne) as [[c' [rest [E1 Hc']]] [init [d [E2 Hd]]]].
  rewrite E in E1, E2. injection E1 as <- <-.
  unfold strip, rstrip. cbn [lstrip]. rewrite Hc'.
  rewrite E2, rev_app_distr. cbn [rev app lstrip]. rewrite Hd.
  cbn [rev]. now rewrite rev_involutive.
Qed.

(** Stripping keeps characters of the string only. *)
Lemma lstrip_incl (s : pystr) (c : N) : In c (lstrip s) -> In c s.
Proof.
  induction s as [|a s IH]; simpl; [tauto|].
  destruct (isspace a); [right; auto | tauto].
Qed.

Lemma strip_incl (s : pystr) (c : N) : In c (strip s) -> In c s.
Proof.
  unfold strip, rstrip. intros H. apply in_rev in H.
  apply lstrip_incl in H. apply in_rev in H. now apply lstrip_incl.
Qed.

(** The value of a single-choice widget is one of its options. *)
Lemma pick_in (options : list pystr) (index : nat) (picked : pystr) :
  (index < length options)%nat -> In (pick options index picked) options.
Proof.
  intros Hi. unfold pick. case_bool_decide as H.
  - now apply list_elem_of_In.
  - destruct (options !! index) as [o|] eqn:E.
    + simpl. apply list_elem_of_In. eapply list_elem_of_lookup_2. exact E.
    + apply lookup_ge_None_1 in E. unfold pystr in *. lia.
Qed.

Lemma pick_default (options : list pystr) (index : nat) (picked : pystr) :
  ~ In picked options ->
  pick options index picked = default [] (options !! index).
Proof.
  intros H. unfold pick. case_bool_decide as H'; [|reflexivity].
  apply list_elem_of_In in H'. contradiction.
Qed.
(* ===================================================================== *)
(** ** Lines, white space and trimming, as the specification words them  *)
(* ===================================================================== *)

(** The table of [isspace] holds the white space code points, all of
    them. *)
Lemma isspace_white_space (c : N) : isspace c = true <-> white_space c.
Proof.
  unfold isspace, white_space. cbn [In].
  rewrite !orb_true_iff, !andb_true_iff, !N.leb_le, !N.eqb_eq. lia.
Qed.

Lemma forallb_isspace_blank (s : pystr) :
  forallb isspace s = true <-> blank s.
Proof.
  unfold blank. rewrite forallb_forall, List.Forall_forall.
  split; intros H c Hc; apply isspace_white_space, H, Hc.
Qed.

(** A string strips to nothing exactly when it is blank. *)
Lemma strip_nil_blank (s : pystr) : strip s = [] <-> blank s.
Proof. rewrite strip_nil. apply forallb_isspace_blank. Qed.

(** [strip] trims: it takes a run of white space off each end, and what
    it leaves neither starts nor ends with white space. *)
Lemma strip_trimmed_of (line : pystr) : trimmed_of line (strip line).
Proof.
  destruct (lstrip_split line) as [l [El Hl]].
  destruct (lstrip_split (rev (lstrip line))) as [r [Er Hr]].
  exists l, (rev r). split; [|split; [|split; [|split]]].
  - unfold strip, rstrip. rewrite <- rev_app_distr, <- Er, rev_involutive.
    exact El.
  - now apply forallb_isspace_blank.
  - apply forallb_isspace_blank. now apply forallb_rev_space.
  - intros c rest E.
    assert (Hne : strip line <> []) by (rewrite E; discriminate).
    destruct (strip_ends line Hne) as [[c' [rest' [E' Hc]]] _].
    rewrite E in E'. injection E' as -> _.
    intros Hw. apply isspace_white_space in Hw. congruence.
  - intros init c E.
    assert (Hne : strip line <> []).
    { rewrite E. intros H. apply (f_equal (@length N)) in H.
      rewrite length_app in H. cbn in H. lia. }
    destruct (strip_ends line Hne) as [_ [init' [c' [E' Hc]]]].
    rewrite E in E'. apply app_inj_tail in E' as [_ ->].
    intros Hw. apply isspace_white_space in Hw. congruence.
Qed.

(** [split] at the line feed gives the lines of the text. *)
Lemma split_from_lines_of (s : pystr) :
  forall cur, ~ In LF cur -> lines_of (rev cur ++ s) (split_from [LF] O cur s).
Proof.
  induction s as [|a s IH]; intros cur Hcur.
  - cbn [split_from]. rewrite app_nil_r. apply lines_of_last.
    now rewrite <- in_rev.
  - cbn [split_from startswith length Nat.pred].
    destruct (N.eqb_spec LF a) as [<-|Hne]; cbn [andb].
    + apply lines_of_cons; [now rewrite <- in_rev|].
      apply (IH []). intros [].
    + replace (rev cur ++ a :: s) with (rev (a :: cur) ++ s)
        by (cbn [rev]; now rewrite <- app_assoc).
      apply IH. intros [E | H]; [congruence | contradiction].
Qed.

Lemma split_lines_of (text : pystr) : lines_of text (split [LF] text).
Proof. apply (split_from_lines_of text []). intros []. Qed.

(** Stripping every line and dropping the empty results is trimming every
    line and dropping the blank ones. *)
Lemma strip_lines_trimmed_nonblank (lines : list pystr) :
  trimmed_nonblank lines
    (List.filter (fun line => negb (str_eqb line [])) (List.map strip lines)).
Proof.
  induction lines as [|line lines IH]; cbn [List.map List.filter].
  - constructor.
  - destruct (str_eqb (strip line) []) eqn:E; cbn [negb].
    + apply trimmed_nonblank_drop; [|exact IH].
      apply strip_nil_blank. now apply str_eqb_eq.
    + apply trimmed_nonblank_keep; [| apply strip_trimmed_of | exact IH].
      intros Hb. apply strip_nil_blank in Hb. rewrite Hb in E. discriminate E.
Qed.

(** The custom objectives that lines 172-173 compute are the lines of the
    text, trimmed, without the blank ones. *)
Lemma custom_objectives_spec (text : pystr) :
  exists lines,
    lines_of text lines
    /\ trimmed_nonblank lines (trimmed_nonblank_lines text).
Proof.
  exists (split [LF] text). split; [apply split_lines_of|].
  apply strip_lines_trimmed_nonblank.
Qed.
(* ===================================================================== *)
(** ** Scripts: what a run leaves alone                                   *)
(* ===================================================================== *)

Section Keeps.
Context {T : Type} (f : session_state -> T).

Lemma keeps_ret {A} (a : A) : keeps f (ret a).
Proof. intros w. reflexivity. Qed.

Lemma keeps_raise {A} (e : exn) : keeps f (@raise A e).
Proof. intros w. reflexivity. Qed.

Lemma keeps_bind {A B} (c : Script A) (k : A -> Script B) :
  keeps f c -> (forall a, keeps f (k a)) -> keeps f (bind c k).
Proof.
  intros Hc Hk w. unfold bind. specialize (Hc w).
  destruct (c w) as [a w'|e w']; simpl in *.
  - now rewrite Hk.
  - exact Hc.
Qed.

Lemma keeps_emit (e : elem) : keeps f (emit e).
Proof. intros w. reflexivity. Qed.

Lemma keeps_within {A} (container : list elem -> elem) (body : Script A) :
  keeps f body -> keeps f (within container body).
Proof.
  intros Hb w. unfold within. specialize (Hb (with_screen [] w)).
  destruct (body (with_screen [] w)); exact Hb.
Qed.

Lemma keeps_when (b : bool) (c : Script unit) : keeps f c -> keeps f (when b c).
Proof. intros Hc. destruct b; [exact Hc | apply keeps_ret]. Qed.

Lemma keeps_for_each {A} (l : list A) (body : A -> Script unit) :
  (forall x, keeps f (body x)) -> keeps f (for_each l body).
Proof.
  intros Hb. induction l as [|x l IH]; simpl.
  - apply keeps_ret.
  - apply keeps_bind; [apply Hb | intros _; exact IH].
Qed.

Lemma keeps_comprehension {A B} (l : list A) (g : A -> Script B) :
  (forall x, keeps f (g x)) -> keeps f (comprehension l g).
Proof.
  intros Hg. induction l as [|x l IH]; simpl.
  - apply keeps_ret.
  - apply keeps_bind; [apply Hg | intros y].
    apply keeps_bind; [exact IH | intros ys; apply keeps_ret].
Qed.

Lemma keeps_get_session : keeps f get_session.
Proof. intros w. reflexivity. Qed.

Lemma keeps_get_input : keeps f get_input.
Proof. intros w. reflexivity. Qed.

Lemma keeps_get_cache : keeps f get_cache.
Proof. intros w. reflexivity. Qed.

Lemma keeps_put_cache (c : data_cache) : keeps f (put_cache c).
Proof. intros w. reflexivity. Qed.

Lemma keeps_next_raw : keeps f next_raw.
Proof. intros w. reflexivity. Qed.

Lemma keeps_getitem {A} (l : list A) (i : Z) : keeps f (getitem l i).
Proof.
  intros w. unfold getitem.
  destruct (_ && _); [destruct (l !! _)|]; reflexivity.
Qed.

Lemma keeps_subscript {A} (key : string) (entry : option A) :
  keeps f (subscript key entry).
Proof. intros w. destruct entry; reflexivity. Qed.

End Keeps.

Create HintDb keeps.
#[export] Hint Resolve keeps_ret keeps_raise keeps_emit keeps_get_session
  keeps_get_input keeps_get_cache keeps_put_cache keeps_next_raw keeps_getitem
  keeps_subscript : keeps.

(** Walks through the binds, conditionals and loops of a script. *)
Ltac keeps_steps :=
  repeat first
    [ progress auto with keeps
    | apply keeps_bind; [|intros]
    | apply keeps_within
    | apply keeps_when
    | apply keeps_for_each; intros
    | apply keeps_comprehension; intros
    | match goal with
      | |- keeps _ (match ?x with _ => _ end) => destruct x
      end ].

Section KeepsLibrary.
Context {T : Type} (f : session_state -> T).

Lemma keeps_st_button (label key : pystr) : keeps f (st_button_ label key).
Proof. unfold st_button_. keeps_steps. Qed.

Lemma keeps_st_form_submit_button (label : pystr) :
  keeps f (st_form_submit_button_ label).
Proof. unfold st_form_submit_button_. keeps_steps. Qed.

Lemma keeps_st_text_input (label : pystr) : keeps f (st_text_input_ label).
Proof. unfold st_text_input_. keeps_steps. Qed.

Lemma keeps_st_text_area (label key : pystr) : keeps f (st_text_area_ label key).
Proof. unfold st_text_area_. keeps_steps. Qed.

Lemma keeps_st_selectbox (label : pystr) (options : list pystr) :
  keeps f (st_selectbox_ label options).
Proof. unfold st_selectbox_. keeps_steps. Qed.

Lemma keeps_st_radio (label : pystr) (options : list pystr) (index : nat)
    (key : pystr) :
  keeps f (st_radio_ label options index key).
Proof. unfold st_radio_. keeps_steps. Qed.

Lemma keeps_st_multiselect (label : pystr) (options : list pystr) :
  keeps f (st_multiselect_ label options).
Proof. unfold st_multiselect_. keeps_steps. Qed.

Lemma keeps_random_random : keeps f random_random.
Proof. unfold random_random. keeps_steps. Qed.

Lemma keeps_random_uniform (a b : Q) : keeps f (random_uniform a b).
Proof. unfold random_uniform. keeps_steps. Qed.

Lemma keeps_randbelow (n : N) : keeps f (randbelow n).
Proof. unfold randbelow. keeps_steps. Qed.

Lemma keeps_random_randint (a b : Z) : keeps f (random_randint a b).
Proof. unfold random_randint. keeps_steps. Qed.

Lemma keeps_random_choice {A} (seq : list A) : keeps f (random_choice seq).
Proof. unfold random_choice. keeps_steps. Qed.

Lemma keeps_sample_loop {A} (k : nat) :
  forall m (pool : list A), keeps f (sample_loop k m pool).
Proof.
  induction k as [|k IH]; intros m pool; simpl.
  - apply keeps_ret.
  - keeps_steps.
Qed.

Lemma keeps_random_sample {A} (population : list A) (k : Z) :
  keeps f (random_sample population k).
Proof. unfold random_sample. keeps_steps. apply keeps_sample_loop. Qed.

End KeepsLibrary.

#[export] Hint Resolve keeps_st_button keeps_st_form_submit_button
  keeps_st_text_input keeps_st_text_area keeps_st_selectbox keeps_st_radio
  keeps_st_multiselect keeps_random_random keeps_random_uniform keeps_randbelow
  keeps_random_randint keeps_random_choice keeps_random_sample
  keeps_sample_loop : keeps.

(** The report tab leaves the whole session alone. *)
Lemma report_keeps_session : keeps (fun s => s) show_student_report.
Proof.
  unfold show_student_report, generate_class_data,
    generate_individual_student_data, generate_class_data_body,
    generate_individual_student_data_body, generate_student, render_report,
    px_bar_, px_pie_, px_line_, st_tag_, insights, max_key, min_key.
  keeps_steps.
Qed.

(** Every assignment that sets the assignment attributes leaves the
    dialogue state alone. *)
Lemma set_assignment_data_keeps (d : assignment) :
  keeps dialogue_state (set_assignment_data d).
Proof. intros w. reflexivity. Qed.

Lemma set_assignment_created_keeps (b : bool) :
  keeps dialogue_state (set_assignment_created b).
Proof. intros w. reflexivity. Qed.

(** The assignment setup tab leaves the dialogue state alone. *)
Lemma setup_keeps_dialogue : keeps dialogue_state show_assignment_setup.
Proof.
  unfold show_assignment_setup.
  pose proof set_assignment_data_keeps. pose proof set_assignment_created_keeps.
  keeps_steps.
Qed.
(* ===================================================================== *)
(** ** The student experience tab, run by run                             *)
(* ===================================================================== *)

(** Evaluates the closed arithmetic and string comparisons of a goal. *)
Ltac is_literal v :=
  lazymatch v with
  | true => idtac
  | false => idtac
  | Z0 => idtac
  | Zpos _ => idtac
  | Zneg _ => idtac
  | O => idtac
  | S _ => idtac
  end.

Ltac eval_closed :=
  repeat match goal with
         | |- context [Z.of_nat ?n] =>
             let v := eval vm_compute in (Z.of_nat n) in
             is_literal v; progress change (Z.of_nat n) with v
         | |- context [Z.to_nat ?z] =>
             let v := eval vm_compute in (Z.to_nat z) in
             is_literal v; progress change (Z.to_nat z) with v
         | |- context [str_eqb ?a ?b] =>
             let v := eval vm_compute in (str_eqb a b) in
             is_literal v; progress change (str_eqb a b) with v
         | |- context [bool_decide ?P] =>
             let v := eval vm_compute in (bool_decide P) in
             is_literal v; progress change (bool_decide P) with v
         | |- context [if ?b then _ else _] =>
             let v := eval vm_compute in b in
             is_literal v; progress change b with v
         end.

(** A button that the click of this run is known not to be on. *)
Ltac no_click :=
  match goal with
  | |- context [bool_decide (?cl = Some ?k)] =>
      rewrite (bool_decide_eq_false_2 (cl = Some k)) by assumption
  end.

(** Replaces the goal by one that it evaluates to; the kernel compares the
    two on its virtual machine. *)
Ltac vm_to G' :=
  match goal with
  | |- ?G => tryif constr_eq G G' then idtac else refine ((_ : G') <: G)
  end.

(** Runs a script on a world as far as the goal determines it, without
    looking into subscripts of lists. *)
Ltac run_step :=
  match goal with
  | |- ?G =>
      let G1 := eval cbv beta delta
                  [bind within ret raise emit when get_session put_session
                   get_input get_cache put_cache subscript st_button_
                   st_form_submit_button_ st_text_input_ st_text_area_
                   st_selectbox_ st_radio_ st_multiselect_ st_rerun
                   set_assignment_data set_assignment_created
                   set_student_dialogue_step set_student_responses
                   record_response advance assistant_says next_raw] in G in
      let G2 := eval cbn -[bool_decide pick py str_of_Z str_eqb split
                           all_objectives resource_list preview_content
                           teacher_report] in G1 in
      vm_to G2
  end;
  eval_closed; try no_click.

(** The same, through subscripts of lists. *)
Ltac run_script :=
  repeat (progress (run_step; try unfold getitem; run_step)).

Lemma stage_index_cases (c : Z) :
  (c < -5 /\ stage_index c = None)
  \/ (5 <= c /\ stage_index c = None)
  \/ (c = -5 \/ c = -4 \/ c = -3 \/ c = -2 \/ c = -1
      \/ c = 0 \/ c = 1 \/ c = 2 \/ c = 3 \/ c = 4).
Proof.
  unfold stage_index.
  destruct (Z.ltb_spec c (-5)); [now left|].
  destruct (Z.ltb_spec c 0); [right; right; lia|].
  destruct (Z.ltb_spec c 5); [right; right; lia|].
  right; left. now split.
Qed.

(** The session that a run of the tab ends in. *)
Lemma experience_session (w : world) :
  session (final (show_student_experience w))
  = dialogue_transition (input w) (session w).
Proof.
  destruct w as [[ac ad c m] r ca [cl tx ch se] p].
  unfold dialogue_transition. cbn [clicked student_dialogue_step session input].
  destruct (decide (cl = Some reset_label)) as [->|Hreset].
  { vm_compute. reflexivity. }
  rewrite (bool_decide_eq_false_2 _ Hreset).
  unfold show_student_experience.
  destruct (stage_index_cases c) as [[Hc E]|[[Hc E]|Hc]].
  - rewrite E. run_script.
    destruct (Z.ltb_spec c 5); [|lia]. run_script.
    destruct (Z.ltb_spec c 0); [|lia].
    destruct (Z.leb_spec 0 (c + 5)); [lia|]. simpl.
    now destruct (bool_decide _).
  - rewrite E. run_script.
    destruct (Z.ltb_spec c 5); [lia|]. simpl.
    now destruct (bool_decide _).
  - repeat destruct Hc as [-> | Hc]; try subst c;
      match goal with
      | |- context [bool_decide (cl = Some (next_key ?k))] =>
          destruct (decide (cl = Some (next_key k))) as [Hn|Hn];
          [ rewrite (bool_decide_eq_true_2 _ Hn); subst cl; vm_compute; reflexivity
          | rewrite (bool_decide_eq_false_2 _ Hn); run_script; reflexivity ]
      end.
Qed.

Lemma transition_reset (i : ui_input) (s : session_state) :
  clicked i = Some reset_label ->
  dialogue_transition i s = reset_conversation s.
Proof.
  intros H. unfold dialogue_transition. now rewrite bool_decide_eq_true_2.
Qed.

Lemma transition_monotone (i : ui_input) (s : session_state) :
  clicked i <> Some reset_label ->
  student_dialogue_step s <= student_dialogue_step (dialogue_transition i s).
Proof.
  intros H. unfold dialogue_transition. rewrite bool_decide_eq_false_2 by exact H.
  cbn zeta. repeat case_match; simpl; lia.
Qed.

Lemma stage_index_inv (c k : Z) :
  stage_index c = Some k -> 0 <= c -> k = c /\ c < 5.
Proof.
  unfold stage_index. intros H Hc.
  destruct (Z.ltb_spec c (-5)); [lia|].
  destruct (Z.ltb_spec c 0); [lia|].
  destruct (Z.ltb_spec c 5); [|discriminate].
  injection H as <-. lia.
Qed.

(** The five things a run can do to a session whose cursor is not
    negative. *)
Lemma transition_cases (i : ui_input) (s : session_state) :
  0 <= student_dialogue_step s ->
  dialogue_transition i s = reset_conversation s
  \/ dialogue_transition i s = s
  \/ (student_dialogue_step s = 0 /\ exists v, dialogue_transition i s = answered v s)
  \/ (student_dialogue_step s = 1 /\ dialogue_transition i s = acknowledged s)
  \/ (student_dialogue_step s = 3 /\ exists v, dialogue_transition i s = answered v s).
Proof.
  intros Hc. unfold dialogue_transition.
  destruct (bool_decide _); [now left|].
  cbn zeta. destruct (bool_decide _); [|now right; left].
  destruct (stage_index (student_dialogue_step s)) as [k|] eqn:E;
    [|now right; left].
  destruct (stage_index_inv _ _ E Hc) as [-> Hlt].
  assert (Hk : student_dialogue_step s = 0 \/ student_dialogue_step s = 1
               \/ student_dialogue_step s = 2 \/ student_dialogue_step s = 3
               \/ student_dialogue_step s = 4) by lia.
  destruct Hk as [Hk|[Hk|[Hk|[Hk|Hk]]]]; rewrite Hk.
  - right; right; left. split; [reflexivity|]. eexists. reflexivity.
  - right; right; right; left. now split.
  - now right; left.
  - right; right; right; right. split; [reflexivity|]. eexists. reflexivity.
  - now right; left.
Qed.

Lemma reset_before_the_check (s : session_state) :
  before_the_check (reset_conversation s).
Proof.
  split; simpl; [lia|]. rewrite dom_empty. apply empty_subseteq.
Qed.

Lemma before_the_check_within_catalog (s : session_state) :
  before_the_check s -> within_catalog s.
Proof.
  intros [Hc Hd]. split; [lia|].
  intros k Hk. specialize (Hd k Hk). apply elem_of_singleton in Hd as ->.
  apply elem_of_union_l, elem_of_union_l, elem_of_singleton. reflexivity.
Qed.

Lemma answered_dom (v : pystr) (s : session_state) (keys : gset Z) :
  dom (student_responses s) ⊆ keys ->
  student_dialogue_step s ∈ keys ->
  dom (student_responses (answered v s)) ⊆ keys.
Proof.
  intros Hd Hk. simpl. rewrite dom_insert. apply union_subseteq. split.
  - now apply singleton_subseteq_l.
  - exact Hd.
Qed.

Lemma transition_within_catalog (i : ui_input) (s : session_state) :
  within_catalog s -> within_catalog (dialogue_transition i s).
Proof.
  intros [Hc Hd].
  destruct (transition_cases i s) as [E|[E|[[Hk [v E]]|[[Hk E]|[Hk [v E]]]]]];
    [lia | rewrite E ..].
  - apply before_the_check_within_catalog, reset_before_the_check.
  - now split.
  - split; [simpl; lia|]. apply answered_dom; [exact Hd|]. rewrite Hk.
    apply elem_of_union_l, elem_of_union_l, elem_of_singleton. reflexivity.
  - split; [simpl; lia | exact Hd].
  - split; [simpl; lia|]. apply answered_dom; [exact Hd|]. rewrite Hk.
    apply elem_of_union_r, elem_of_singleton. reflexivity.
Qed.

Lemma transition_before_the_check (i : ui_input) (s : session_state) :
  before_the_check s -> before_the_check (dialogue_transition i s).
Proof.
  intros [Hc Hd].
  destruct (transition_cases i s) as [E|[E|[[Hk [v E]]|[[Hk E]|[Hk [v E]]]]]];
    [lia | try rewrite E ..].
  - apply reset_before_the_check.
  - now split.
  - split; [simpl; lia|]. apply answered_dom; [exact Hd|]. rewrite Hk.
    apply elem_of_singleton. reflexivity.
  - split; [simpl; lia | exact Hd].
  - lia.
Qed.

(** An invariant of the dialogue state that the tab's transition
    preserves holds in every reachable session. *)
Lemma reachable_invariant (P : session_state -> Prop) :
  (forall s s', dialogue_state s = dialogue_state s' -> P s -> P s') ->
  P initial_session ->
  (forall i s, P s -> P (dialogue_transition i s)) ->
  forall s, reachable s -> P s.
Proof.
  intros Hext Hinit Hstep s H.
  induction H as [|w _ IH|w _ IH|w _ IH].
  - exact Hinit.
  - refine (Hext _ _ _ IH). symmetry. apply setup_keeps_dialogue.
  - rewrite experience_session. now apply Hstep.
  - now rewrite (report_keeps_session w).
Qed.

Lemma reachable_within_catalog (s : session_state) :
  reachable s -> within_catalog s.
Proof.
  apply reachable_invariant.
  - intros [] [] [= <- <-] H. exact H.
  - apply before_the_check_within_catalog, (reset_before_the_check initial_session).
  - intros i s'. apply transition_within_catalog.
Qed.

Lemma reachable_before_the_check (s : session_state) :
  reachable s -> before_the_check s.
Proof.
  apply reachable_invariant.
  - intros [] [] [= <- <-] H. exact H.
  - apply (reset_before_the_check initial_session).
  - intros i s'. apply transition_before_the_check.
Qed.

Lemma act_session (i : ui_input) (w : world) :
  session (act i w) = dialogue_transition i (session w).
Proof. unfold act. now rewrite experience_session. Qed.

(** Two consecutive worlds of a trace are one action apart. *)
Lemma trace_step (actions : list ui_input) :
  forall (w : world) (n : nat) (i : ui_input) (before after : world),
    actions !! n = Some i ->
    trace actions w !! n = Some before ->
    trace actions w !! S n = Some after ->
    after = act i before.
Proof.
  induction actions as [|a actions IH]; intros w n i before after Hi Hb Ha.
  - destruct n; discriminate.
  - destruct n as [|n].
    + simpl in *. injection Hi as <-. injection Hb as <-.
      destruct actions; simpl in Ha; now injection Ha as <-.
    + exact (IH (act a w) n i before after Hi Hb Ha).
Qed.

(** The page of a run that started on an empty page shows the message of
    the finished session exactly when the cursor is at the end of the
    catalog. *)
Lemma complete_shown_iff (w : world) :
  clicked (input w) <> Some reset_label ->
  0 <= student_dialogue_step (session w) <= 5 ->
  shows_session_complete
    (screen (final (show_student_experience (with_screen [] w))))
  <-> student_dialogue_step (session w) = 5.
Proof.
  destruct w as [[ac ad c m] r ca [cl tx ch se] p].
  cbn [clicked student_dialogue_step session input]. intros Hreset Hc.
  unfold shows_session_complete, show_student_experience.
  assert (Hk : c = 0 \/ c = 1 \/ c = 2 \/ c = 3 \/ c = 4 \/ c = 5) by lia.
  clear Hc.
  destruct Hk as [->|[->|[->|[->|[->| ->]]]]];
    try match goal with
        | |- In _ (screen (final (_ (with_screen _
                 {| session := {| student_dialogue_step := ?k |} |})))) <-> _ =>
            destruct (decide (cl = Some (next_key k))) as [Hn|Hn]; [subst cl|]
        end;
    run_script;
    (split; [intros H; repeat destruct H as [H|H]; try discriminate H;
             try reflexivity; try contradiction
            | intros H; try discriminate H; try lia ]).
  all: repeat (first [left; reflexivity | right]).
Qed.
(* ===================================================================== *)
(** ** The dialogue cursor and the response map                           *)
(* ===================================================================== *)

(** C3. Over every sequence of user actions on the student experience tab
    the dialogue cursor never decreases, except at a click on the reset
    button; a click on the reset button always leaves the cursor at 0 and
    the response map empty. *)
Theorem cursor_monotone_except_reset
    (actions : list ui_input) (w : world) (n : nat) (i : ui_input)
    (before after : world) :
  actions !! n = Some i ->
  trace actions w !! n = Some before ->
  trace actions w !! S n = Some after ->
  (clicked i = Some reset_label ->
     student_dialogue_step (session after) = 0
     /\ student_responses (session after) = ∅)
  /\ (clicked i <> Some reset_label ->
        student_dialogue_step (session before)
        <= student_dialogue_step (session after)).
Proof.
  intros Hi Hb Ha. rewrite (trace_step actions w n i before after Hi Hb Ha).
  rewrite act_session. split; intros Hc.
  - rewrite (transition_reset _ _ Hc). now split.
  - now apply transition_monotone.
Qed.

Lemma cursor_monotone_except_reset_witness :
  (clicked (click_on (next_key 0)) = Some reset_label ->
     student_dialogue_step
       (session (act (click_on (next_key 0))
                     (world_of initial_session counting_source no_action))) = 0
     /\ student_responses
          (session (act (click_on (next_key 0))
                        (world_of initial_session counting_source no_action))) = ∅)
  /\ (clicked (click_on (next_key 0)) <> Some reset_label ->
        student_dialogue_step
          (session (world_of initial_session counting_source no_action))
        <= student_dialogue_step
             (session (act (click_on (next_key 0))
                           (world_of initial_session counting_source no_action)))).
Proof.
  apply (cursor_monotone_except_reset
           [click_on (next_key 0); click_on reset_label]
           (world_of initial_session counting_source no_action) 0
           (click_on (next_key 0))); reflexivity.
Defined.

(** C4. In every reachable session the dialogue cursor lies in
    [0, len(dialogue_steps)], where the catalog has five stages; and for
    every cursor value in that interval a run (without a reset click) shows
    the message of the finished session exactly when the cursor equals the
    length of the catalog. *)
Theorem cursor_within_catalog (s : session_state) :
  reachable s ->
  (forall selected_student, length (dialogue_steps selected_student) = 5%nat)
  /\ 0 <= student_dialogue_step s <= 5
  /\ (forall w : world,
        0 <= student_dialogue_step (session w) <= 5 ->
        clicked (input w) <> Some reset_label ->
        shows_session_complete
          (screen (final (show_student_experience (with_screen [] w))))
        <-> student_dialogue_step (session w) = 5).
Proof.
  intros H. destruct (reachable_within_catalog s H) as [Hc _].
  split; [reflexivity|]. split; [exact Hc|].
  intros w Hw Hreset. now apply complete_shown_iff.
Qed.

Lemma cursor_within_catalog_witness :
  let s := session (act (click_on (next_key 0))
                        (world_of initial_session counting_source no_action)) in
  (forall selected_student, length (dialogue_steps selected_student) = 5%nat)
  /\ 0 <= student_dialogue_step s <= 5
  /\ (forall w : world,
        0 <= student_dialogue_step (session w) <= 5 ->
        clicked (input w) <> Some reset_label ->
        shows_session_complete
          (screen (final (show_student_experience (with_screen [] w))))
        <-> student_dialogue_step (session w) = 5).
Proof.
  apply (cursor_within_catalog
           (session (act (click_on (next_key 0))
                         (world_of initial_session counting_source no_action)))).
  apply reachable_experience, reachable_initial.
Defined.

(** A session with the cursor at the end of the catalog, were there one,
    is shown as finished. *)
Lemma finished_session_is_shown :
  shows_session_complete
    (screen (final (show_student_experience
                      (world_of (session_at 5) counting_source no_action)))).
Proof. vm_compute. auto 10. Qed.

(** C10. In every reachable session the keys of the response map are among
    0, 2 and 3; and a run at the content delivery stage (1) or at the
    reflection stage (4), from any session whatever, never writes to the
    response map: it leaves the map as it was, unless the reset button
    was clicked, which empties it. *)
Theorem responses_only_for_stages_0_2_3 :
  (forall s : session_state,
     reachable s -> dom (student_responses s) ⊆ ({[0; 2; 3]} : gset Z))
  /\ (forall w : world,
        student_dialogue_step (session w) = 1
        \/ student_dialogue_step (session w) = 4 ->
        student_responses (session (final (show_student_experience w)))
        = if bool_decide (clicked (input w) = Some reset_label)
          then ∅ else student_responses (session w)).
Proof.
  split.
  - intros s H. now destruct (reachable_within_catalog s H).
  - intros w Hk. rewrite experience_session. unfold dialogue_transition.
    destruct (bool_decide (clicked (input w) = Some reset_label));
      [reflexivity|].
    cbn zeta. destruct (bool_decide _); [|reflexivity].
    destruct Hk as [Hk|Hk]; rewrite Hk; reflexivity.
Qed.

Lemma responses_only_for_stages_0_2_3_witness :
  dom (student_responses
         (session (act (click_on (next_key 0))
                       (world_of initial_session counting_source no_action))))
    ⊆ ({[0; 2; 3]} : gset Z)
  /\ student_responses
       (session (final (show_student_experience
          (world_of (session_with_response 4) counting_source
                    (click_on (next_key 4))))))
     = {[ 0 := py "Economic data and graphs" ]}
  /\ student_responses
       (session (final (show_student_experience
          (world_of (session_with_response 1) counting_source
                    (click_on (next_key 1))))))
     = {[ 0 := py "Economic data and graphs" ]}.
Proof.
  split; [|split].
  - apply (proj1 responses_only_for_stages_0_2_3).
    apply reachable_experience, reachable_initial.
  - apply (proj2 responses_only_for_stages_0_2_3
             (world_of (session_with_response 4) counting_source
                       (click_on (next_key 4)))).
    right. reflexivity.
  - apply (proj2 responses_only_for_stages_0_2_3
             (world_of (session_with_response 1) counting_source
                       (click_on (next_key 1)))).
    left. reflexivity.
Defined.

(** A user action leads from a reachable session to a reachable one. *)
Lemma reachable_act (i : ui_input) (w : world) :
  reachable (session w) -> reachable (session (act i w)).
Proof. intros H. unfold act. apply reachable_experience. exact H. Qed.

(** The application as it is never gets past the comprehension check: in
    every reachable session the cursor is at most 2 and only stage 0 has a
    response. *)
Theorem reachable_sessions_stop_at_the_check (s : session_state) :
  reachable s ->
  0 <= student_dialogue_step s <= 2
  /\ dom (student_responses s) ⊆ ({[0]} : gset Z).
Proof. apply reachable_before_the_check. Qed.

Lemma reachable_sessions_stop_at_the_check_witness :
  let s := session (act (click_on (next_key 1))
                        (act (click_on (next_key 0))
                             (world_of initial_session counting_source
                                       no_action))) in
  student_dialogue_step s = 2
  /\ student_responses s = {[ 0 := py "The photographs of bread lines" ]}
  /\ 0 <= student_dialogue_step s <= 2
  /\ dom (student_responses s) ⊆ ({[0]} : gset Z).
Proof.
  split; [vm_compute; reflexivity|]. split; [vm_compute; reflexivity|].
  apply (reachable_sessions_stop_at_the_check
           (session (act (click_on (next_key 1))
                         (act (click_on (next_key 0))
                              (world_of initial_session counting_source
                                        no_action))))).
  apply reachable_act, reachable_act, reachable_initial.
Defined.

(* ===================================================================== *)
(** ** The comprehension check and the reflection stage                   *)
(* ===================================================================== *)

(** The stage descriptor of the comprehension check. *)
Lemma comprehension_check_has_no_content (selected_student : pystr) :
  exists step,
    dialogue_steps selected_student !! 2%nat = Some step
    /\ type_ step = Some (py "comprehension_check")
    /\ content step = None.
Proof. eexists. split; [reflexivity|]. now split. Qed.

(** Lines 297-302 decide on the substring, as the specification says. *)
Lemma comprehension_feedback_page (answer : pystr) (w : world) :
  exists w',
    comprehension_feedback answer w = Return tt w'
    /\ session w' = session w
    /\ ((has_substring fragile_and_interconnected answer
         /\ screen w' = screen w
              ++ [st_success ([127881%N] ++ py " Great thinking! You got it!")])
        \/ (~ has_substring fragile_and_interconnected answer
            /\ exists hint,
                 screen w' = screen w
                   ++ [st_warning (py "Hmm, let me help you think about this differently...");
                       st_chat_message (py "assistant") robot [st_write hint]])).
Proof.
  unfold comprehension_feedback.
  destruct (contains fragile_and_interconnected answer) eqn:E.
  - eexists. split; [reflexivity|]. split; [reflexivity|]. left.
    split; [now apply contains_spec | reflexivity].
  - eexists. split; [reflexivity|]. split; [reflexivity|]. right. split.
    + intros H. apply contains_spec in H. congruence.
    + eexists. cbn. now rewrite <- app_assoc.
Qed.

(** The two options that the specification names, and a third one that
    differs from the first in case only. *)
Lemma comprehension_options_decided :
  contains fragile_and_interconnected
    (py "The economic system was fragile and interconnected") = true
  /\ contains fragile_and_interconnected (py "Banks were like card games") = false
  /\ contains fragile_and_interconnected
       (py "The economic system was Fragile and Interconnected") = false.
Proof. vm_compute. repeat split. Qed.

(** The handler of the comprehension check, were it ever run on its stage:
    it records the answer under the cursor, advances it and asks for a
    rerun. *)
Lemma comprehension_handler (selected_student : pystr) (step : dialogue_step)
    (w : world) :
  dialogue_steps selected_student !! 2%nat = Some step ->
  clicked (input w) = Some (next_key 2) ->
  student_dialogue_step (session w) = 2 ->
  let answer :=
    pick [ py "The economy was built on gambling";
           py "The economic system was fragile and interconnected";
           py "People were literally playing cards";
           py "Banks were like card games" ] 0
         (choice_of (input w) (step_key 2)) in
  raised (handle_step selected_student 2 step w) = Some RerunException
  /\ session (final (handle_step selected_student 2 step w))
     = answered answer (session w).
Proof.
  intros Hs Hc Hk. injection Hs as <-.
  destruct w as [[ac ad c m] r ca [cl tx ch se] p].
  cbn [clicked student_dialogue_step session input] in *. subst cl c.
  unfold handle_step. run_script. unfold comprehension_feedback.
  destruct (contains _ _); run_script; now split.
Qed.

(** C5, on the code. A run with the cursor at the comprehension check (and
    no reset click) raises [KeyError: 'content'] while the assistant's
    message is rendered: the message stays empty, no answer widget is
    shown, and the session is left as it was, whatever was clicked. *)
Theorem comprehension_check_raises (w : world) :
  student_dialogue_step (session w) = 2 ->
  clicked (input w) <> Some reset_label ->
  raised (show_student_experience w) = Some (KeyError "content")
  /\ session (final (show_student_experience w)) = session w
  /\ last (screen (final (show_student_experience w)))
     = Some (st_chat_message (py "assistant") robot []).
Proof.
  destruct w as [[ac ad c m] r ca [cl tx ch se] p].
  cbn [clicked student_dialogue_step session input]. intros -> Hreset.
  unfold show_student_experience. run_script.
  split; [reflexivity|]. split; [reflexivity|].
  now rewrite last_snoc.
Qed.

Lemma comprehension_check_raises_witness :
  let w := world_of (session_at 2) counting_source (click_on (next_key 2)) in
  raised (show_student_experience w) = Some (KeyError "content")
  /\ session (final (show_student_experience w)) = session w
  /\ last (screen (final (show_student_experience w)))
     = Some (st_chat_message (py "assistant") robot []).
Proof.
  apply (comprehension_check_raises
           (world_of (session_at 2) counting_source (click_on (next_key 2)))).
  - reflexivity.
  - vm_compute. discriminate.
Defined.

(** The handler of the reflection stage, run on its stage (which no
    reachable session is at): a click on "Complete Learning Session"
    renders the teacher report, and the run returns with the session as
    it was.  The cursor stays at 4; it does not move on to 5, the value
    for which the tab shows the message of the finished session. *)
Theorem reflection_completion_keeps_cursor (w : world) :
  student_dialogue_step (session w) = 4 ->
  clicked (input w) = Some (next_key 4) ->
  raised (show_student_experience w) = None
  /\ last (screen (final (show_student_experience w)))
     = Some (st_expander (py "See what your teacher learns about your process:")
               [st_markdown (teacher_report (student_of (input w)))])
  /\ session (final (show_student_experience w)) = session w
  /\ student_dialogue_step (session (final (show_student_experience w))) <> 5.
Proof.
  destruct w as [[ac ad c m] r ca [cl tx ch se] p].
  cbn [clicked student_dialogue_step session input]. intros -> ->.
  unfold show_student_experience. run_script.
  split; [reflexivity|]. split; [now rewrite last_snoc|].
  split; [reflexivity | discriminate].
Qed.

Lemma reflection_completion_keeps_cursor_witness :
  let w := world_of (session_at 4) counting_source (click_on (next_key 4)) in
  raised (show_student_experience w) = None
  /\ last (screen (final (show_student_experience w)))
     = Some (st_expander (py "See what your teacher learns about your process:")
               [st_markdown (teacher_report (student_of (input w)))])
  /\ session (final (show_student_experience w)) = session w
  /\ student_dialogue_step (session (final (show_student_experience w))) <> 5.
Proof.
  apply (reflection_completion_keeps_cursor
           (world_of (session_at 4) counting_source (click_on (next_key 4))));
    reflexivity.
Defined.
(* ===================================================================== *)
(** ** The assignment setup tab                                           *)
(* ===================================================================== *)

(** The first piece of a split is always there. *)
Lemma getitem_split_0 (sep s : pystr) (w : world) :
  exists piece, getitem (split sep s) 0 w = Return piece w.
Proof.
  unfold split. destruct (split_from_cons sep s O []) as [piece [rest E]].
  rewrite E. exists piece. reflexivity.
Qed.

(** The record that a submission of the form stores. *)
Lemma setup_submitted (w : world) :
  clicked (input w) = Some submit_label ->
  exists d,
    assignment_data (session (final (show_assignment_setup w))) = Some d
    /\ assignment_created (session (final (show_assignment_setup w))) = true
    /\ objectives d
       = all_objectives (preset_objectives_of (input w))
                        (custom_objectives_of (input w))
    /\ required_resources d = resource_list (required_resources_of (input w))
    /\ optional_resources d = resource_list (optional_resources_of (input w)).
Proof.
  destruct w as [[ac ad c m] r ca [cl tx ch se] p].
  cbn [clicked session input]. intros ->.
  unfold show_assignment_setup. repeat progress run_step.
  match goal with
  | |- context [getitem (split ?sep ?s) 0 ?w] =>
      destruct (getitem_split_0 sep s w) as [piece ->]
  end.
  repeat progress run_step.
  eexists. split; [reflexivity|]. split; [reflexivity|].
  repeat split; reflexivity.
Qed.

(** C7. On submission the objective list of the stored assignment is the
    selected preset objectives followed by the custom objectives: the
    custom text split on newline, each line trimmed of the white space at
    its ends, blank lines dropped.  For the text "A\n\nB\n" the list ends
    with "A", "B", and so it does for "  A \n \t\nB\t". *)
Theorem objectives_on_submission (w : world) :
  clicked (input w) = Some submit_label ->
  exists d custom lines,
    assignment_data (session (final (show_assignment_setup w))) = Some d
    /\ objectives d = preset_objectives_of (input w) ++ custom
    /\ lines_of (custom_objectives_of (input w)) lines
    /\ trimmed_nonblank lines custom
    /\ (custom_objectives_of (input w) = two_objectives_text ->
        custom = [py "A"; py "B"])
    /\ (custom_objectives_of (input w) = spaced_objectives_text ->
        custom = [py "A"; py "B"]).
Proof.
  intros H. destruct (setup_submitted w H) as [d [Hd [_ [Ho _]]]].
  destruct (custom_objectives_spec (custom_objectives_of (input w)))
    as [lines [Hl Ht]].
  exists d, (trimmed_nonblank_lines (custom_objectives_of (input w))), lines.
  split; [exact Hd|]. split; [now rewrite Ho, all_objectives_eq|].
  split; [exact Hl|]. split; [exact Ht|].
  split; intros ->; reflexivity.
Qed.

Lemma objectives_on_submission_witness :
  let w := world_of initial_session counting_source spaced_submission in
  exists d custom lines,
    assignment_data (session (final (show_assignment_setup w))) = Some d
    /\ objectives d = preset_objectives_of (input w) ++ custom
    /\ lines_of (custom_objectives_of (input w)) lines
    /\ trimmed_nonblank lines custom
    /\ (custom_objectives_of (input w) = two_objectives_text ->
        custom = [py "A"; py "B"])
    /\ (custom_objectives_of (input w) = spaced_objectives_text ->
        custom = [py "A"; py "B"]).
Proof.
  apply (objectives_on_submission
           (world_of initial_session counting_source spaced_submission)).
  reflexivity.
Defined.

(** The two examples, run. *)
Lemma example_submission_objectives :
  option_map objectives
    (assignment_data
       (session (final (show_assignment_setup
          (world_of initial_session counting_source example_submission)))))
  = Some [py "Analyze primary sources"; py "A"; py "B"]
  /\ option_map objectives
       (assignment_data
          (session (final (show_assignment_setup
             (world_of initial_session counting_source spaced_submission)))))
     = Some [py "Analyze primary sources"; py "A"; py "B"].
Proof. split; vm_compute; reflexivity. Qed.

(** A line that is trimmed differs from the line: the white space of
    "  A " is gone, and a line of white space is no objective. *)
Lemma trimming_examples :
  trimmed_of (py "  A ") (py "A")
  /\ ~ trimmed_of (py "  A ") (py "  A ")
  /\ blank [32%N; 9%N]
  /\ ~ blank (py "B" ++ [9%N]).
Proof.
  split; [|split; [|split]].
  - exists (py "  "), (py " "). split; [reflexivity|].
    split; [repeat constructor; vm_compute; tauto|].
    split; [repeat constructor; vm_compute; tauto|].
    split.
    + intros c rest E. injection E as <- _. vm_compute.
      intuition discriminate.
    + intros init c E. change (py "A") with ([] ++ [65%N]) in E.
      apply app_inj_tail in E as [_ <-]. vm_compute. intuition discriminate.
  - intros [l [r [_ [_ [_ [Hh _]]]]]].
    apply (Hh 32%N (py " A ") eq_refl). vm_compute. tauto.
  - repeat constructor; vm_compute; tauto.
  - intros H. apply Forall_inv in H. vm_compute in H. intuition discriminate.
Qed.

(** C8. The resource fields of the stored assignment are the texts of the
    two resource areas split on the line feed, and the empty text gives
    the empty list; so "" gives [] and "x\ny" gives ["x", "y"], for the
    required and for the optional resources alike. *)
Theorem resources_on_submission (w : world) :
  clicked (input w) = Some submit_label ->
  exists d,
    assignment_data (session (final (show_assignment_setup w))) = Some d
    /\ (required_resources_of (input w) = [] -> required_resources d = [])
    /\ (required_resources_of (input w) = py "x" ++ [LF] ++ py "y" ->
        required_resources d = [py "x"; py "y"])
    /\ (optional_resources_of (input w) = [] -> optional_resources d = [])
    /\ (optional_resources_of (input w) = py "x" ++ [LF] ++ py "y" ->
        optional_resources d = [py "x"; py "y"]).
Proof.
  intros H. destruct (setup_submitted w H) as [d [Hd [_ [_ [Hr Ho]]]]].
  exists d. split; [exact Hd|]. rewrite Hr, Ho.
  repeat split; intros ->; reflexivity.
Qed.

Lemma resources_on_submission_witness :
  let w := world_of initial_session counting_source example_submission in
  exists d,
    assignment_data (session (final (show_assignment_setup w))) = Some d
    /\ (required_resources_of (input w) = [] -> required_resources d = [])
    /\ (required_resources_of (input w) = py "x" ++ [LF] ++ py "y" ->
        required_resources d = [py "x"; py "y"])
    /\ (optional_resources_of (input w) = [] -> optional_resources d = [])
    /\ (optional_resources_of (input w) = py "x" ++ [LF] ++ py "y" ->
        optional_resources d = [py "x"; py "y"]).
Proof.
  apply (resources_on_submission
           (world_of initial_session counting_source example_submission)).
  reflexivity.
Defined.

(** The splitting of lines 179-180 by itself. *)
Lemma resource_list_examples :
  resource_list [] = []
  /\ resource_list (py "x" ++ [LF] ++ py "y") = [py "x"; py "y"].
Proof. split; reflexivity. Qed.

(** The example, run: the required field holds two lines, the optional one
    none. *)
Lemma example_submission_resources :
  option_map (fun d => (required_resources d, optional_resources d))
    (assignment_data
       (session (final (show_assignment_setup
          (world_of initial_session counting_source example_submission)))))
  = Some ([py "x"; py "y"], []).
Proof. vm_compute. reflexivity. Qed.
(* ===================================================================== *)
(** ** The support histogram                                              *)
(* ===================================================================== *)

Lemma sum_from (l : list Z) (a : Z) : fold_left Z.add l a = a + sum l.
Proof.
  unfold sum. revert a. induction l as [|x l IH]; intros a; simpl; [lia|].
  rewrite (IH (a + x)), (IH (0 + x)). lia.
Qed.

Lemma sum_ones {A} (l : list A) :
  sum (List.map (fun _ => 1) l) = Z.of_nat (length l).
Proof.
  induction l as [|x l IH]; [reflexivity|].
  cbn [List.map length]. unfold sum at 1. cbn [fold_left].
  rewrite sum_from, IH. lia.
Qed.

Lemma float_lt_spec (a b : Q) : float_lt a b = true <-> (a < b)%Q.
Proof.
  unfold float_lt. rewrite negb_true_iff. split.
  - intros H. apply Qnot_le_lt. intros Hle. apply Qle_bool_iff in Hle. congruence.
  - intros H. destruct (Qle_bool b a) eqn:E; [|reflexivity].
    apply Qle_bool_iff in E. exfalso. exact (Qlt_not_le _ _ H E).
Qed.

Lemma float_le_spec (a b : Q) : float_le a b = true <-> (a <= b)%Q.
Proof. apply Qle_bool_iff. Qed.

(** The three tests of lines 480-482 on one support level: exactly one of
    them holds. *)
Lemma one_band (x : Q) :
  let low := float_lt x (4 # 10) in
  let medium := float_le (4 # 10) x && float_lt x (6 # 10) in
  let high := float_le (6 # 10) x in
  (low = true /\ medium = false /\ high = false)
  \/ (low = false /\ medium = true /\ high = false)
  \/ (low = false /\ medium = false /\ high = true).
Proof.
  cbv zeta. unfold float_lt, float_le.
  destruct (Qle_bool (4 # 10) x) eqn:E4; destruct (Qle_bool (6 # 10) x) eqn:E6;
    simpl; auto.
  exfalso. apply Qle_bool_iff in E6.
  assert (H : (4 # 10 <= x)%Q) by (eapply Qle_trans; [|exact E6]; discriminate).
  apply Qle_bool_iff in H. congruence.
Qed.

Lemma band_counts_add_up (levels : list Q) :
  sum (support_counts levels) = Z.of_nat (length levels).
Proof.
  unfold support_counts. rewrite !sum_ones.
  unfold sum. cbn [fold_left].
  induction levels as [|x l IH]; [reflexivity|].
  cbn [List.filter length].
  destruct (one_band x) as [[-> [-> ->]]|[[-> [-> ->]]|[-> [-> ->]]]];
    cbn [length]; lia.
Qed.

Lemma level_in_exactly_one_band (x : Q) : in_exactly_one_band x.
Proof.
  unfold in_exactly_one_band, band_low, band_medium, band_high.
  destruct (one_band x) as [[Hl [Hm Hh]]|[[Hl [Hm Hh]]|[Hl [Hm Hh]]]].
  - left. apply float_lt_spec in Hl. split; [exact Hl|]. split.
    + intros [H _]. exact (Qlt_not_le _ _ Hl H).
    + intros H. apply float_le_spec in H. congruence.
  - right; left. apply andb_true_iff in Hm as [Hm1 Hm2].
    apply float_le_spec in Hm1. apply float_lt_spec in Hm2.
    split; [|split; [now split|]].
    + intros H. exact (Qlt_not_le _ _ H Hm1).
    + intros H. apply float_le_spec in H. congruence.
  - right; right. apply float_le_spec in Hh. split; [|split; [|exact Hh]].
    + intros H. apply float_lt_spec in H. congruence.
    + intros [_ H]. exact (Qlt_not_le _ _ H Hh).
Qed.

(** Equal rationals pass the same tests, so the counts depend on the
    values of the levels only. *)
Lemma filter_length_proper (p : Q -> bool) (l l' : list Q) :
  (forall x y, x == y -> p x = p y) ->
  Forall2 Qeq l l' ->
  length (List.filter p l) = length (List.filter p l').
Proof.
  intros Hp H. induction H as [|x y l l' Hxy _ IH]; [reflexivity|].
  cbn [List.filter]. rewrite (Hp x y Hxy).
  destruct (p y); cbn [length]; now rewrite IH.
Qed.

Lemma support_counts_proper (l l' : list Q) :
  Forall2 Qeq l l' -> support_counts l = support_counts l'.
Proof.
  intros H. unfold support_counts. rewrite !sum_ones.
  rewrite (filter_length_proper _ l l'), (filter_length_proper _ l l'),
    (filter_length_proper (fun x => float_le (6 # 10) x) l l');
    try exact H; try reflexivity;
    intros x y Hxy; unfold float_lt, float_le; now rewrite Hxy.
Qed.

(** Counting with a test that decides a band counts the levels in the
    band. *)
Lemma count_number_in (P : Q -> Prop) (p : Q -> bool) (l : list Q) :
  (forall x, p x = true <-> P x) ->
  number_in P l (sum (List.map (fun _ => 1) (List.filter p l))).
Proof.
  intros Hp. induction l as [|x l IH]; cbn [List.filter]; [constructor|].
  destruct (p x) eqn:E.
  - cbn [List.map]. unfold sum at 1. cbn [fold_left].
    rewrite sum_from, Z.add_comm. constructor; [now apply Hp | exact IH].
  - constructor; [|exact IH]. intros H. apply Hp in H. congruence.
Qed.

Lemma support_counts_bands (levels : list Q) :
  exists low medium high,
    support_counts levels = [low; medium; high]
    /\ number_in band_low levels low
    /\ number_in band_medium levels medium
    /\ number_in band_high levels high.
Proof.
  unfold support_counts. eexists _, _, _. split; [reflexivity|].
  split; [|split]; apply count_number_in; intros x.
  - apply float_lt_spec.
  - unfold band_medium. now rewrite andb_true_iff, float_le_spec, float_lt_spec.
  - apply float_le_spec.
Qed.

(** C9. The three counts of the histogram are the numbers of support
    levels below 0.4, from 0.4 to below 0.6, and from 0.6 on; every level
    is in exactly one of these bands; a roster whose support levels are
    0.3, 0.5 and 0.7 gives the counts 1, 1, 1; and for every roster the
    three counts add up to the size of the roster. *)
Theorem support_histogram (class_data : list student_record) :
  exists low medium high,
    support_counts (support_levels class_data) = [low; medium; high]
    /\ number_in band_low (support_levels class_data) low
    /\ number_in band_medium (support_levels class_data) medium
    /\ number_in band_high (support_levels class_data) high
    /\ Forall in_exactly_one_band (support_levels class_data)
    /\ (Forall2 Qeq (support_levels class_data) [3 # 10; 5 # 10; 7 # 10] ->
        [low; medium; high] = [1; 1; 1])
    /\ low + medium + high = Z.of_nat (length class_data).
Proof.
  destruct (support_counts_bands (support_levels class_data))
    as [low [medium [high [E [Hl [Hm Hh]]]]]].
  exists low, medium, high.
  split; [exact E|]. split; [exact Hl|]. split; [exact Hm|].
  split; [exact Hh|]. split; [|split].
  - apply Forall_forall. intros x _. apply level_in_exactly_one_band.
  - intros H. rewrite <- E. now rewrite (support_counts_proper _ _ H).
  - pose proof (band_counts_add_up (support_levels class_data)) as Hs.
    rewrite E in Hs. unfold sum in Hs. cbn [fold_left] in Hs.
    unfold support_levels in Hs. rewrite length_map in Hs. lia.
Qed.

Lemma support_histogram_witness :
  exists low medium high,
    support_counts (support_levels example_roster) = [low; medium; high]
    /\ number_in band_low (support_levels example_roster) low
    /\ number_in band_medium (support_levels example_roster) medium
    /\ number_in band_high (support_levels example_roster) high
    /\ Forall in_exactly_one_band (support_levels example_roster)
    /\ (Forall2 Qeq (support_levels example_roster) [3 # 10; 5 # 10; 7 # 10] ->
        [low; medium; high] = [1; 1; 1])
    /\ low + medium + high = Z.of_nat (length example_roster).
Proof. apply (support_histogram example_roster). Defined.

(** The limits of the bands, run: a level of 0.4 counts as medium and a
    level of 0.6 as high; and the example of the specification. *)
Lemma support_counts_examples :
  support_counts (support_levels limits_roster) = [0; 1; 1]
  /\ support_counts (support_levels example_roster) = [1; 1; 1]
  /\ number_in band_low (support_levels limits_roster) 0
  /\ ~ number_in band_low (support_levels limits_roster) 1.
Proof.
  split; [reflexivity|]. split; [reflexivity|]. split.
  - repeat (apply number_in_no; [vm_compute; discriminate|]). constructor.
  - intros H. inversion H as [|x l n Hx Hn|x l n Hx Hn]; subst.
    + vm_compute in Hx. discriminate Hx.
    + inversion Hn as [|y l' m Hy Hm|y l' m Hy Hm]; subst.
      * vm_compute in Hy. discriminate Hy.
      * inversion Hm.
Qed.
(* ===================================================================== *)
(** ** The data generators                                                *)
(* ===================================================================== *)

Lemma returns_ret {A} (a : A) (P : A -> Prop) : P a -> returns (ret a) P.
Proof. intros H w. now exists a, w. Qed.

Lemma returns_bind {A B} (c : Script A) (k : A -> Script B)
    (P : A -> Prop) (Q : B -> Prop) :
  returns c P -> (forall a, P a -> returns (k a) Q) -> returns (bind c k) Q.
Proof.
  intros Hc Hk w. destruct (Hc w) as [a [w1 [E Ha]]].
  destruct (Hk a Ha w1) as [b [w2 [E' Hb]]].
  exists b, w2. unfold bind. rewrite E. now split.
Qed.

Lemma returns_weaken {A} (c : Script A) (P Q : A -> Prop) :
  returns c P -> (forall a, P a -> Q a) -> returns c Q.
Proof.
  intros Hc H w. destruct (Hc w) as [a [w' [E Ha]]]. exists a, w'. auto.
Qed.

Lemma returns_next_raw : returns next_raw (fun _ => True).
Proof. intros w. eexists _, _. split; [reflexivity | exact I]. Qed.

(** [random.random()] is in [0, 1). *)
Lemma returns_random_random :
  returns random_random (fun u => 0 <= u /\ u < 1)%Q.
Proof.
  unfold random_random.
  eapply returns_bind; [apply returns_next_raw|]. intros k _.
  apply returns_ret.
  assert (H : (0 <= k mod 9007199254740992 < 9007199254740992)%N).
  { split; [apply N.le_0_l | now apply N.mod_lt]. }
  unfold Qle, Qlt. cbn [Qnum Qden]. lia.
Qed.

(** [random.uniform(a, b)] is in [a, b] when [a <= b]. *)
Lemma returns_random_uniform (a b : Q) :
  (a <= b)%Q -> returns (random_uniform a b) (fun x => a <= x /\ x <= b)%Q.
Proof.
  intros Hab. unfold random_uniform.
  eapply returns_bind; [apply returns_random_random|]. intros u [H0 H1].
  apply returns_ret.
  assert (Hd : (0 <= b - a)%Q).
  { unfold Qminus. rewrite <- (Qplus_opp_r a). apply Qplus_le_compat;
      [exact Hab | apply Qle_refl]. }
  split.
  - rewrite <- (Qplus_0_r a) at 1. apply Qplus_le_compat; [apply Qle_refl|].
    now apply Qmult_le_0_compat.
  - apply Qle_trans with (a + (b - a) * 1)%Q.
    + apply Qplus_le_compat; [apply Qle_refl|].
      rewrite (Qmult_comm (b - a) u), (Qmult_comm (b - a) 1).
      apply Qmult_le_compat_r; [now apply Qlt_le_weak | exact Hd].
    + assert (E : (a + (b - a) * 1 == b)%Q) by ring.
      rewrite E. apply Qle_refl.
Qed.

Lemma returns_randbelow (n : N) :
  (0 < n)%N -> returns (randbelow n) (fun k => (k < n)%N).
Proof.
  intros Hn. unfold randbelow.
  eapply returns_bind; [apply returns_next_raw|]. intros k _.
  apply returns_ret. apply N.mod_lt. lia.
Qed.

(** [random.randint(a, b)] is in [a, b] when [a <= b]. *)
Lemma returns_random_randint (a b : Z) :
  a <= b -> returns (random_randint a b) (fun z => a <= z <= b).
Proof.
  intros Hab. unfold random_randint.
  destruct (Z.ltb_spec 0 (b + 1 - a)); [|lia].
  eapply returns_bind; [apply returns_randbelow; lia|]. intros k Hk.
  apply returns_ret. apply N2Z.inj_lt in Hk. rewrite Z2N.id in Hk by lia.
  pose proof (N2Z.is_nonneg k). lia.
Qed.

Lemma returns_getitem {A} (l : list A) (i : Z) :
  0 <= i < Z.of_nat (length l) -> returns (getitem l i) (fun x => In x l).
Proof.
  intros Hi. unfold getitem.
  destruct (Z.ltb_spec i 0); [lia|].
  destruct (Z.leb_spec 0 i); [|lia].
  destruct (Z.ltb_spec i (Z.of_nat (length l))); [|lia]. cbn [andb].
  destruct (l !! Z.to_nat i) as [x|] eqn:E.
  - apply returns_ret. apply list_elem_of_In. eapply list_elem_of_lookup_2. exact E.
  - apply lookup_ge_None in E. lia.
Qed.

(** The selection loop returns as many elements as it has rounds. *)
Lemma returns_sample_loop {A} (k : nat) :
  forall (m : nat) (pool : list A),
    (k <= m <= length pool)%nat ->
    returns (sample_loop k m pool) (fun l => length l = k).
Proof.
  induction k as [|k IH]; intros m pool Hm; cbn [sample_loop].
  - now apply returns_ret.
  - eapply returns_bind; [apply (returns_randbelow (N.of_nat m)); lia|].
    intros j Hj. cbv beta in Hj.
    eapply returns_bind; [apply returns_getitem; lia|]. intros x _.
    eapply returns_bind; [apply returns_getitem; lia|]. intros y _.
    eapply returns_bind.
    + apply IH. rewrite length_insert. lia.
    + intros rest Hrest. apply returns_ret. cbn [length]. now rewrite Hrest.
Qed.

Lemma returns_random_sample {A} (population : list A) (k : Z) :
  0 <= k <= Z.of_nat (length population) ->
  returns (random_sample population k) (fun l => length l = Z.to_nat k).
Proof.
  intros Hk. unfold random_sample.
  destruct (Z.leb_spec 0 k); [|lia].
  destruct (Z.leb_spec k (Z.of_nat (length population))); [|lia]. cbn [andb].
  apply returns_sample_loop. lia.
Qed.

Lemma returns_comprehension {A B} (l : list A) (g : A -> Script B)
    (P : B -> Prop) :
  (forall x, returns (g x) P) ->
  returns (comprehension l g) (fun ys => length ys = length l /\ Forall P ys).
Proof.
  intros Hg. induction l as [|x l IH]; cbn [comprehension].
  - apply returns_ret. split; [reflexivity | constructor].
  - eapply returns_bind; [apply Hg|]. intros y Hy.
    eapply returns_bind; [apply IH|]. intros ys [Hlen Hys].
    apply returns_ret. split; [cbn [length]; now rewrite Hlen | now constructor].
Qed.

Lemma unit_interval_of (a b x : Q) :
  (0 <= a)%Q -> (b <= 1)%Q -> (a <= x /\ x <= b)%Q -> in_unit_interval x.
Proof.
  intros Ha Hb [H1 H2]. split; eapply Qle_trans; eauto.
Qed.

Lemma writing_score_of (a b x : Q) :
  (6 <= a)%Q -> (b <= 10)%Q -> (a <= x /\ x <= b)%Q -> is_writing_score x.
Proof.
  intros Ha Hb [H1 H2]. split; eapply Qle_trans; eauto.
Qed.

(** A mastery or support fraction drawn from a range within [0, 1]. *)
Lemma returns_fraction (a b : Q) :
  (0 <= a)%Q -> (a <= b)%Q -> (b <= 1)%Q ->
  returns (random_uniform a b) in_unit_interval.
Proof.
  intros Ha Hab Hb. eapply returns_weaken; [now apply returns_random_uniform|].
  intros x. now apply unit_interval_of.
Qed.

Lemma generate_student_within_bounds (student : pystr) :
  returns (generate_student student) student_within_bounds.
Proof.
  unfold generate_student.
  eapply returns_bind.
  { apply (returns_comprehension _ _ (fun item => in_unit_interval (snd item))).
    intros obj. eapply returns_bind;
      [apply (returns_fraction (6 # 10) 1); discriminate|].
    intros m Hm. now apply returns_ret. }
  intros mastered [_ Hmastered].
  eapply returns_bind.
  { apply (returns_comprehension _ _ is_writing_score). intros _.
    eapply returns_weaken; [apply (returns_random_uniform 6 10); discriminate|].
    intros x. apply writing_score_of; discriminate. }
  intros scores [Hlen Hscores].
  eapply returns_bind; [apply (returns_random_randint 1 4); lia|].
  intros n_paths Hn. cbv beta in Hn.
  eapply returns_bind; [apply returns_random_sample; cbn; lia|]. intros paths _.
  eapply returns_bind;
    [apply (returns_fraction (2 # 10) (8 # 10)); discriminate|].
  intros support Hsupport.
  eapply returns_bind; [apply (returns_random_randint 45 120); lia|]. intros minutes _.
  eapply returns_bind; [apply (returns_random_randint 3 15); lia|]. intros questions _.
  eapply returns_bind; [apply (returns_random_randint 2 8); lia|]. intros revisions _.
  eapply returns_bind; [apply (returns_random_randint 0 2); lia|]. intros n_conf Hc.
  cbv beta in Hc.
  eapply returns_bind; [apply returns_random_sample; cbn; lia|]. intros confusions _.
  apply returns_ret.
  split; [exact Hmastered|]. split; [exact Hsupport|].
  split; [exact Hlen | exact Hscores].
Qed.

(** C6. Whatever the random generator delivers, both generators return,
    and every record they return is within the documented bounds: each
    mastery fraction and each AI-support fraction lies in [0, 1], and there
    are six writing scores, each in [6, 10]. *)
Theorem generated_records_within_bounds (w : world) :
  (exists class_data w',
     generate_class_data_body w = Return (class_data, objectives_) w'
     /\ length class_data = 12%nat
     /\ Forall student_within_bounds class_data)
  /\ (forall student_name,
        exists student_data w',
          generate_individual_student_data_body student_name w
          = Return student_data w'
          /\ individual_within_bounds student_data).
Proof.
  split.
  - assert (H : returns generate_class_data_body
                  (fun r => snd r = objectives_ /\ length (fst r) = 12%nat
                            /\ Forall student_within_bounds (fst r))).
    { unfold generate_class_data_body. eapply returns_bind.
      - apply (returns_comprehension _ _ student_within_bounds).
        apply generate_student_within_bounds.
      - intros class_data [Hlen H]. apply returns_ret. now repeat split. }
    destruct (H w) as [[class_data objs] [w' [E [Ho [Hlen Hb]]]]].
    cbn [fst snd] in *. subst objs. now exists class_data, w'.
  - intros student_name.
    assert (H : returns (generate_individual_student_data_body student_name)
                  individual_within_bounds).
    { unfold generate_individual_student_data_body.
      eapply returns_bind.
      { apply (returns_comprehension _ _ (fun item => in_unit_interval (snd item))).
        intros obj. eapply returns_bind;
          [apply (returns_fraction (7 # 10) 1); discriminate|].
        intros m Hm. now apply returns_ret. }
      intros progress [_ Hprogress].
      eapply returns_bind.
      { apply (returns_comprehension _ _ (fun p => is_writing_score (score p))).
        intros i. eapply returns_bind;
          [apply (returns_random_uniform (65 # 10) (95 # 10)); discriminate|].
        intros s Hs. apply returns_ret. cbn [score].
        revert Hs. apply writing_score_of; discriminate. }
      intros timeline [Hlen Htimeline].
      eapply returns_bind; [apply (returns_random_randint 2 4); lia|].
      intros n_tags Hn. cbv beta in Hn.
      eapply returns_bind; [apply returns_random_sample; cbn; lia|]. intros tags _.
      eapply returns_bind;
        [apply (returns_fraction (4 # 10) (7 # 10)); discriminate|].
      intros original Ho.
      eapply returns_bind;
        [apply (returns_fraction (2 # 10) (4 # 10)); discriminate|].
      intros scaffolding Hs.
      eapply returns_bind;
        [apply (returns_fraction (1 # 10) (3 # 10)); discriminate|].
      intros collaborative Hc.
      apply returns_ret.
      split; [exact Hprogress|]. split; [|split; [exact Hlen | exact Htimeline]].
      cbn [ai_breakdown].
      constructor; [exact Ho|]. constructor; [exact Hs|].
      constructor; [exact Hc|]. constructor. }
    destruct (H w) as [d [w' [E Hd]]]. now exists d, w'.
Qed.
(* ===================================================================== *)
(** ** The individual report                                              *)
(* ===================================================================== *)

Lemma getitem_run {A} (l : list A) (i : Z) (w : world) :
  0 <= i < Z.of_nat (length l) ->
  exists x, getitem l i w = Return x w /\ l !! Z.to_nat i = Some x /\ In x l.
Proof.
  intros Hi. unfold getitem.
  destruct (Z.ltb_spec i 0); [lia|].
  destruct (Z.leb_spec 0 i); [|lia].
  destruct (Z.ltb_spec i (Z.of_nat (length l))); [|lia]. cbn [andb].
  destruct (l !! Z.to_nat i) as [x|] eqn:E.
  - exists x. split; [reflexivity|]. split; [reflexivity|].
    apply list_elem_of_In. eapply list_elem_of_lookup_2. exact E.
  - apply lookup_ge_None in E. lia.
Qed.

Lemma random_randint_run (a b : Z) (w : world) :
  a <= b ->
  exists z, random_randint a b w = Return z (drawn w)
            /\ z = a + Z.of_N (rand w 0%nat mod Z.to_N (b + 1 - a))
            /\ a <= z <= b.
Proof.
  intros Hab. unfold random_randint.
  destruct (Z.ltb_spec 0 (b + 1 - a)); [|lia].
  eexists. split; [reflexivity|]. split; [reflexivity|].
  assert (H0 : (rand w 0%nat mod Z.to_N (b + 1 - a) < Z.to_N (b + 1 - a))%N)
    by (apply N.mod_lt; lia).
  apply N2Z.inj_lt in H0. rewrite Z2N.id in H0 by lia.
  pose proof (N2Z.is_nonneg (rand w 0%nat mod Z.to_N (b + 1 - a))) as H1.
  revert H0 H1. generalize (Z.of_N (rand w 0%nat mod Z.to_N (b + 1 - a))).
  intros z H0 H1. lia.
Qed.

Lemma random_choice_run {A} (seq : list A) (w : world) :
  seq <> [] ->
  exists x, random_choice seq w = Return x (drawn w)
            /\ seq !! N.to_nat (rand w 0%nat mod N.of_nat (length seq)) = Some x
            /\ In x seq.
Proof.
  intros Hne. destruct seq as [|a seq]; [congruence|].
  unfold random_choice, bind, randbelow, bind, next_raw, ret.
  set (j := (rand w 0%nat mod N.of_nat (length (a :: seq)))%N).
  assert (Hj : (j < N.of_nat (length (a :: seq)))%N)
    by (apply N.mod_lt; cbn [length]; lia).
  destruct (getitem_run (a :: seq) (Z.of_N j) (drawn w)) as [x [E [Hl Hx]]];
    [lia|].
  exists x. split; [exact E|]. split; [|exact Hx].
  rewrite <- Z_N_nat, N2Z.id in Hl. exact Hl.
Qed.

(** A loop that renders one element per item. *)
Lemma for_each_emits {A} (g : A -> elem) (body : A -> Script unit)
    (l : list A) :
  (forall x w, body x w = Return tt (with_screen (screen w ++ [g x]) w)) ->
  forall w,
    for_each l body w = Return tt (with_screen (screen w ++ List.map g l) w).
Proof.
  intros Hb. induction l as [|x l IH]; intros w; cbn [for_each List.map].
  - unfold ret. rewrite app_nil_r. now destruct w.
  - unfold bind. rewrite Hb, IH. cbn [screen with_screen].
    rewrite <- app_assoc. reflexivity.
Qed.

(** Reads the components of a world that was built from another one. *)
Ltac script_world :=
  cbn [screen session rand cache input with_screen with_rand with_session
       with_cache with_input].

(** The insights of a record without tags: the strength is read off the
    record, the growth percentage is drawn, and [random.choice] finds no
    tag to choose from. *)
Lemma insights_without_tags (student_data : individual_record) (w : world) :
  objectives_progress student_data <> [] ->
  exploration_tags student_data = [] ->
  insights student_data w = Raise IndexError (drawn w).
Proof.
  intros Ho Ht. unfold insights. rewrite Ht.
  destruct (objectives_progress student_data) as [|item rest]; [congruence|].
  destruct (random_randint_run 15 35 w) as [percent [Ep _]]; [lia|].
  unfold bind. cbn [max_key min_key ret]. rewrite Ep. reflexivity.
Qed.

Lemma bind_emit {B} (e : elem) (k : unit -> Script B) (w : world) :
  bind (emit e) k w = k tt (with_screen (screen w ++ [e]) w).
Proof. reflexivity. Qed.

Lemma bind_ret {A B} (a : A) (k : A -> Script B) (w : world) :
  bind (ret a) k w = k a w.
Proof. reflexivity. Qed.

Lemma bind_raise {A B} (e : exn) (k : A -> Script B) (w : world) :
  bind (raise e) k w = Raise e w.
Proof. reflexivity. Qed.

Lemma bind_return {A B} (c : Script A) (k : A -> Script B) (w w' : world)
    (a : A) :
  c w = Return a w' -> bind c k w = k a w'.
Proof. intros E. unfold bind. now rewrite E. Qed.

Lemma st_selectbox_run (label : pystr) (options : list pystr) (w : world) :
  st_selectbox_ label options w
  = Return (pick options 0 (choice_of (input w) label))
           (with_screen (screen w ++ [st_selectbox label options]) w).
Proof. reflexivity. Qed.

(** One statement of a script, run on an explicit world. *)
Ltac report_step :=
  first [ rewrite bind_emit | rewrite bind_ret | rewrite bind_raise ];
  cbv beta; script_world.

(** Every run of the report stops with an exception: at a chart without
    data, at [st.tag] for the first tag, or, without tags, at
    [random.choice].  What it renders before and the exception depend on
    the record only; of the world it touches the page and, when it gets
    to the insights, the random generator. *)
Lemma render_report_run (selected_student : pystr)
    (student_data : individual_record) (w : world) :
  render_report selected_student student_data w
  = Raise (report_outcome student_data)
      (with_screen (screen w ++ report_page selected_student student_data)
                   (if reaches_insights student_data then drawn w else w)).
Proof.
  destruct w as [s r ca i p].
  unfold render_report, reaches_insights, report_outcome, report_page,
    px_bar_, px_pie_, px_line_.
  rewrite length_map. cbn [length]. script_world.
  destruct (objectives_progress student_data) as [|item rest] eqn:Eo.
  { repeat report_step. reflexivity. }
  destruct (Nat.eqb (length (ai_breakdown student_data)) 3).
  2:{ repeat report_step. rewrite <- !(app_assoc (A:=elem)). reflexivity. }
  destruct (writing_timeline student_data) as [|point points] eqn:Et;
    cbn [List.map].
  { repeat report_step. rewrite <- !(app_assoc (A:=elem)). reflexivity. }
  destruct (exploration_tags student_data) as [|tag tags] eqn:Eg;
    cbn [for_each].
  - repeat report_step. unfold bind at 1.
    rewrite insights_without_tags; [|rewrite Eo; discriminate | exact Eg].
    unfold drawn. script_world. rewrite <- !(app_assoc (A:=elem)). reflexivity.
  - repeat report_step. unfold st_tag_. repeat report_step.
    rewrite <- !(app_assoc (A:=elem)). reflexivity.
Qed.


(** The example record, rendered under two states of the generator and
    twice in a row: the same page and the same exception every time. *)
Lemma example_report_runs :
  let w1 := world_of initial_session counting_source no_action in
  let w2 := world_of initial_session shifted_source no_action in
  let r1 := render_report (py "Jayla Williams") example_student w1 in
  let r2 := render_report (py "Jayla Williams") example_student w2 in
  let again :=
    render_report (py "Jayla Williams") example_student
                  (with_screen [] (final r1)) in
  raised r1 = Some (AttributeError "tag")
  /\ raised r2 = raised r1 /\ raised again = raised r1
  /\ screen (final r2) = screen (final r1)
  /\ screen (final again) = screen (final r1)
  /\ length (screen (final r1)) = 7%nat.
Proof. cbv zeta. rewrite !render_report_run. repeat split. Qed.
(* ===================================================================== *)
(** ** The assignment setup tab: more                                     *)
(* ===================================================================== *)

Lemma getitem_split_head (sep s : pystr) (w : world) :
  getitem (split sep s) 0 w = Return (hd [] (split sep s)) w.
Proof.
  unfold split. destruct (split_from_cons sep s O []) as [piece [rest E]].
  rewrite E. reflexivity.
Qed.

(** The session and the outcome of every run of the setup tab. *)
Lemma setup_run (w : world) :
  session (final (show_assignment_setup w))
  = setup_transition (input w) (session w)
  /\ raised (show_assignment_setup w) = setup_outcome (input w) (session w).
Proof.
  destruct w as [[ac ad c m] r ca [cl tx ch se] p].
  unfold setup_transition, setup_outcome.
  cbn [clicked session input assignment_created assignment_data
       student_dialogue_step student_responses].
  destruct (decide (cl = Some submit_label)) as [->|Hno].
  - rewrite bool_decide_eq_true_2 by reflexivity.
    unfold show_assignment_setup. repeat progress run_step.
    match goal with
    | |- context [getitem (split ?sep ?s) 0 ?w] =>
        rewrite (getitem_split_head sep s w)
    end.
    repeat progress run_step. split; reflexivity.
  - rewrite (bool_decide_eq_false_2 _ Hno).
    unfold show_assignment_setup. repeat progress run_step.
    destruct ac; [destruct ad|]; repeat progress run_step; split; reflexivity.
Qed.

(** The dialogue tab never touches the assignment. *)
Lemma transition_keeps_assignment (i : ui_input) (s : session_state) :
  assignment_created (dialogue_transition i s) = assignment_created s
  /\ assignment_data (dialogue_transition i s) = assignment_data s.
Proof. unfold dialogue_transition. repeat case_match; now split. Qed.

(** An invariant of both transitions holds in every reachable session. *)
Lemma reachable_by_transitions (P : session_state -> Prop) :
  P initial_session ->
  (forall i s, P s -> P (setup_transition i s)) ->
  (forall i s, P s -> P (dialogue_transition i s)) ->
  forall s, reachable s -> P s.
Proof.
  intros Hinit Hsetup Hdialogue s H.
  induction H as [|w _ IH|w _ IH|w _ IH].
  - exact Hinit.
  - rewrite (proj1 (setup_run w)). now apply Hsetup.
  - rewrite experience_session. now apply Hdialogue.
  - now rewrite (report_keeps_session w).
Qed.

Lemma reachable_preview_ready (s : session_state) :
  reachable s -> preview_ready s.
Proof.
  apply reachable_by_transitions.
  - intros H. discriminate H.
  - intros i s' H. unfold setup_transition. case_bool_decide; [|exact H].
    intros _. discriminate.
  - intros i s' H. unfold preview_ready.
    destruct (transition_keeps_assignment i s') as [-> ->]. exact H.
Qed.

(** In every reachable session the setup tab returns: the preview finds
    its record.  A session that says "created" and holds no record, which
    no run produces, makes the preview raise [KeyError: 'title']. *)
Theorem setup_returns_when_reachable (w : world) :
  reachable (session w) ->
  raised (show_assignment_setup w) = None
  /\ preview_ready (session (final (show_assignment_setup w)))
  /\ raised (show_assignment_setup
               (world_of session_without_record (rand w) no_action))
     = Some (KeyError "title").
Proof.
  intros H. split; [|split].
  - rewrite (proj2 (setup_run w)). unfold setup_outcome.
    pose proof (reachable_preview_ready _ H) as Hp. unfold preview_ready in Hp.
    case_bool_decide; [reflexivity|].
    destruct (assignment_created (session w)); [|reflexivity].
    destruct (assignment_data (session w)); [reflexivity|].
    now destruct Hp.
  - apply reachable_preview_ready. now apply reachable_setup.
  - rewrite (proj2 (setup_run _)). reflexivity.
Qed.

Lemma setup_returns_when_reachable_witness :
  let w := world_of initial_session counting_source example_submission in
  raised (show_assignment_setup w) = None
  /\ preview_ready (session (final (show_assignment_setup w)))
  /\ raised (show_assignment_setup
               (world_of session_without_record (rand w) no_action))
     = Some (KeyError "title").
Proof.
  apply (setup_returns_when_reachable
           (world_of initial_session counting_source example_submission)).
  apply reachable_initial.
Defined.

(** A submission replaces the stored assignment by a record that depends
    on the submitted input only (nothing of an earlier assignment is kept
    or appended to), and says that an assignment was created; a run
    without a click on the submit button leaves the whole session as it
    was.  The dialogue state is never touched. *)
Theorem submission_replaces_assignment (w : world) :
  (clicked (input w) = Some submit_label ->
     assignment_data (session (final (show_assignment_setup w)))
     = Some (submitted_record (input w))
     /\ assignment_created (session (final (show_assignment_setup w))) = true
     /\ forall w', input w' = input w ->
          assignment_data (session (final (show_assignment_setup w')))
          = assignment_data (session (final (show_assignment_setup w))))
  /\ (clicked (input w) <> Some submit_label ->
        session (final (show_assignment_setup w)) = session w)
  /\ dialogue_state (session (final (show_assignment_setup w)))
     = dialogue_state (session w).
Proof.
  split; [|split].
  - intros H. rewrite (proj1 (setup_run w)). unfold setup_transition.
    rewrite bool_decide_eq_true_2 by exact H. split; [reflexivity|].
    split; [reflexivity|]. intros w' E.
    rewrite (proj1 (setup_run w')). unfold setup_transition. rewrite E.
    now rewrite bool_decide_eq_true_2 by exact H.
  - intros H. rewrite (proj1 (setup_run w)). unfold setup_transition.
    now rewrite bool_decide_eq_false_2 by exact H.
  - apply setup_keeps_dialogue.
Qed.

(** The stored guidance level is the label before " - " of the option that
    the radio returns: "Minimal" and "Exploratory" for the first and the
    third option, "Moderate" for the second one, which is also what the
    radio returns when the browser sent nothing else. *)
Theorem guidance_level_is_a_label (w : world) :
  clicked (input w) = Some submit_label ->
  exists d,
    assignment_data (session (final (show_assignment_setup w))) = Some d
    /\ In (guidance_level d) [py "Minimal"; py "Moderate"; py "Exploratory"]
    /\ (choice_of (input w) (py "Default AI Guidance Level:")
        = py "Minimal - Hints and clarifying questions only" ->
        guidance_level d = py "Minimal")
    /\ (choice_of (input w) (py "Default AI Guidance Level:")
        = py "Exploratory - Deep questioning and tangent support" ->
        guidance_level d = py "Exploratory")
    /\ (choice_of (input w) (py "Default AI Guidance Level:")
        <> py "Minimal - Hints and clarifying questions only" ->
        choice_of (input w) (py "Default AI Guidance Level:")
        <> py "Exploratory - Deep questioning and tangent support" ->
        guidance_level d = py "Moderate").
Proof.
  intros H. exists (submitted_record (input w)).
  split.
  { rewrite (proj1 (setup_run w)). unfold setup_transition.
    now rewrite bool_decide_eq_true_2 by exact H. }
  cbn [guidance_level submitted_record]. unfold guidance_choice_of.
  set (choice := choice_of (input w) (py "Default AI Guidance Level:")).
  assert (Hin : In (pick guidance_options 1 choice) guidance_options)
    by (apply pick_in; cbn; lia).
  split; [|split; [|split]].
  - destruct Hin as [<-|[<-|[<-|[]]]]; vm_compute; auto.
  - intros ->. vm_compute. reflexivity.
  - intros ->. vm_compute. reflexivity.
  - intros H1 H2. destruct Hin as [E|[E|[E|[]]]]; rewrite <- E.
    + exfalso. unfold pick in E. case_bool_decide as Hc.
      * apply H1. now rewrite <- E.
      * vm_compute in E. discriminate E.
    + vm_compute. reflexivity.
    + exfalso. unfold pick in E. case_bool_decide as Hc.
      * apply H2. now rewrite <- E.
      * vm_compute in E. discriminate E.
Qed.

Lemma guidance_level_is_a_label_witness :
  let w := world_of initial_session counting_source example_submission in
  exists d,
    assignment_data (session (final (show_assignment_setup w))) = Some d
    /\ In (guidance_level d) [py "Minimal"; py "Moderate"; py "Exploratory"]
    /\ (choice_of (input w) (py "Default AI Guidance Level:")
        = py "Minimal - Hints and clarifying questions only" ->
        guidance_level d = py "Minimal")
    /\ (choice_of (input w) (py "Default AI Guidance Level:")
        = py "Exploratory - Deep questioning and tangent support" ->
        guidance_level d = py "Exploratory")
    /\ (choice_of (input w) (py "Default AI Guidance Level:")
        <> py "Minimal - Hints and clarifying questions only" ->
        choice_of (input w) (py "Default AI Guidance Level:")
        <> py "Exploratory - Deep questioning and tangent support" ->
        guidance_level d = py "Moderate").
Proof.
  apply (guidance_level_is_a_label
           (world_of initial_session counting_source example_submission)).
  reflexivity.
Defined.

(** The resource lines that a submission stores, joined by line feeds,
    are the text that was typed: the split loses nothing, and no stored
    line holds a line feed. *)
Theorem resource_lines_keep_the_text (text : pystr) :
  join [LF] (resource_list text) = text
  /\ (forall line, In line (resource_list text) -> ~ In LF line)
  /\ (text <> [] -> resource_list text <> []).
Proof.
  unfold resource_list. destruct text as [|c text]; cbn [truthy].
  - split; [reflexivity|]. split; [intros line [] | congruence].
  - split; [apply join_split|]. split.
    + intros line H. unfold split in H.
      eapply (split_from_without LF _ [] line); [intros [] | exact H].
    + intros _. unfold split.
      destruct (split_from_cons [LF] (c :: text) O []) as [p [r ->]].
      discriminate.
Qed.

(** Every objective that a submission stores is a selected preset
    objective, or it is a line of the custom text, one that is not blank,
    trimmed of the white space at its ends: it is not empty, is unchanged
    by another strip, and holds no line feed. *)
Theorem stored_objectives_are_trimmed (w : world) (o : pystr) :
  clicked (input w) = Some submit_label ->
  (exists d,
     assignment_data (session (final (show_assignment_setup w))) = Some d
     /\ In o (objectives d)) ->
  In o (preset_objectives_of (input w))
  \/ (exists lines line,
        lines_of (custom_objectives_of (input w)) lines
        /\ In line lines
        /\ ~ blank line
        /\ trimmed_of line o
        /\ o <> [] /\ strip o = o /\ ~ In LF o).
Proof.
  intros H [d [Hd Ho]].
  rewrite (proj1 (setup_run w)) in Hd. unfold setup_transition in Hd.
  rewrite bool_decide_eq_true_2 in Hd by exact H.
  injection Hd as <-. cbn [objectives submitted_record] in Ho.
  rewrite all_objectives_eq in Ho. apply in_app_or in Ho as [Ho|Ho]; [now left|].
  right. unfold trimmed_nonblank_lines in Ho.
  apply filter_In in Ho as [Ho Hne]. apply in_map_iff in Ho as [line [<- Hl]].
  assert (Hs : strip line <> []).
  { intros E. rewrite E in Hne. discriminate Hne. }
  exists (split [LF] (custom_objectives_of (input w))), line.
  split; [apply split_lines_of|]. split; [exact Hl|].
  split; [intros Hb; now apply strip_nil_blank in Hb|].
  split; [apply strip_trimmed_of|].
  split; [exact Hs|]. split; [apply strip_idem|].
  intros Hin. apply strip_incl in Hin. unfold split in Hl.
  eapply (split_from_without LF _ [] line); [intros [] | exact Hl | exact Hin].
Qed.

Lemma stored_objectives_are_trimmed_witness :
  let w := world_of initial_session counting_source spaced_submission in
  In (py "A") (preset_objectives_of (input w))
  \/ (exists lines line,
        lines_of (custom_objectives_of (input w)) lines
        /\ In line lines
        /\ ~ blank line
        /\ trimmed_of line (py "A")
        /\ py "A" <> [] /\ strip (py "A") = py "A" /\ ~ In LF (py "A")).
Proof.
  apply (stored_objectives_are_trimmed
           (world_of initial_session counting_source spaced_submission)
           (py "A")).
  - reflexivity.
  - eexists. split; [vm_compute; reflexivity|]. vm_compute. auto.
Defined.

(** A run of the setup tab renders the header, the introduction and the
    form, then writes the preview of the assignment that the session
    holds at the end of the run, and nothing else: a submission is
    previewed in the run that stores it, and a session without an
    assignment gets no preview. *)
Theorem preview_shows_the_stored_assignment (w : world) :
  exists form,
    screen (final (show_assignment_setup w))
    = screen w
      ++ [ st_header ([127919%N] ++ py " Create AI-Enhanced Assignment");
           st_markdown
             (py "*Design learning experiences where AI amplifies your teaching*");
           st_form (py "assignment_form") form ]
      ++ preview_of (session (final (show_assignment_setup w))).
Proof.
  destruct w as [[ac ad c m] r ca [cl tx ch se] p].
  cbn [screen].
  destruct (decide (cl = Some submit_label)) as [->|Hno].
  - unfold show_assignment_setup. repeat progress run_step.
    match goal with
    | |- context [getitem (split ?sep ?s) 0 ?w] =>
        rewrite (getitem_split_head sep s w)
    end.
    repeat progress run_step. unfold preview_of.
    cbn [assignment_created assignment_data].
    eexists. rewrite <- !(app_assoc (A:=elem)). reflexivity.
  - unfold show_assignment_setup. repeat progress run_step.
    destruct ac; [destruct ad|]; repeat progress run_step; unfold preview_of;
      cbn [assignment_created assignment_data];
      eexists; rewrite <- ?(app_assoc (A:=elem)); reflexivity.
Qed.
(* ===================================================================== *)
(** ** The student experience tab: more                                   *)
(* ===================================================================== *)

(** How every run of the tab ends. *)
Lemma experience_raised (w : world) :
  raised (show_student_experience w)
  = experience_outcome (input w) (session w).
Proof.
  destruct w as [[ac ad c m] r ca [cl tx ch se] p].
  unfold experience_outcome. cbn [clicked student_dialogue_step session input].
  destruct (decide (cl = Some reset_label)) as [->|Hreset].
  { vm_compute. reflexivity. }
  rewrite (bool_decide_eq_false_2 _ Hreset).
  unfold show_student_experience.
  destruct (stage_index_cases c) as [[Hc E]|[[Hc E]|Hc]].
  - rewrite E. run_script.
    destruct (Z.ltb_spec c 5); [|lia]. run_script.
    destruct (Z.ltb_spec c 0); [|lia].
    destruct (Z.leb_spec 0 (c + 5)); [lia|]. reflexivity.
  - rewrite E. run_script.
    destruct (Z.ltb_spec c 5); [lia|].
    destruct (Z.ltb_spec c 0); [lia|]. reflexivity.
  - repeat destruct Hc as [-> | Hc]; try subst c;
      match goal with
      | |- context [bool_decide (cl = Some (next_key ?k))] =>
          destruct (decide (cl = Some (next_key k))) as [Hn|Hn];
          [ rewrite (bool_decide_eq_true_2 _ Hn); subst cl; vm_compute; reflexivity
          | rewrite (bool_decide_eq_false_2 _ Hn); run_script; reflexivity ]
      end.
Qed.

Lemma stage_index_nonneg (c : Z) :
  0 <= c -> stage_index c = if c <? 5 then Some c else None.
Proof.
  intros H. unfold stage_index.
  destruct (Z.ltb_spec c (-5)); [lia|].
  destruct (Z.ltb_spec c 0); [lia|]. reflexivity.
Qed.

(** A run of the tab asks for a rerun exactly when it moved the cursor one
    stage on, for every session whose cursor is not negative (every
    reachable one). *)
Theorem rerun_exactly_when_advanced (w : world) :
  0 <= student_dialogue_step (session w) ->
  raised (show_student_experience w) = Some RerunException
  <-> student_dialogue_step (session (final (show_student_experience w)))
      = student_dialogue_step (session w) + 1.
Proof.
  intros Hc. rewrite experience_raised, experience_session.
  unfold experience_outcome, dialogue_transition.
  case_bool_decide as Hr.
  { cbn [reset_conversation student_dialogue_step]. split; [discriminate | lia]. }
  cbv zeta. rewrite (stage_index_nonneg _ Hc).
  destruct (Z.ltb_spec (student_dialogue_step (session w)) 5) as [Hlt|Hge].
  - assert (Hk : student_dialogue_step (session w) = 0
                 \/ student_dialogue_step (session w) = 1
                 \/ student_dialogue_step (session w) = 2
                 \/ student_dialogue_step (session w) = 3
                 \/ student_dialogue_step (session w) = 4) by lia.
    destruct Hk as [Hk|[Hk|[Hk|[Hk|Hk]]]]; rewrite !Hk;
      try case_bool_decide;
      cbn [answered acknowledged student_dialogue_step];
      split; try discriminate; try reflexivity; lia.
  - destruct (Z.ltb_spec (student_dialogue_step (session w)) 0); [lia|].
    case_bool_decide; split; try discriminate; lia.
Qed.

Lemma rerun_exactly_when_advanced_witness :
  let w := world_of (session_at 1) counting_source (click_on (next_key 1)) in
  raised (show_student_experience w) = Some RerunException
  <-> student_dialogue_step (session (final (show_student_experience w)))
      = student_dialogue_step (session w) + 1.
Proof.
  apply (rerun_exactly_when_advanced
           (world_of (session_at 1) counting_source (click_on (next_key 1)))).
  vm_compute. discriminate.
Defined.

(** A cursor below -5 is no index of the list of stages, not even a
    negative one: the run raises IndexError and leaves the session as it
    was, until a click on the reset button puts the cursor back to 0. *)
Theorem cursor_below_the_catalog (w : world) :
  student_dialogue_step (session w) < -5 ->
  (clicked (input w) <> Some reset_label ->
     raised (show_student_experience w) = Some IndexError
     /\ session (final (show_student_experience w)) = session w)
  /\ (clicked (input w) = Some reset_label ->
        raised (show_student_experience w) = None
        /\ student_dialogue_step (session (final (show_student_experience w)))
           = 0).
Proof.
  intros Hc. rewrite experience_raised, experience_session.
  unfold experience_outcome, dialogue_transition.
  assert (E : stage_index (student_dialogue_step (session w)) = None).
  { unfold stage_index. destruct (Z.ltb_spec (student_dialogue_step (session w)) (-5));
      [reflexivity | lia]. }
  split; intros Hr.
  - rewrite (bool_decide_eq_false_2 _ Hr). cbv zeta. rewrite E.
    destruct (Z.ltb_spec (student_dialogue_step (session w)) 0); [|lia].
    split; [reflexivity|]. now destruct (bool_decide _).
  - rewrite (bool_decide_eq_true_2 _ Hr). now split.
Qed.

Lemma cursor_below_the_catalog_witness :
  let w := world_of (session_at (-6)) counting_source no_action in
  (clicked (input w) <> Some reset_label ->
     raised (show_student_experience w) = Some IndexError
     /\ session (final (show_student_experience w)) = session w)
  /\ (clicked (input w) = Some reset_label ->
        raised (show_student_experience w) = None
        /\ student_dialogue_step (session (final (show_student_experience w)))
           = 0).
Proof.
  apply (cursor_below_the_catalog
           (world_of (session_at (-6)) counting_source no_action)).
  vm_compute. reflexivity.
Defined.

Lemma transition_responses_offered (i : ui_input) (s : session_state) :
  before_the_check s /\ responses_offered s ->
  before_the_check (dialogue_transition i s)
  /\ responses_offered (dialogue_transition i s).
Proof.
  intros [Hb Ho]. split; [now apply transition_before_the_check|].
  destruct Hb as [Hc _]. unfold dialogue_transition.
  case_bool_decide.
  { intros k v H'. cbn in H'. now rewrite lookup_empty in H'. }
  cbv zeta. case_bool_decide; [|exact Ho].
  rewrite stage_index_nonneg by lia.
  assert (Hk : student_dialogue_step s = 0 \/ student_dialogue_step s = 1
               \/ student_dialogue_step s = 2) by lia.
  destruct Hk as [Hk|[Hk|Hk]]; rewrite !Hk; cbn [Z.ltb Z.compare].
  - intros k v Hl. cbn [answered student_responses] in Hl. rewrite Hk in Hl.
    destruct (decide (k = 0)) as [->|Hne].
    + rewrite lookup_insert_eq in Hl. injection Hl as <-. split; [reflexivity|].
      apply pick_in. cbn. lia.
    + rewrite lookup_insert_ne in Hl by congruence. now apply Ho.
  - exact Ho.
  - exact Ho.
Qed.

Lemma setup_transition_dialogue (i : ui_input) (s : session_state) :
  dialogue_state (setup_transition i s) = dialogue_state s.
Proof. unfold setup_transition. now case_bool_decide. Qed.

(** In every reachable session, every recorded response is one of the
    three options that the first stage offers, whatever the browser sent
    as the choice. *)
Theorem recorded_responses_are_offered (s : session_state) (k : Z) (v : pystr) :
  reachable s ->
  student_responses s !! k = Some v ->
  k = 0 /\ In v intro_options.
Proof.
  intros H. revert k v.
  change (responses_offered s).
  enough (Hs : before_the_check s /\ responses_offered s) by apply Hs.
  revert s H. apply reachable_by_transitions.
  - split; [apply (reset_before_the_check initial_session)|].
    intros k v Hl. cbn in Hl. now rewrite lookup_empty in Hl.
  - intros i s [Hb Ho].
    pose proof (setup_transition_dialogue i s) as E.
    unfold dialogue_state in E. injection E as E1 E2.
    unfold before_the_check, responses_offered. rewrite E1, E2. now split.
  - apply transition_responses_offered.
Qed.

Lemma recorded_responses_are_offered_witness :
  student_responses
    (session (act (click_on (next_key 0))
                  (world_of initial_session counting_source no_action))) !! 0
  = Some (py "The photographs of bread lines")
  /\ 0 = 0 /\ In (py "The photographs of bread lines") intro_options.
Proof.
  split; [vm_compute; reflexivity|].
  apply (recorded_responses_are_offered
           (session (act (click_on (next_key 0))
                         (world_of initial_session counting_source no_action)))).
  - apply reachable_experience, reachable_initial.
  - vm_compute. reflexivity.
Defined.
(* ===================================================================== *)
(** ** The data generators: shape of the records, and the cache           *)
(* ===================================================================== *)

Lemma returns_and {A} (c : Script A) (P Q : A -> Prop) :
  returns c P -> returns c Q -> returns c (fun a => P a /\ Q a).
Proof.
  intros HP HQ w. destruct (HP w) as [a [w1 [E Ha]]].
  destruct (HQ w) as [b [w2 [E' Hb]]]. rewrite E in E'. injection E' as <- <-.
  now exists a, w1.
Qed.

Lemma returns_getitem_lookup {A} (l : list A) (i : Z) :
  0 <= i < Z.of_nat (length l) ->
  returns (getitem l i) (fun x => l !! Z.to_nat i = Some x).
Proof.
  intros Hi w. destruct (getitem_run l i w Hi) as [x [E [Hl _]]].
  now exists x, w.
Qed.

(** A comprehension returns one value per element, in order. *)
Lemma returns_comprehension_pointwise {A B} (l : list A) (g : A -> Script B)
    (R : A -> B -> Prop) :
  (forall x, returns (g x) (R x)) ->
  returns (comprehension l g) (fun ys => Forall2 R l ys).
Proof.
  intros Hg. induction l as [|x l IH]; cbn [comprehension].
  - apply returns_ret. constructor.
  - eapply returns_bind; [apply Hg|]. intros y Hy.
    eapply returns_bind; [apply IH|]. intros ys Hys.
    apply returns_ret. now constructor.
Qed.

Lemma Forall2_map_eq {A B C} (f : B -> C) (g : A -> C) (l : list A)
    (ys : list B) :
  Forall2 (fun x y => f y = g x) l ys -> List.map f ys = List.map g l.
Proof. induction 1; cbn [List.map]; congruence. Qed.

Lemma Forall2_Forall_r {A B} (R : A -> B -> Prop) (P : B -> Prop)
    (l : list A) (ys : list B) :
  (forall x y, R x y -> P y) -> Forall2 R l ys -> Forall P ys.
Proof. intros H. induction 1; constructor; eauto. Qed.

(** One round of the selection loop: the element taken leaves the live
    part of the pool, which stays free of duplicates. *)
Lemma pool_after_a_round {A} (pool : list A) (n j : nat) (x y : A) :
  (j <= n)%nat ->
  NoDup (take (S n) pool) ->
  pool !! j = Some x ->
  pool !! n = Some y ->
  NoDup (take n (<[j := y]> pool))
  /\ (x ∉ take n (<[j := y]> pool))
  /\ (forall z, z ∈ take n (<[j := y]> pool) -> z ∈ take (S n) pool)
  /\ x ∈ take (S n) pool.
Proof.
  intros Hj Hnd Hx Hy. rewrite (take_S_r _ _ _ Hy) in *.
  apply NoDup_app in Hnd as [Hnd [Hy' _]].
  destruct (decide (j = n)) as [->|Hne].
  - rewrite take_insert_ge by lia.
    assert (x = y) by congruence. subst y.
    split; [exact Hnd|]. split.
    + intros Hin. apply (Hy' _ Hin). now left.
    + split; [|apply elem_of_app; right; now left].
      intros z Hz. apply elem_of_app. now left.
  - assert (Hlt : (j < n)%nat) by lia.
    rewrite take_insert_lt by exact Hlt.
    assert (Ht : (take n pool) !! j = Some x) by now rewrite lookup_take_lt.
    assert (Hlen : (j < length (take n pool))%nat)
      by (apply lookup_lt_is_Some; eauto).
    rewrite insert_take_drop by exact Hlen.
    pose proof (take_drop_middle _ _ _ Ht) as Hmid.
    revert Hnd Hy' Hmid.
    generalize (take j (take n pool)) (drop (S j) (take n pool)).
    intros t1 t2 Hnd Hy' Hmid. rewrite <- Hmid in *. clear Hmid.
    apply NoDup_app in Hnd as [H1 [H12 H2]].
    apply NoDup_cons in H2 as [Hx2 H2].
    assert (Hy1 : y ∉ t1).
    { intros Hin. apply (Hy' y); [apply elem_of_app; now left | now left]. }
    assert (Hy2 : y ∉ t2).
    { intros Hin. apply (Hy' y); [|now left].
      apply elem_of_app; right; now right. }
    assert (Hxy : x <> y).
    { intros ->. apply (Hy' y); [|now left].
      apply elem_of_app; right; now left. }
    assert (Hx1 : x ∉ t1).
    { intros Hin. apply (H12 _ Hin). now left. }
    split; [|split; [|split]].
    + apply NoDup_app. split; [exact H1|]. split.
      * intros z Hz Hz'. apply elem_of_cons in Hz' as [->|Hz']; [now apply Hy1|].
        apply (H12 _ Hz). now right.
      * apply NoDup_cons. now split.
    + intros Hin. apply elem_of_app in Hin as [Hin|Hin]; [now apply Hx1|].
      apply elem_of_cons in Hin as [Hin|Hin]; [now apply Hxy | now apply Hx2].
    + intros z Hz. apply elem_of_app in Hz as [Hz|Hz].
      * apply elem_of_app; left. apply elem_of_app. now left.
      * apply elem_of_cons in Hz as [->|Hz].
        -- apply elem_of_app; right. now left.
        -- apply elem_of_app; left. apply elem_of_app; right. now right.
    + apply elem_of_app; left. apply elem_of_app; right. now left.
Qed.

(** The selection loop picks distinct elements of the live part of a pool
    that has no duplicates. *)
Lemma sample_loop_distinct {A} (k : nat) :
  forall (m : nat) (pool : list A),
    (k <= m <= length pool)%nat ->
    NoDup (take m pool) ->
    returns (sample_loop k m pool)
            (fun l => NoDup l /\ forall x, x ∈ l -> x ∈ take m pool).
Proof.
  induction k as [|k IH]; intros m pool Hm Hnd; cbn [sample_loop].
  - apply returns_ret. split; [constructor|]. intros x Hx. inversion Hx.
  - destruct m as [|n]; [lia|].
    eapply returns_bind; [apply (returns_randbelow (N.of_nat (S n))); lia|].
    intros j Hj. cbv beta in Hj.
    eapply returns_bind; [apply returns_getitem_lookup; lia|]. intros x Hx.
    cbv beta in Hx.
    replace (Z.to_nat (Z.of_N j)) with (N.to_nat j) in Hx by lia.
    eapply returns_bind; [apply returns_getitem_lookup; lia|]. intros y Hy.
    cbv beta in Hy.
    replace (Z.to_nat (Z.of_nat (S n) - 1)) with n in Hy by lia.
    destruct (pool_after_a_round pool n (N.to_nat j) x y)
      as [Hnd' [Hx' [Hsub Hin]]]; [lia | exact Hnd | exact Hx | exact Hy |].
    eapply returns_bind.
    + apply (IH n (<[N.to_nat j := y]> pool)); [|exact Hnd'].
      rewrite length_insert. lia.
    + intros rest [Hrest Hsub']. apply returns_ret. split.
      * apply NoDup_cons. split; [|exact Hrest].
        intros Hc. apply Hx'. now apply Hsub'.
      * intros z Hz. apply elem_of_cons in Hz as [->|Hz]; [exact Hin|].
        now apply Hsub, Hsub'.
Qed.

(** [random.sample] returns [k] distinct elements of a population that has
    no duplicates. *)
Lemma random_sample_distinct {A} (population : list A) (k : Z) :
  0 <= k <= Z.of_nat (length population) ->
  NoDup population ->
  returns (random_sample population k)
          (fun l => length l = Z.to_nat k /\ NoDup l
                    /\ forall x, In x l -> In x population).
Proof.
  intros Hk Hnd.
  apply returns_and; [now apply returns_random_sample|].
  unfold random_sample.
  destruct (Z.leb_spec 0 k); [|lia].
  destruct (Z.leb_spec k (Z.of_nat (length population))); [|lia]. cbn [andb].
  eapply returns_weaken.
  - apply sample_loop_distinct; [lia|]. rewrite firstn_all. exact Hnd.
  - intros l [H1 H2]. split; [exact H1|]. intros x Hx.
    apply list_elem_of_In in Hx. apply H2 in Hx. rewrite firstn_all in Hx.
    now apply list_elem_of_In.
Qed.

Lemma curiosity_catalog_NoDup : NoDup curiosity_catalog.
Proof. apply (bool_decide_unpack _). vm_compute. exact I. Qed.

Lemma exploration_catalog_NoDup : NoDup exploration_catalog.
Proof. apply (bool_decide_unpack _). vm_compute. exact I. Qed.

Lemma objectives_NoDup : NoDup objectives_.
Proof. apply (bool_decide_unpack _). vm_compute. exact I. Qed.

(** A dict comprehension over the objectives has the objectives as its
    keys, in order. *)
Lemma returns_objective_dict (a b : Q) :
  (a <= b)%Q ->
  returns (comprehension objectives_
             (fun obj => let! m := random_uniform a b in ret (obj, m)))
          (fun d => List.map fst d = objectives_).
Proof.
  intros Hab. eapply returns_weaken.
  - apply (returns_comprehension_pointwise _ _ (fun obj item => fst item = obj)).
    intros obj. eapply returns_bind; [now apply returns_random_uniform|].
    intros m _. now apply returns_ret.
  - intros d H. apply (Forall2_map_eq fst (fun obj => obj)) in H.
    now rewrite List.map_id in H.
Qed.

Lemma generate_student_well_formed (student : pystr) :
  returns (generate_student student)
          (fun r => student_name r = student /\ student_well_formed r).
Proof.
  unfold generate_student.
  eapply returns_bind; [apply (returns_objective_dict (6 # 10) 1); discriminate|].
  intros mastered Hmastered.
  eapply returns_bind.
  { apply (returns_comprehension _ _ (fun _ => True)). intros _.
    eapply returns_weaken; [apply (returns_random_uniform 6 10); discriminate|].
    now intros. }
  intros scores _.
  eapply returns_bind; [apply (returns_random_randint 1 4); lia|].
  intros n_paths Hn. cbv beta in Hn.
  eapply returns_bind.
  { apply random_sample_distinct; [cbn; lia | apply curiosity_catalog_NoDup]. }
  intros paths [Hpl [Hpn Hps]].
  eapply returns_bind;
    [apply (returns_random_uniform (2 # 10) (8 # 10)); discriminate|].
  intros support _.
  eapply returns_bind; [apply (returns_random_randint 45 120); lia|].
  intros minutes Hminutes.
  eapply returns_bind; [apply (returns_random_randint 3 15); lia|].
  intros questions Hquestions.
  eapply returns_bind; [apply (returns_random_randint 2 8); lia|].
  intros revisions Hrevisions.
  eapply returns_bind; [apply (returns_random_randint 0 2); lia|].
  intros n_conf Hc. cbv beta in Hc.
  eapply returns_bind.
  { apply random_sample_distinct; [cbn; lia | apply objectives_NoDup]. }
  intros confusions [Hcl [Hcn Hcs]].
  apply returns_ret. split; [reflexivity|].
  unfold student_well_formed.
  cbn [objectives_mastered curiosity_paths confusion_areas total_time_minutes
       questions_asked revisions_made].
  unfold pystr in *.
  repeat split; try assumption; try lia.
Qed.

Lemma class_body_well_formed :
  returns generate_class_data_body
    (fun r => snd r = objectives_
              /\ List.map student_name (fst r) = students
              /\ Forall student_well_formed (fst r)).
Proof.
  unfold generate_class_data_body. eapply returns_bind.
  - apply (returns_comprehension_pointwise _ _
             (fun student r => student_name r = student
                               /\ student_well_formed r)).
    apply generate_student_well_formed.
  - intros class_data H. cbv beta in H. apply returns_ret. cbn [fst snd].
    split; [reflexivity|]. split.
    + rewrite <- (List.map_id students).
      apply (Forall2_map_eq student_name (fun student => student)).
      eapply Forall2_impl; [exact H|]. now intros x y [].
    + eapply Forall2_Forall_r; [|exact H]. now intros x y [].
Qed.

Lemma individual_body_well_formed (student : pystr) :
  returns (generate_individual_student_data_body student)
          (individual_well_formed student).
Proof.
  unfold generate_individual_student_data_body.
  eapply returns_bind;
    [apply (returns_objective_dict (7 # 10) 1); discriminate|].
  intros progress Hprogress.
  eapply returns_bind.
  { apply (returns_comprehension_pointwise _ _
             (fun i p => week p = py "Week " ++ str_of_Z (i + 1))).
    intros i. eapply returns_bind;
      [apply (returns_random_uniform (65 # 10) (95 # 10)); discriminate|].
    intros s _. now apply returns_ret. }
  intros timeline Htimeline.
  apply (Forall2_map_eq week (fun i => py "Week " ++ str_of_Z (i + 1)))
    in Htimeline.
  eapply returns_bind; [apply (returns_random_randint 2 4); lia|].
  intros n_tags Hn. cbv beta in Hn.
  eapply returns_bind.
  { apply random_sample_distinct; [cbn; lia | apply exploration_catalog_NoDup]. }
  intros tags [Htl [Htn Hts]].
  eapply returns_bind;
    [apply (returns_random_uniform (4 # 10) (7 # 10)); discriminate|].
  intros original _.
  eapply returns_bind;
    [apply (returns_random_uniform (2 # 10) (4 # 10)); discriminate|].
  intros scaffolding _.
  eapply returns_bind;
    [apply (returns_random_uniform (1 # 10) (3 # 10)); discriminate|].
  intros collaborative _.
  apply returns_ret. unfold individual_well_formed.
  cbn [name objectives_progress writing_timeline exploration_tags ai_breakdown].
  unfold pystr in *.
  repeat split; try assumption; try lia.
Qed.

(** The roster that the class generator returns has the twelve students
    in order, each one with a mastery for each of the five objectives,
    one to four distinct curiosity paths of the catalog, at most two
    distinct confusion areas among the objectives, and minutes, questions
    and revisions within the ranges of lines 58-60. *)
Theorem generated_roster_is_well_formed (w : world) :
  exists class_data w',
    generate_class_data_body w = Return (class_data, objectives_) w'
    /\ List.map student_name class_data = students
    /\ Forall student_well_formed class_data.
Proof.
  destruct (class_body_well_formed w)
    as [[class_data objs] [w' [E [Ho [Hn Hw]]]]].
  cbn [fst snd] in *. subst objs. now exists class_data, w'.
Qed.

(** The record that the individual generator returns carries the name it
    was asked for, a progress for each of the five objectives, the weeks
    "Week 1" to "Week 6" in order, two to four distinct tags of the
    catalog, and the three parts of the AI breakdown. *)
Theorem generated_individual_is_well_formed (student : pystr) (w : world) :
  exists student_data w',
    generate_individual_student_data_body student w = Return student_data w'
    /\ individual_well_formed student student_data.
Proof.
  destruct (individual_body_well_formed student w) as [d [w' [E Hd]]].
  now exists d, w'.
Qed.
(* ===================================================================== *)
(** ** The cached generators                                              *)
(* ===================================================================== *)

Lemma draws_only_ret {A} (a : A) : draws_only (ret a).
Proof. intros w. exists (rand w). now destruct w. Qed.

Lemma draws_only_raise {A} (e : exn) : draws_only (@raise A e).
Proof. intros w. exists (rand w). now destruct w. Qed.

Lemma draws_only_bind {A B} (c : Script A) (k : A -> Script B) :
  draws_only c -> (forall a, draws_only (k a)) -> draws_only (bind c k).
Proof.
  intros Hc Hk w. unfold bind. destruct (Hc w) as [r E].
  destruct (c w) as [a w1|e w1]; cbn [final] in E; subst w1.
  - destruct (Hk a (with_rand r w)) as [r' E']. exists r'. now rewrite E'.
  - now exists r.
Qed.

Lemma draws_only_next_raw : draws_only next_raw.
Proof. intros w. eexists. reflexivity. Qed.

Lemma draws_only_getitem {A} (l : list A) (i : Z) : draws_only (getitem l i).
Proof.
  unfold getitem. destruct (_ && _); [|apply draws_only_raise].
  destruct (l !! _); [apply draws_only_ret | apply draws_only_raise].
Qed.

Lemma draws_only_randbelow (n : N) : draws_only (randbelow n).
Proof.
  apply draws_only_bind; [apply draws_only_next_raw|].
  intros k. apply draws_only_ret.
Qed.

Lemma draws_only_random_uniform (a b : Q) : draws_only (random_uniform a b).
Proof.
  apply draws_only_bind.
  - apply draws_only_bind; [apply draws_only_next_raw|].
    intros k. apply draws_only_ret.
  - intros u. apply draws_only_ret.
Qed.

Lemma draws_only_random_randint (a b : Z) : draws_only (random_randint a b).
Proof.
  unfold random_randint. destruct (0 <? _); [|apply draws_only_raise].
  apply draws_only_bind; [apply draws_only_randbelow|].
  intros k. apply draws_only_ret.
Qed.

Lemma draws_only_sample_loop {A} (k : nat) :
  forall (m : nat) (pool : list A), draws_only (sample_loop k m pool).
Proof.
  induction k as [|k IH]; intros m pool; cbn [sample_loop].
  - apply draws_only_ret.
  - apply draws_only_bind; [apply draws_only_randbelow|]. intros j.
    apply draws_only_bind; [apply draws_only_getitem|]. intros x.
    apply draws_only_bind; [apply draws_only_getitem|]. intros y.
    apply draws_only_bind; [apply IH|]. intros rest. apply draws_only_ret.
Qed.

Lemma draws_only_random_sample {A} (population : list A) (k : Z) :
  draws_only (random_sample population k).
Proof.
  unfold random_sample. destruct (_ && _);
    [apply draws_only_sample_loop | apply draws_only_raise].
Qed.

Lemma draws_only_comprehension {A B} (l : list A) (g : A -> Script B) :
  (forall x, draws_only (g x)) -> draws_only (comprehension l g).
Proof.
  intros Hg. induction l as [|x l IH]; cbn [comprehension].
  - apply draws_only_ret.
  - apply draws_only_bind; [apply Hg|]. intros y.
    apply draws_only_bind; [apply IH|]. intros ys. apply draws_only_ret.
Qed.

Ltac draws :=
  repeat first
    [ apply draws_only_ret
    | apply draws_only_random_uniform
    | apply draws_only_random_randint
    | apply draws_only_random_sample
    | apply draws_only_comprehension; intro
    | apply draws_only_bind; [|intro] ].

Lemma draws_only_generate_student (student : pystr) :
  draws_only (generate_student student).
Proof. unfold generate_student. draws. Qed.

Lemma draws_only_class_body : draws_only generate_class_data_body.
Proof.
  unfold generate_class_data_body.
  apply draws_only_bind; [|intro; apply draws_only_ret].
  apply draws_only_comprehension. apply draws_only_generate_student.
Qed.

Lemma draws_only_individual_body (student : pystr) :
  draws_only (generate_individual_student_data_body student).
Proof. unfold generate_individual_student_data_body. draws. Qed.

(** The body of the class generator returns a roster and only draws. *)
Lemma class_body_run (w : world) :
  exists v r, generate_class_data_body w = Return v (with_rand r w).
Proof.
  destruct (class_body_well_formed w) as [v [w' [E _]]].
  destruct (draws_only_class_body w) as [r Hr]. rewrite E in Hr.
  cbn [final] in Hr. subst w'. now exists v, r.
Qed.

(** A call of the cached class generator. *)
Lemma generate_class_data_run (w : world) :
  exists v w1,
    generate_class_data w = Return v w1
    /\ same_page_and_session w w1
    /\ cache_extends (cache w) (cache w1)
    /\ individual_cache (cache w1) = individual_cache (cache w)
    /\ forall w2, cache_extends (cache w1) (cache w2) ->
         generate_class_data w2 = Return v w2.
Proof.
  unfold generate_class_data at 1, bind at 1, get_cache at 1.
  destruct (class_cache (cache w)) as [v|] eqn:E.
  - exists v, w. split; [reflexivity|]. split; [now repeat split|].
    split; [now split|]. split; [reflexivity|]. intros w2 [H2 _].
    unfold generate_class_data, bind, get_cache. now rewrite (H2 v E).
  - destruct (class_body_run w) as [v [r Ev]].
    unfold bind. rewrite Ev.
    cbn [get_cache put_cache ret cache with_rand with_cache].
    eexists v, _. split; [reflexivity|]. split; [now repeat split|].
    unfold cache_extends.
    cbn [cache class_cache individual_cache with_cache with_rand]. split.
    + split; [intros v' Hv'; congruence | now intros k v' Hv'].
    + split; [reflexivity|].
      intros w2 [H2 _]. unfold generate_class_data, bind, get_cache.
      now rewrite (H2 v eq_refl).
Qed.

(** A call of the cached individual generator; from a cache of generated
    records it returns a generated record and leaves such a cache. *)
Lemma generate_individual_run (student : pystr) (w : world) :
  exists v w1,
    generate_individual_student_data student w = Return v w1
    /\ same_page_and_session w w1
    /\ cache_extends (cache w) (cache w1)
    /\ (cache_generated (cache w) ->
        individual_well_formed student v /\ cache_generated (cache w1))
    /\ forall w2, cache_extends (cache w1) (cache w2) ->
         generate_individual_student_data student w2 = Return v w2.
Proof.
  unfold generate_individual_student_data at 1, bind at 1, get_cache at 1.
  destruct (individual_cache (cache w) !! student) as [v|] eqn:E.
  - exists v, w. split; [reflexivity|]. split; [now repeat split|].
    split; [now split|]. split; [intros Hg; split; [now apply Hg | exact Hg]|].
    intros w2 [_ H2].
    unfold generate_individual_student_data, bind, get_cache.
    now rewrite (H2 _ _ E).
  - destruct (individual_body_well_formed student w) as [v [w' [Ev Hv]]].
    destruct (draws_only_individual_body student w) as [r Hr].
    rewrite Ev in Hr. cbn [final] in Hr. subst w'.
    unfold bind. rewrite Ev.
    cbn [get_cache put_cache ret cache with_rand with_cache].
    eexists v, _. split; [reflexivity|]. split; [now repeat split|].
    unfold cache_extends, cache_generated.
    cbn [cache class_cache individual_cache with_cache with_rand].
    split; [|split].
    + split; [now intros v' Hv'|]. intros k v' Hv'.
      rewrite lookup_insert_ne; [exact Hv' | congruence].
    + intros Hg. split; [exact Hv|]. intros k v' Hk.
      destruct (decide (student = k)) as [<-|Hne].
      * rewrite lookup_insert_eq in Hk. now injection Hk as <-.
      * rewrite lookup_insert_ne in Hk by exact Hne. now apply Hg.
    + intros w2 [_ H2].
      unfold generate_individual_student_data, bind, get_cache.
      now rewrite (H2 student v (lookup_insert_eq _ _ _)).
Qed.

(** The cached generators run their body once per cache.  A call returns
    normally and changes nothing but the cache and the random generator;
    it only adds to the cache; and every later call, for as long as
    nothing is cleared from the cache, returns the same data again,
    without drawing and without changing anything: the numbers on the
    dashboards stay the same from one run of the script to the next. *)
Theorem cached_generators_run_once (w : world) (student : pystr) :
  (exists v w1,
     generate_class_data w = Return v w1
     /\ same_page_and_session w w1
     /\ cache_extends (cache w) (cache w1)
     /\ forall w2, cache_extends (cache w1) (cache w2) ->
          generate_class_data w2 = Return v w2)
  /\ (exists v w1,
        generate_individual_student_data student w = Return v w1
        /\ same_page_and_session w w1
        /\ cache_extends (cache w) (cache w1)
        /\ forall w2, cache_extends (cache w1) (cache w2) ->
             generate_individual_student_data student w2 = Return v w2).
Proof.
  split.
  - destruct (generate_class_data_run w) as [v [w1 [E [Hs [He [_ Hr]]]]]].
    now exists v, w1.
  - destruct (generate_individual_run student w)
      as [v [w1 [E [Hs [He [_ Hr]]]]]].
    now exists v, w1.
Qed.
(* ===================================================================== *)
(** ** The student report tab never gets to the insights                 *)
(* ===================================================================== *)

(** A generated record has data for the three charts, and tags. *)
Lemma well_formed_outcome (student : pystr) (student_data : individual_record) :
  individual_well_formed student student_data ->
  report_outcome student_data = AttributeError "tag"
  /\ report_page student student_data
     = [ st_subheader ([127919%N] ++ py " Learning Objectives Mastery");
         st_plotly_chart
           (px_bar (student ++ py " - Objective Mastery")
                   (objectives_progress student_data));
         st_subheader ([129302%N] ++ py " AI Collaboration Breakdown");
         st_plotly_chart
           (px_pie (py "Learning Process Composition")
              [ py "Student Original"; py "AI Scaffolding"; py "Collaborative" ]
              (List.map snd (ai_breakdown student_data)));
         st_subheader ([128200%N] ++ py " Writing Growth Timeline");
         st_plotly_chart
           (px_line (py "Writing Quality Over Time")
              (List.map (fun p => (week p, score p))
                        (writing_timeline student_data)));
         st_subheader ([128269%N] ++ py " Curiosity Exploration Paths") ].
Proof.
  intros [_ [Ho [Hw [Ht [_ [_ Hb]]]]]].
  unfold report_outcome, report_page.
  destruct (objectives_progress student_data) as [|item rest];
    [discriminate Ho|].
  assert (Hlen : length (ai_breakdown student_data) = 3%nat).
  { rewrite <- (length_map fst), Hb. reflexivity. }
  rewrite Hlen. cbn [Nat.eqb].
  destruct (writing_timeline student_data) as [|point points];
    [discriminate Hw|].
  destruct (exploration_tags student_data) as [|tag tags];
    [cbn [length] in Ht; lia|].
  now split.
Qed.

(** The student report tab, as shipped, stops at [st.tag].  From every
    cache of generated records (the empty one of a first run is one) a
    run of the tab raises [AttributeError], whatever the browser sent and
    whatever the generator holds: the last thing on the page is the
    heading of the curiosity paths, after the three charts; the tags, the
    topics and the insights are never rendered.  The session is left as it
    was and the cache still holds generated records only. *)
Theorem student_report_stops_at_the_tags (w : world) :
  cache_generated (cache w) ->
  raised (show_student_report w) = Some (AttributeError "tag")
  /\ last (screen (final (show_student_report w)))
     = Some (st_subheader ([128269%N] ++ py " Curiosity Exploration Paths"))
  /\ length (screen (final (show_student_report w)))
     = (length (screen w) + 10)%nat
  /\ session (final (show_student_report w)) = session w
  /\ cache_generated (cache (final (show_student_report w))).
Proof.
  intros Hg. unfold show_student_report.
  do 2 (rewrite bind_emit; cbv beta).
  set (w0 := with_screen _ (with_screen _ w)).
  destruct (generate_class_data_run w0)
    as [generated [w1 [E1 [[Hs1 [Hi1 Hp1]] [_ [Hc1 _]]]]]].
  rewrite (bind_return _ _ _ _ _ E1).
  rewrite (bind_return _ _ _ _ _ (st_selectbox_run _ _ w1)).
  set (selected_student := pick _ _ _).
  set (w2 := with_screen _ w1).
  assert (Hg2 : cache_generated (cache w2)).
  { unfold w2. cbn [cache with_screen]. unfold cache_generated.
    rewrite Hc1. exact Hg. }
  destruct (generate_individual_run selected_student w2)
    as [student_data [w3 [E3 [[Hs3 [Hi3 Hp3]] [_ [Hwf _]]]]]].
  destruct (Hwf Hg2) as [Hd Hg3].
  rewrite (bind_return _ _ _ _ _ E3). rewrite render_report_run.
  destruct (well_formed_outcome _ _ Hd) as [Ho Hpage].
  unfold reaches_insights. rewrite Ho, Hpage.
  cbn [raised final screen with_screen session cache].
  split; [reflexivity|].
  split; [rewrite last_app; reflexivity|].
  split; [|split].
  - rewrite length_app, Hp3. unfold w2. cbn [screen with_screen].
    rewrite length_app, Hp1. unfold w0. cbn [screen with_screen].
    rewrite !length_app. cbn [length]. lia.
  - rewrite Hs3. unfold w2. cbn [session with_screen]. rewrite Hs1.
    reflexivity.
  - exact Hg3.
Qed.

Lemma student_report_stops_at_the_tags_witness :
  let w := world_of initial_session counting_source no_action in
  raised (show_student_report w) = Some (AttributeError "tag")
  /\ last (screen (final (show_student_report w)))
     = Some (st_subheader ([128269%N] ++ py " Curiosity Exploration Paths"))
  /\ length (screen (final (show_student_report w)))
     = (length (screen w) + 10)%nat
  /\ session (final (show_student_report w)) = session w
  /\ cache_generated (cache (final (show_student_report w))).
Proof.
  apply (student_report_stops_at_the_tags
           (world_of initial_session counting_source no_action)).
  intros k v H. cbn in H. now rewrite lookup_empty in H.
Defined.

(** No record gets the individual report to its end.  The run stops with
    [ValueError] at the first chart that has no data: the bar chart of a
    record without objectives (line 377), the pie chart of a breakdown
    that has not three parts (line 393), the line chart of an empty
    timeline (line 405).  With data for the three charts it stops with
    [AttributeError] at [st.tag] (line 418) when the record has a tag,
    drawing nothing; and without a tag with [IndexError] at
    [random.choice] (line 432), after the growth percentage was drawn.
    No insight is ever rendered: the only markdown that a run adds to the
    page is the heading of the topics. *)
Theorem individual_report_always_raises (selected_student : pystr)
    (student_data : individual_record) (w : world) :
  let r := render_report selected_student student_data w in
  raised r <> None
  /\ (objectives_progress student_data = [] -> raised r = Some ValueError)
  /\ (objectives_progress student_data <> [] ->
      length (ai_breakdown student_data) <> 3%nat ->
      raised r = Some ValueError)
  /\ (objectives_progress student_data <> [] ->
      length (ai_breakdown student_data) = 3%nat ->
      writing_timeline student_data = [] ->
      raised r = Some ValueError)
  /\ (objectives_progress student_data <> [] ->
      length (ai_breakdown student_data) = 3%nat ->
      writing_timeline student_data <> [] ->
      (exploration_tags student_data <> [] ->
         raised r = Some (AttributeError "tag") /\ rand (final r) = rand w)
      /\ (exploration_tags student_data = [] ->
            raised r = Some IndexError
            /\ rand (final r) = rand (drawn w)))
  /\ (forall text,
        In (st_markdown text) (screen (final r)) ->
        In (st_markdown text) (screen w)
        \/ text = py "**Exploration Topics:**").
Proof.
  cbv zeta. rewrite render_report_run. cbn [raised final].
  unfold reaches_insights, report_outcome, report_page.
  destruct (objectives_progress student_data) as [|item rest].
  { split; [discriminate|]. split; [reflexivity|].
    split; [congruence|]. split; [congruence|]. split; [congruence|].
    intros text H. cbn [screen with_screen] in H.
    apply in_app_or in H as [H|[H|[]]]; [now left | discriminate H]. }
  destruct (Nat.eqb_spec (length (ai_breakdown student_data)) 3) as [Hb|Hb].
  2:{ split; [discriminate|]. split; [discriminate|].
      split; [reflexivity|]. split; [congruence|]. split; [congruence|].
      intros text H. cbn [screen with_screen] in H.
      apply in_app_or in H as [H|H]; [now left|].
      repeat (destruct H as [H|H]; [discriminate H|]). destruct H. }
  destruct (writing_timeline student_data) as [|point points].
  { split; [discriminate|]. split; [discriminate|].
    split; [congruence|]. split; [reflexivity|]. split; [congruence|].
    intros text H. cbn [screen with_screen] in H.
    apply in_app_or in H as [H|H]; [now left|].
    repeat (destruct H as [H|H]; [discriminate H|]). destruct H. }
  destruct (exploration_tags student_data) as [|tag tags].
  - split; [discriminate|]. split; [discriminate|].
    split; [congruence|]. split; [discriminate|]. split.
    + intros _ _ _. split; [congruence|]. intros _. destruct w. now split.
    + intros text H. cbn [screen with_screen] in H.
      apply in_app_or in H as [H|H]; [now left|].
      do 7 (destruct H as [H|H]; [discriminate H|]).
      destruct H as [H|H]; [injection H as <-; now right|].
      repeat (destruct H as [H|H]; [discriminate H|]). destruct H.
  - split; [discriminate|]. split; [discriminate|].
    split; [congruence|]. split; [discriminate|]. split.
    + intros _ _ _. split; [|discriminate]. intros _. destruct w. now split.
    + intros text H. cbn [screen with_screen] in H.
      apply in_app_or in H as [H|H]; [now left|].
      repeat (destruct H as [H|H]; [discriminate H|]). destruct H.
Qed.

(** The two ways past the charts, run: the example record stops at its
    first tag and draws nothing; the same record without tags stops at
    [random.choice], one draw later. *)
Lemma individual_report_examples :
  let w := world_of initial_session counting_source no_action in
  raised (render_report (py "Jayla Williams") example_student w)
  = Some (AttributeError "tag")
  /\ rand (final (render_report (py "Jayla Williams") example_student w)) 0%nat
     = 0%N
  /\ raised (render_report (py "Jayla Williams") untagged_student w)
     = Some IndexError
  /\ rand (final (render_report (py "Jayla Williams") untagged_student w)) 0%nat
     = 1%N.
Proof. cbv zeta. rewrite !render_report_run. repeat split. Qed.
(* ===================================================================== *)
(** ** Class trends dashboard: counts and ranking                         *)
(* ===================================================================== *)

Lemma str_eqb_sym (a b : pystr) : str_eqb a b = str_eqb b a.
Proof.
  destruct (str_eqb b a) eqn:E.
  - apply str_eqb_eq in E. subst. apply str_eqb_refl.
  - apply str_eqb_neq in E. apply str_eqb_neq. congruence.
Qed.

Lemma get_count_set (key k : pystr) (v : Z) (d : list (pystr * Z)) :
  get_count k (set_count key v d)
  = if str_eqb key k then v else get_count k d.
Proof.
  induction d as [|[k0 n] d IH]; cbn [set_count get_count]; [reflexivity|].
  destruct (str_eqb k0 key) eqn:E; cbn [get_count].
  - apply str_eqb_eq in E. subst k0. now destruct (str_eqb key k).
  - destruct (str_eqb k0 k) eqn:E2; [|exact IH].
    apply str_eqb_eq in E2. subst k0. rewrite str_eqb_sym. now rewrite E.
Qed.

Lemma get_count_up (d : list (pystr * Z)) (key k : pystr) :
  get_count k (count_up d key)
  = get_count k d + (if str_eqb k key then 1 else 0).
Proof.
  unfold count_up. rewrite get_count_set, (str_eqb_sym k key).
  destruct (str_eqb key k) eqn:E; [|lia].
  apply str_eqb_eq in E. now subst.
Qed.

Lemma occurrences_cons (k x : pystr) (l : list pystr) :
  occurrences k (x :: l) = (if str_eqb k x then 1 else 0) + occurrences k l.
Proof.
  unfold occurrences. cbn [List.filter].
  destruct (str_eqb k x); cbn [length]; lia.
Qed.

Lemma occurrences_app (k : pystr) (l l' : list pystr) :
  occurrences k (l ++ l') = occurrences k l + occurrences k l'.
Proof.
  unfold occurrences. rewrite List.filter_app, length_app. lia.
Qed.

Lemma occurrences_nonneg (k : pystr) (l : list pystr) : 0 <= occurrences k l.
Proof. unfold occurrences. lia. Qed.

Lemma occurrences_pos (k : pystr) (l : list pystr) :
  0 < occurrences k l <-> In k l.
Proof.
  induction l as [|x l IH].
  { split; [intros H; vm_compute in H; discriminate H | intros []]. }
  rewrite occurrences_cons. pose proof (occurrences_nonneg k l).
  destruct (str_eqb k x) eqn:E.
  - apply str_eqb_eq in E. subst x. split; [now left | lia].
  - apply str_eqb_neq in E. split.
    + intros Hp. right. apply IH. lia.
    + intros [Hx | Hin]; [congruence|]. apply IH in Hin. lia.
Qed.

(** A string occurs at most once in a list without duplicates. *)
Lemma occurrences_NoDup (k : pystr) (l : list pystr) :
  NoDup l -> occurrences k l = if bool_decide (k ∈ l) then 1 else 0.
Proof.
  induction 1 as [|x l Hx Hl IH]; [reflexivity|].
  rewrite occurrences_cons, IH.
  destruct (str_eqb k x) eqn:E.
  - apply str_eqb_eq in E. subst x.
    rewrite (bool_decide_eq_false_2 _ Hx).
    rewrite bool_decide_eq_true_2 by (now left). reflexivity.
  - apply str_eqb_neq in E. rewrite Z.add_0_l.
    rewrite (bool_decide_ext (k ∈ x :: l) (k ∈ l)); [reflexivity|].
    rewrite elem_of_cons. tauto.
Qed.

(** After the counting loop every key has the count it had before, plus
    the number of its occurrences. *)
Lemma get_count_tally (l : list pystr) :
  forall (d : list (pystr * Z)) (k : pystr),
    get_count k (fold_left count_up l d) = get_count k d + occurrences k l.
Proof.
  induction l as [|x l IH]; intros d k; cbn [fold_left].
  - unfold occurrences. cbn. lia.
  - rewrite IH, get_count_up, occurrences_cons. lia.
Qed.

Lemma set_count_old_key (key : pystr) (v : Z) (d : list (pystr * Z)) :
  In key (List.map fst d) ->
  List.map fst (set_count key v d) = List.map fst d.
Proof.
  induction d as [|[k0 n] d IH]; cbn [set_count List.map fst];
    [intros []|].
  intros Hin. destruct (str_eqb k0 key) eqn:E; [reflexivity|].
  cbn [List.map fst]. f_equal. apply IH.
  destruct Hin as [Hk | Hin]; [|exact Hin].
  apply str_eqb_neq in E. congruence.
Qed.

Lemma set_count_new_key (key : pystr) (v : Z) (d : list (pystr * Z)) :
  ~ In key (List.map fst d) ->
  List.map fst (set_count key v d) = List.map fst d ++ [key].
Proof.
  induction d as [|[k0 n] d IH]; cbn [set_count List.map fst]; [reflexivity|].
  intros Hin. destruct (str_eqb k0 key) eqn:E.
  - apply str_eqb_eq in E. subst k0. exfalso. apply Hin. now left.
  - cbn [List.map fst app]. f_equal. apply IH. intros H. apply Hin. now right.
Qed.

Lemma count_up_keys (d : list (pystr * Z)) (key : pystr) :
  NoDup (List.map fst d) ->
  NoDup (List.map fst (count_up d key))
  /\ forall k, In k (List.map fst (count_up d key))
               <-> In k (List.map fst d) \/ k = key.
Proof.
  intros Hnd. unfold count_up.
  destruct (decide (key ∈ List.map fst d)) as [Hin|Hin];
    rewrite list_elem_of_In in Hin.
  - rewrite (set_count_old_key _ _ _ Hin). split; [exact Hnd|].
    intros k. split; [tauto|]. intros [H | ->]; assumption.
  - rewrite (set_count_new_key _ _ _ Hin). split.
    + apply NoDup_app. split; [exact Hnd|]. split; [|apply NoDup_singleton].
      intros x Hx Hx'. apply list_elem_of_singleton in Hx'. subst x.
      apply Hin. now apply list_elem_of_In.
    + intros k. rewrite in_app_iff. cbn [In]. split.
      * intros [H | [H | []]]; [now left | now right].
      * intros [H | ->]; [now left | right; now left].
Qed.

Lemma tally_keys (l : list pystr) :
  forall d : list (pystr * Z),
    NoDup (List.map fst d) ->
    NoDup (List.map fst (fold_left count_up l d))
    /\ forall k, In k (List.map fst (fold_left count_up l d))
                 <-> In k (List.map fst d) \/ In k l.
Proof.
  induction l as [|x l IH]; intros d Hnd; cbn [fold_left].
  - split; [exact Hnd|]. intros k. cbn [In]. tauto.
  - destruct (count_up_keys d x Hnd) as [Hnd' Hk].
    destruct (IH _ Hnd') as [Hnd'' Hk'']. split; [exact Hnd''|].
    intros k. rewrite Hk'', Hk. cbn [In]. split.
    + intros [[H | ->] | H]; auto.
    + intros [H | [<- | H]]; auto.
Qed.

Lemma get_count_of_entry (d : list (pystr * Z)) (k : pystr) (n : Z) :
  NoDup (List.map fst d) -> In (k, n) d -> get_count k d = n.
Proof.
  induction d as [|[k0 n0] d IH]; cbn [List.map fst In get_count];
    [intros _ []|].
  intros Hnd Hin. apply NoDup_cons in Hnd as [Hk0 Hnd].
  destruct Hin as [E | Hin].
  - injection E as -> ->. now rewrite str_eqb_refl.
  - destruct (str_eqb k0 k) eqn:E; [|now apply IH].
    apply str_eqb_eq in E. subst k0. exfalso. apply Hk0.
    apply list_elem_of_In. apply in_map_iff. now exists (k, n).
Qed.

Lemma entry_of_key (d : list (pystr * Z)) (k : pystr) :
  In k (List.map fst d) -> In (k, get_count k d) d.
Proof.
  induction d as [|[k0 n0] d IH]; cbn [List.map fst In get_count];
    [intros []|].
  intros Hin. destruct (str_eqb k0 k) eqn:E.
  - apply str_eqb_eq in E. subst k0. now left.
  - right. apply IH. destruct Hin as [Hk | Hin]; [|exact Hin].
    apply str_eqb_neq in E. congruence.
Qed.

(** The dict that the counting loop builds from nothing: one entry for
    each string of the list, with the number of its occurrences. *)
Lemma tally_entry (l : list pystr) (k : pystr) (n : Z) :
  In (k, n) (fold_left count_up l [])
  <-> In k l /\ n = occurrences k l.
Proof.
  destruct (tally_keys l [] (NoDup_nil_2 : NoDup (List.map fst [])))
    as [Hnd Hk].
  pose proof (get_count_tally l [] k) as Hc. cbn [get_count] in Hc.
  split.
  - intros Hin. split.
    + assert (H : In k (List.map fst (fold_left count_up l [])))
        by (apply in_map_iff; now exists (k, n)).
      apply Hk in H as [[] | H]. exact H.
    + rewrite <- (get_count_of_entry _ _ _ Hnd Hin). lia.
  - intros [Hin ->].
    assert (H : In k (List.map fst (fold_left count_up l [])))
      by (apply Hk; now right).
    apply entry_of_key in H. rewrite Hc in H. exact H.
Qed.

Lemma fold_left_flat_map {A B C} (g : C -> B -> C) (f : A -> list B)
    (l : list A) :
  forall acc,
    fold_left (fun acc x => fold_left g (f x) acc) l acc
    = fold_left g (flat_map f l) acc.
Proof.
  induction l as [|x l IH]; intros acc; cbn [fold_left flat_map];
    [reflexivity|].
  now rewrite fold_left_app, IH.
Qed.

Lemma all_paths_flat_map (class_data : list student_record) :
  all_paths class_data = flat_map curiosity_paths class_data.
Proof.
  unfold all_paths.
  enough (H : forall acc,
             fold_left (fun paths student => paths ++ curiosity_paths student)
                       class_data acc
             = acc ++ flat_map curiosity_paths class_data) by apply H.
  induction class_data as [|s l IH]; intros acc; cbn [fold_left flat_map].
  - now rewrite app_nil_r.
  - now rewrite IH, <- app_assoc.
Qed.

Lemma confusion_counts_flat_map (class_data : list student_record) :
  confusion_counts class_data
  = fold_left count_up (flat_map confusion_areas class_data) [].
Proof. unfold confusion_counts. apply fold_left_flat_map. Qed.

(** When no student lists a string twice, the occurrences of a string in
    all the lists are the students that list it. *)
Lemma occurrences_flat_map (f : student_record -> list pystr) (k : pystr)
    (class_data : list student_record) :
  Forall (fun student => NoDup (f student)) class_data ->
  occurrences k (flat_map f class_data)
  = students_where (fun student => bool_decide (k ∈ f student)) class_data.
Proof.
  unfold students_where.
  induction 1 as [|s l Hs Hl IH]; [reflexivity|].
  cbn [flat_map List.filter]. rewrite occurrences_app, IH.
  rewrite (occurrences_NoDup _ _ Hs).
  destruct (bool_decide (k ∈ f s)); cbn [length]; lia.
Qed.

(** The counts of the two dicts are numbers of students.  When no student
    lists a path or a confusion area twice (the generated rosters are so),
    the dict of path counts has an entry (path, n) exactly when n
    students, and at least one, explored the path; and the dict of
    confusion counts an entry (objective, n) exactly when n students, and
    at least one, are confused by the objective. *)
Theorem counts_are_numbers_of_students (class_data : list student_record)
    (key : pystr) (n : Z) :
  Forall (fun student => NoDup (curiosity_paths student)
                         /\ NoDup (confusion_areas student)) class_data ->
  (In (key, n) (path_counts (all_paths class_data))
   <-> 0 < n /\ n = students_where (explored key) class_data)
  /\ (In (key, n) (confusion_counts class_data)
      <-> 0 < n /\ n = students_where (confused_by key) class_data).
Proof.
  intros H.
  assert (Hp : Forall (fun s => NoDup (curiosity_paths s)) class_data)
    by (eapply Forall_impl; [exact H | now intros s []]).
  assert (Hc : Forall (fun s => NoDup (confusion_areas s)) class_data)
    by (eapply Forall_impl; [exact H | now intros s []]).
  unfold path_counts. rewrite all_paths_flat_map, confusion_counts_flat_map.
  rewrite !tally_entry, <- !occurrences_pos.
  rewrite (occurrences_flat_map curiosity_paths key _ Hp).
  rewrite (occurrences_flat_map confusion_areas key _ Hc).
  fold (explored key). fold (confused_by key).
  change (fun student => bool_decide (key ∈ curiosity_paths student))
    with (explored key).
  change (fun student => bool_decide (key ∈ confusion_areas student))
    with (confused_by key).
  split; split; intros [H1 H2]; subst n; now split.
Qed.

Lemma counts_are_numbers_of_students_witness :
  (In (py "Economic Factors", 2) (path_counts (all_paths two_students))
   <-> 0 < 2 /\ 2 = students_where (explored (py "Economic Factors")) two_students)
  /\ (In (py "Economic Factors", 2) (confusion_counts two_students)
      <-> 0 < 2
          /\ 2 = students_where (confused_by (py "Economic Factors")) two_students).
Proof.
  apply (counts_are_numbers_of_students two_students (py "Economic Factors") 2).
  repeat constructor; try (apply (bool_decide_unpack _); vm_compute; exact I).
Defined.

(** *** The ranking *)

Lemma insert_by_count_perm (x : pystr * Z) (l : list (pystr * Z)) :
  Permutation (insert_by_count x l) (x :: l).
Proof.
  induction l as [|y l IH]; cbn [insert_by_count]; [reflexivity|].
  destruct (snd x <? snd y); [|reflexivity].
  rewrite IH. apply perm_swap.
Qed.

Lemma sorted_by_count_perm (l : list (pystr * Z)) :
  Permutation (sorted_by_count l) l.
Proof.
  induction l as [|x l IH]; [reflexivity|].
  unfold sorted_by_count. cbn [fold_right].
  rewrite insert_by_count_perm. now constructor.
Qed.

Lemma descending_insert (x : pystr * Z) (l : list (pystr * Z)) :
  descending l -> descending (insert_by_count x l).
Proof.
  induction l as [|y l IH]; cbn [insert_by_count descending].
  - intros _. split; [constructor | exact I].
  - intros [Hy Hl]. destruct (Z.ltb_spec (snd x) (snd y)) as [Hlt|Hge].
    + cbn [descending]. split; [|now apply IH].
      rewrite (insert_by_count_perm x l). constructor; [lia | exact Hy].
    + cbn [descending]. split; [|now split].
      constructor; [exact Hge|].
      eapply Forall_impl; [exact Hy|]. cbv beta. intros z Hz. lia.
Qed.

Lemma sorted_by_count_descending (l : list (pystr * Z)) :
  descending (sorted_by_count l).
Proof.
  induction l as [|x l IH]; [exact I|].
  unfold sorted_by_count. cbn [fold_right]. now apply descending_insert.
Qed.

(** The sort is stable: entries with the same count keep their order. *)
Lemma insert_by_count_stable (n : Z) (x : pystr * Z) (l : list (pystr * Z)) :
  descending l ->
  List.filter (fun e => snd e =? n) (insert_by_count x l)
  = List.filter (fun e => snd e =? n) (x :: l).
Proof.
  induction l as [|y l IH]; cbn [insert_by_count]; [reflexivity|].
  intros [Hy Hl]. destruct (Z.ltb_spec (snd x) (snd y)) as [Hlt|Hge];
    [|reflexivity].
  cbn [List.filter] in *. rewrite (IH Hl).
  destruct (Z.eqb_spec (snd x) n) as [Ex|Ex]; [|reflexivity].
  destruct (Z.eqb_spec (snd y) n) as [Ey|Ey]; [lia | reflexivity].
Qed.

Lemma sorted_by_count_stable (n : Z) (l : list (pystr * Z)) :
  List.filter (fun e => snd e =? n) (sorted_by_count l)
  = List.filter (fun e => snd e =? n) l.
Proof.
  induction l as [|x l IH]; [reflexivity|].
  unfold sorted_by_count. cbn [fold_right].
  rewrite insert_by_count_stable by apply sorted_by_count_descending.
  cbn [List.filter]. fold (sorted_by_count l). now rewrite IH.
Qed.

Lemma descending_app (l l' : list (pystr * Z)) :
  descending (l ++ l') ->
  descending l
  /\ forall x y, In x l -> In y l' -> snd y <= snd x.
Proof.
  induction l as [|a l IH]; cbn [app descending].
  - intros _. split; [exact I|]. intros x y [].
  - intros [Ha Hl]. destruct (IH Hl) as [Hd Hxy].
    apply Forall_app in Ha as [Ha Ha']. split; [now split|].
    intros x y [<- | Hx] Hy; [|now apply Hxy].
    rewrite Forall_forall in Ha'. apply Ha'. now apply list_elem_of_In.
Qed.

(** The ranking shows the five most explored paths (all of them, when
    there are fewer): its counts never go up, every entry of it is an
    entry of the dict of path counts, no entry that is left out has a
    larger count than one that is shown, and among the entries with one
    count the ones shown are the first ones of the dict. *)
Theorem top_paths_are_the_most_explored (class_data : list student_record) :
  let counts := path_counts (all_paths class_data) in
  let ranking := top_paths class_data in
  length ranking = Nat.min 5 (length counts)
  /\ descending ranking
  /\ (forall e, In e ranking -> In e counts)
  /\ (forall e e', In e ranking -> In e' counts -> ~ In e' ranking ->
        snd e' <= snd e)
  /\ (forall n, exists rest,
        List.filter (fun e => snd e =? n) counts
        = List.filter (fun e => snd e =? n) ranking ++ rest).
Proof.
  cbv zeta. unfold top_paths.
  set (counts := path_counts (all_paths class_data)).
  pose proof (sorted_by_count_perm counts) as Hperm.
  pose proof (sorted_by_count_descending counts) as Hdesc.
  pose proof (take_drop 5 (sorted_by_count counts)) as Hsplit.
  rewrite <- Hsplit in Hdesc. apply descending_app in Hdesc as [Hd Hxy].
  split; [|split; [exact Hd | split; [|split]]].
  - rewrite length_take. now rewrite (Permutation_length Hperm).
  - intros e He. apply (Permutation_in _ Hperm).
    rewrite <- Hsplit. apply in_or_app. now left.
  - intros e e' He He' Hnot. apply Hxy; [exact He|].
    apply (Permutation_in _ (Permutation_sym Hperm)) in He'.
    rewrite <- Hsplit in He'. apply in_app_or in He' as [H | H];
      [contradiction | exact H].
  - intros n. exists (List.filter (fun e => snd e =? n)
                                  (drop 5 (sorted_by_count counts))).
    rewrite <- List.filter_app, Hsplit. symmetry. apply sorted_by_count_stable.
Qed.

(** *** The confusion chart and the summary counts *)

Lemma tally_nil (l : list pystr) :
  fold_left count_up l [] = [] <-> l = [].
Proof.
  split; [|now intros ->].
  destruct l as [|x l]; [reflexivity|]. intros E. exfalso.
  assert (H : In (x, occurrences x (x :: l)) (fold_left count_up (x :: l) []))
    by (apply tally_entry; split; [now left | reflexivity]).
  rewrite E in H. destruct H.
Qed.

Lemma need_support_zero (class_data : list student_record) :
  need_support class_data = 0
  <-> flat_map confusion_areas class_data = [].
Proof.
  unfold need_support.
  induction class_data as [|s l IH]; [now split|].
  cbn [flat_map List.filter].
  destruct (confusion_areas s) as [|a areas]; cbn [app length].
  - exact IH.
  - split; [lia | discriminate].
Qed.

(** The bar chart of confusion areas is drawn exactly when the metric
    "Students Needing Support" is not zero; and the two counts of the
    summary, the students with three or more curiosity paths and the
    students needing support, are numbers of students of the roster. *)
Theorem confusion_chart_when_support_needed
    (class_data : list student_record) :
  (confusion_chart_drawn class_data = true <-> 0 < need_support class_data)
  /\ high_curiosity class_data
     = students_where
         (fun student => 3 <=? Z.of_nat (length (curiosity_paths student)))
         class_data
  /\ 0 <= high_curiosity class_data <= Z.of_nat (length class_data)
  /\ 0 <= need_support class_data <= Z.of_nat (length class_data).
Proof.
  split; [|split; [|split]].
  - unfold confusion_chart_drawn. rewrite confusion_counts_flat_map.
    pose proof (tally_nil (flat_map confusion_areas class_data)) as Ht.
    pose proof (need_support_zero class_data) as Hn.
    assert (H0 : 0 <= need_support class_data) by (unfold need_support; lia).
    destruct (fold_left count_up (flat_map confusion_areas class_data) []).
    + split; [discriminate|]. intros Hp.
      assert (need_support class_data = 0) by (apply Hn, Ht; reflexivity). lia.
    + split; [|reflexivity]. intros _.
      destruct (Z.eq_dec (need_support class_data) 0) as [E|E]; [|lia].
      apply Hn, Ht in E. discriminate E.
  - unfold high_curiosity. apply sum_ones.
  - unfold high_curiosity. rewrite sum_ones.
    pose proof (List.filter_length_le
                  (fun student => 3 <=? Z.of_nat (length (curiosity_paths student)))
                  class_data). lia.
  - unfold need_support.
    pose proof (List.filter_length_le
                  (fun student => match confusion_areas student with
                                  | [] => false | _ => true end)
                  class_data). lia.
Qed.

(** *** The rows of the box plot *)

Lemma mastery_rows_of_student (student : student_record) (o : pystr) :
  List.map fst (objectives_mastered student) = objectives_ ->
  In o objectives_ ->
  length (List.filter (fun row => str_eqb (fst (fst row)) o)
            (List.map (fun item => (fst item, student_name student, snd item))
                      (objectives_mastered student)))
  = 1%nat.
Proof.
  intros Hkeys Ho.
  assert (E : forall items : list (pystr * Q),
             length (List.filter (fun row => str_eqb (fst (fst row)) o)
                       (List.map (fun item => (fst item, student_name student,
                                               snd item)) items))
             = length (List.filter (str_eqb o) (List.map fst items))).
  { induction items as [|item items IH]; [reflexivity|].
    cbn [List.map List.filter fst snd].
    rewrite (str_eqb_sym (fst item) o).
    destruct (str_eqb o (fst item)); cbn [length]; now rewrite IH. }
  rewrite E, Hkeys.
  assert (H : occurrences o objectives_ = 1).
  { rewrite (occurrences_NoDup _ _ objectives_NoDup).
    rewrite bool_decide_eq_true_2; [reflexivity|]. now apply list_elem_of_In. }
  unfold occurrences in H. lia.
Qed.

(** When every student has a mastery for each of the five objectives (the
    generated rosters are so), the data of the box plot has five rows per
    student, and for each objective one row per student: every box is
    drawn from the whole class. *)
Theorem mastery_rows_cover_the_class (class_data : list student_record)
    (o : pystr) :
  Forall (fun student =>
            List.map fst (objectives_mastered student) = objectives_)
         class_data ->
  In o objectives_ ->
  length (mastery_data class_data) = (5 * length class_data)%nat
  /\ length (List.filter (fun row => str_eqb (fst (fst row)) o)
                         (mastery_data class_data))
     = length class_data
  /\ List.map (fun row => snd (fst row)) (mastery_data class_data)
     = flat_map (fun student => repeat (student_name student) 5) class_data.
Proof.
  intros H Ho. unfold mastery_data.
  induction H as [|s l Hs Hl IH]; [now repeat split|].
  destruct IH as [IH1 [IH2 IH3]]. cbn [flat_map length].
  rewrite length_app, List.filter_app, length_app, List.map_app, IH1, IH2, IH3.
  rewrite (mastery_rows_of_student s o Hs Ho), length_map.
  assert (Hlen : length (objectives_mastered s) = 5%nat).
  { rewrite <- (length_map fst), Hs. reflexivity. }
  rewrite Hlen. split; [lia|]. split; [lia|]. f_equal.
  rewrite List.map_map. cbn [fst snd].
  destruct (objectives_mastered s) as [|a [|b [|c [|d [|e [|]]]]]];
    try discriminate Hlen. reflexivity.
Qed.

Lemma mastery_rows_cover_the_class_witness :
  let student :=
    {| student_name := py "Jayla Williams";
       objectives_mastered := List.map (fun obj => (obj, 7 # 10)) objectives_;
       writing_scores := [];
       curiosity_paths := [];
       ai_support_level := 3 # 10;
       total_time_minutes := 45;
       questions_asked := 3;
       revisions_made := 2;
       confusion_areas := [] |} in
  length (mastery_data [student; student]) = (5 * 2)%nat
  /\ length (List.filter
               (fun row => str_eqb (fst (fst row)) (py "Synthesize information"))
               (mastery_data [student; student]))
     = 2%nat
  /\ List.map (fun row => snd (fst row)) (mastery_data [student; student])
     = flat_map (fun student => repeat (student_name student) 5)
                [student; student].
Proof.
  intros student.
  apply (mastery_rows_cover_the_class [student; student]
           (py "Synthesize information")).
  - repeat constructor.
  - vm_compute. tauto.
Defined.
